(** * ThermoFun: the model-dispatch engine, its record store and the CSV export

    A shallow embedding of

    - [src/Database.cpp]      (the record store: [Database::Impl]),
    - [src/ThermoEngine.cpp]  (the dispatch engine: [ThermoEngine::Impl]),
    - [ThermoFun/Common/OutputWaterSteamConventionProp.cpp] (the CSV export),

    followed by the properties proved about them: first the functions that
    the numbered claims C1 to C10 are about, then the other functions of these
    files (the listing functions of the store, the public functions of
    [ThermoEngine]) with further properties, numbered X1 to X27.

    Conventions of the embedding.

    - A C++ [double] is an element of a type [num] that carries the
      operations the engine uses (class [Scalar]).  Two instances are given:
      binary64 floating-point numbers (the kernel's primitive floats) and
      exact rationals.  Every theorem whose statement does not mention
      [ExactScalar] holds for both.
    - A function that can throw returns a [Result].
    - The four evaluation functions of the engine call each other through
      memoized entry points.  Their bodies are written once, as programs
      ([Prog]) whose only effects are raising an error and invoking an entry
      point; the programs are then run against the caches ([run]).
    - The physical models ([EmpiricalCpIntegration], [SoluteHKFgems], ...)
      are not part of these sources; they are parameters ([Models]). *)

From Stdlib Require Import ZArith QArith Floats Uint63 Lia.
From Stdlib Require Qcanon.
From stdpp Require Import base option list strings gmap sorting.

Local Open Scope string_scope.
Local Open Scope Z_scope.

(* ===================================================================== *)
(** * Scalars                                                             *)
(* ===================================================================== *)

(** The arithmetic of [double] that the engine relies on.  [lit] reads a
    decimal literal of the source, given as a fraction. *)
Class Scalar (num : Type) := {
  num_eq_dec :: EqDecision num;
  zero : num;
  one : num;
  add : num -> num -> num;
  sub : num -> num -> num;
  mul : num -> num -> num;
  div : num -> num -> num;
  opp : num -> num;
  lit : Q -> num
}.

(** The laws of exact arithmetic that the closure property of
    reaction-derived substances needs; binary64 arithmetic is not claimed to
    satisfy them in this file. *)
Class ExactScalar (num : Type) `{Scalar num} : Prop := {
  sub_mul_opp_one : forall x y : num, sub x (mul y (opp one)) = add x y;
  div_one : forall x : num, div x one = x;
  add_swap : forall x y z : num, add (add x y) z = add (add x z) y
}.

(** The laws of a field that the comparison of
    [thermoPropertiesReactionFromReactants] with [reacDCthermoProperties]
    needs; binary64 arithmetic does not satisfy them. *)
Class ExactField (num : Type) `{Scalar num} : Prop := {
  exact_add_zero_l : forall x : num, add zero x = x;
  exact_add_zero_r : forall x : num, add x zero = x;
  exact_add_comm : forall x y : num, add x y = add y x;
  exact_add_assoc : forall x y z : num, add (add x y) z = add x (add y z);
  exact_sub_zero_r : forall x : num, sub x zero = x;
  exact_sub_sub : forall x y z : num, sub (sub x y) z = sub x (add y z);
  exact_sub_add_cancel : forall x y : num, add (sub x y) y = x;
  exact_div_mul_cancel : forall x y : num, y <> zero -> mul (div x y) y = x
}.

(** ** Instance: binary64 *)

Definition float_of_Z (z : Z) : float :=
  match z with
  | Z0 => PrimFloat.of_uint63 (Uint63.of_Z 0)
  | Zpos _ => PrimFloat.of_uint63 (Uint63.of_Z z)
  | Zneg p => PrimFloat.opp (PrimFloat.of_uint63 (Uint63.of_Z (Zpos p)))
  end.

(** Equality of two doubles bit for bit: [PrimFloat.Leibniz.eqb] tells +0
    from -0 and takes a NaN to be equal to itself. *)
#[export] Instance float_eq_dec : EqDecision float := fun x y =>
  match PrimFloat.Leibniz.eqb x y as b
        return PrimFloat.Leibniz.eqb x y = b -> Decision (x = y) with
  | true => fun H => left (proj1 (FloatAxioms.Leibniz.eqb_spec x y) H)
  | false => fun H =>
      right (fun Hxy : x = y =>
               Bool.diff_true_false
                 (eq_trans (eq_sym (proj2 (FloatAxioms.Leibniz.eqb_spec x y) Hxy)) H))
  end eq_refl.

#[export] Instance float_Scalar : Scalar float := {|
  zero := 0%float;
  one := 1%float;
  add := PrimFloat.add;
  sub := PrimFloat.sub;
  mul := PrimFloat.mul;
  div := PrimFloat.div;
  opp := PrimFloat.opp;
  lit := fun q => PrimFloat.div (float_of_Z (Qnum q)) (float_of_Z (Zpos (Qden q)))
|}.

(** ** Instance: exact rationals *)

#[export] Instance Q_eq_dec : EqDecision Q.
Proof. solve_decision. Defined.

#[export] Instance Q_Scalar : Scalar Q := {|
  zero := 0%Q;
  one := 1%Q;
  add := Qplus;
  sub := Qminus;
  mul := Qmult;
  div := Qdiv;
  opp := Qopp;
  lit := fun q => q
|}.

(** ** Instance: rationals in lowest terms *)

Definition Qc_EqDecision : EqDecision Qcanon.Qc := Qcanon.Qc_eq_dec.

Definition Qc_Scalar : Scalar Qcanon.Qc := {|
  num_eq_dec := Qc_EqDecision;
  zero := Qcanon.Q2Qc 0;
  one := Qcanon.Q2Qc 1;
  add := Qcanon.Qcplus;
  sub := Qcanon.Qcminus;
  mul := Qcanon.Qcmult;
  div := Qcanon.Qcdiv;
  opp := Qcanon.Qcopp;
  lit := Qcanon.Q2Qc
|}.


(* ===================================================================== *)
(** * Errors and results                                                  *)
(* ===================================================================== *)

(** [Exception] as [errorNonExistent] fills it in. *)
Record Exception := {
  error : string;
  reason : string;
  line : Z
}.

(** What an evaluation can end with instead of a value.

    - [RaiseError]: [RaiseError(exception)], the only throw of
      [Database.cpp].
    - [ReactionNotDefined]: [errorReactionNotDefined(symbol, line, file)];
      [__FILE__] depends on the build and is left out.
    - [OutOfRange]: [std::out_of_range], thrown by [std::map::at].
    - [MethodNotFound]: [errorMethodNotFound(type, symbol, line)]; the
      engine names it only in [default:] branches that are commented out.
    - [Diverges]: the nesting of entry-point invocations exceeded the fuel
      of the run; it stands for an evaluation that does not return. *)
Inductive Error :=
| RaiseError (exception : Exception)
| ReactionNotDefined (symbol : string) (line : Z)
| OutOfRange (what : string)
| MethodNotFound (type symbol : string) (line : Z)
| Diverges.

Inductive Result (A : Type) :=
| Ok (a : A)
| Err (e : Error).
Arguments Ok {A} a.
Arguments Err {A} e.

Definition is_MethodNotFound (e : Error) : Prop :=
  match e with
  | MethodNotFound _ _ _ => True
  | _ => False
  end.

Definition is_Ok {A} (r : Result A) : Prop := exists a, r = Ok a.

#[export] Instance Exception_eq_dec : EqDecision Exception.
Proof. solve_decision. Defined.
#[export] Instance Error_eq_dec : EqDecision Error.
Proof. solve_decision. Defined.

(* ===================================================================== *)
(** * Method codes and record classes                                     *)
(* ===================================================================== *)

(** The Thrift enumerations are declared outside these sources.  Each is
    modelled by the codes the engine names, plus one constructor for every
    other code of the enumeration. *)

Inductive MethodGenEoS :=
| CTPM_CPT | CTPM_HKF | CTPM_HKFR
| CTPM_WJNR | CTPM_WJNG | CTPM_WSV14 | CTPM_WF97
| CTPM_other (code : Z).

Inductive MethodCorrT :=
| CTM_CHP
| CTM_WAT | CTM_WAR | CTM_WWP | CTM_WZD
| CTM_LGX | CTM_LGK | CTM_EK0 | CTM_EK1 | CTM_EK3 | CTM_EK2
| CTM_DKR | CTM_MRB | CTM_IKZ
| CTM_other (code : Z).

Inductive MethodCorrP :=
| CPM_AKI | CPM_CEH | CPM_VBE | CPM_VBM | CPM_CORK | CPM_PRSV | CPM_EMP
| CPM_SRK | CPM_PR78 | CPM_STP | CPM_CON | CPM_OFF
| CPM_GAS | CPM_VKE | CPM_NUL
| CPM_other (code : Z).

Inductive SubstanceClass := AQSOLVENT | SubstanceClass_other (code : Z).
Inductive AggregateState := GAS | AggregateState_other (code : Z).
Inductive SubstanceThermoCalculationType :=
| REACDC | SubstanceThermoCalculationType_other (code : Z).

#[export] Instance MethodGenEoS_eq_dec : EqDecision MethodGenEoS.
Proof. solve_decision. Defined.
#[export] Instance MethodCorrT_eq_dec : EqDecision MethodCorrT.
Proof. solve_decision. Defined.
#[export] Instance MethodCorrP_eq_dec : EqDecision MethodCorrP.
Proof. solve_decision. Defined.
#[export] Instance SubstanceClass_eq_dec : EqDecision SubstanceClass.
Proof. solve_decision. Defined.
#[export] Instance AggregateState_eq_dec : EqDecision AggregateState.
Proof. solve_decision. Defined.
#[export] Instance SubstanceThermoCalculationType_eq_dec :
  EqDecision SubstanceThermoCalculationType.
Proof. solve_decision. Defined.

(* ===================================================================== *)
(** * [std::map<std::string, V>]                                          *)
(* ===================================================================== *)

(** The reactants of a reaction are iterated in key order, and floating-point
    subtraction is not associative, so the order is part of the model: a
    [std::map] with string keys is the list of its entries in increasing key
    order. *)
Module StdMap.

Fixpoint insert {V} (k : string) (v : V) (m : list (string * V))
  : list (string * V) :=
  match m with
  | [] => [(k, v)]
  | (k', v') :: m' =>
      match String.compare k k' with
      | Lt => (k, v) :: m
      | Eq => m                                  (* [insert] keeps the entry *)
      | Gt => (k', v') :: insert k v m'
      end
  end.

(** Brace initialisation [{ {k1, v1}, {k2, v2}, ... }]. *)
Definition of_list {V} (l : list (string * V)) : list (string * V) :=
  fold_left (fun m kv => insert kv.1 kv.2 m) l [].

Fixpoint find {V} (k : string) (m : list (string * V)) : option V :=
  match m with
  | [] => None
  | (k', v') :: m' => if decide (k' = k) then Some v' else find k m'
  end.

(** [m[k]] read as a value: the mapped value, or a value-initialised one. *)
Definition index {V} (dflt : V) (k : string) (m : list (string * V)) : V :=
  default dflt (find k m).

(** [m.at(k)] *)
Definition at_ {V} (k : string) (m : list (string * V)) : Result V :=
  match find k m with
  | Some v => Ok v
  | None => Err (OutOfRange "map::at")
  end.

End StdMap.

(* ===================================================================== *)
(** * Records of the store                                                *)
(* ===================================================================== *)

Section Records.
Context {num : Type}.

Record Substance := {
  name : string;
  symbol : string;
  formula : string;
  reactionSymbol : string;
  substanceClass : SubstanceClass;
  aggregateState : AggregateState;
  thermoCalculationType : SubstanceThermoCalculationType;
  methodGenEOS : MethodGenEoS;
  method_T : MethodCorrT;
  method_P : MethodCorrP;
  referenceT : num;
  referenceP : num
}.

Record Reaction := {
  reaction_name : string;
  reaction_symbol : string;
  reaction_method_T : MethodCorrT;
  reaction_method_P : MethodCorrP;
  reactants : list (string * num)     (* [std::map<std::string, double>] *)
}.

(** ** [Database::Impl] *)

Record Database := {
  substances_map : gmap string Substance;
  reactions_map : gmap string Reaction
}.

(** [Impl()]: both maps empty. *)
Definition Database_new : Database :=
  {| substances_map := ∅; reactions_map := ∅ |}.

(** [std::map::insert]: the entry is added unless the key is taken. *)
Definition map_insert {V} (k : string) (v : V) (m : gmap string V) : gmap string V :=
  match m !! k with
  | Some _ => m
  | None => <[k := v]> m
  end.

Definition map_count {V} (m : gmap string V) (k : string) : Z :=
  match m !! k with
  | Some _ => 1
  | None => 0
  end.

Definition errorNonExistent {A} (type name : string) (line : Z) : Result A :=
  Err (RaiseError
    {| error := "Cannot get an instance of the " +:+ type +:+ " `" +:+ name
                  +:+ "` in the database.";
       reason := "There is no such " +:+ type +:+ " in the database.";
       line := line |}).

Definition addSubstance (substance : Substance) (db : Database) : Database :=
  {| substances_map := map_insert (name substance) substance (substances_map db);
     reactions_map := reactions_map db |}.

Definition addReaction (reaction : Reaction) (db : Database) : Database :=
  {| substances_map := substances_map db;
     reactions_map := map_insert (reaction_name reaction) reaction (reactions_map db) |}.

Definition getSubstance (db : Database) (name : string) : Result Substance :=
  if decide (map_count (substances_map db) name = 0)
  then errorNonExistent "substance" name 189
  else match substances_map db !! name with
       | Some s => Ok s
       | None => errorNonExistent "substance" name 189   (* not reached *)
       end.

Definition getReaction (db : Database) (name : string) : Result Reaction :=
  if decide (map_count (reactions_map db) name = 0)
  then errorNonExistent "reaction" name 197
  else match reactions_map db !! name with
       | Some r => Ok r
       | None => errorNonExistent "reaction" name 197     (* not reached *)
       end.

Definition containsSubstance (db : Database) (name : string) : bool :=
  bool_decide (map_count (substances_map db) name <> 0).

Definition containsReaction (db : Database) (name : string) : bool :=
  bool_decide (map_count (reactions_map db) name <> 0).

(** The stores a client can build: [Database()] followed by
    [addSubstance] and [addReaction]. *)
Inductive Database_built : Database -> Prop :=
| built_new : Database_built Database_new
| built_addSubstance s db :
    Database_built db -> Database_built (addSubstance s db)
| built_addReaction r db :
    Database_built db -> Database_built (addReaction r db).

End Records.
Arguments Substance : clear implicits.
Arguments Reaction : clear implicits.
Arguments Database : clear implicits.

(** ** Listing the store *)

Section Listing.
Context {num : Type}.

(** [collectValues]: the mapped values, pushed back in the order in which
    the map is iterated, that is by increasing key. *)
Definition collectValues {V} (map : gmap string V) : list V :=
  (merge_sort (fun a b : string * V => String.le a.1 b.1) (map_to_list map)).*2.

Definition getSubstances (db : Database num) : list (Substance num) :=
  collectValues (substances_map db).

Definition getReactions (db : Database num) : list (Reaction num) :=
  collectValues (reactions_map db).

End Listing.

(* ===================================================================== *)
(** * Property results                                                    *)
(* ===================================================================== *)

Section Properties.
Context {num : Type} `{Scalar num}.

(** The scalar fields of the two result objects the engine computes with.
    The status and message that each scalar carries are not modelled. *)
Record ThermoPropertiesSubstance := {
  gibbs_energy : num;
  helmholtz_energy : num;
  internal_energy : num;
  enthalpy : num;
  entropy : num;
  volume : num;
  heat_capacity_cp : num;
  heat_capacity_cv : num
}.

Record ThermoPropertiesReaction := {
  ln_equilibrium_constant : num;
  log_equilibrium_constant : num;
  reaction_gibbs_energy : num;
  reaction_helmholtz_energy : num;
  reaction_internal_energy : num;
  reaction_enthalpy : num;
  reaction_entropy : num;
  reaction_volume : num;
  reaction_heat_capacity_cp : num;
  reaction_heat_capacity_cv : num
}.

(** Modelled from the spec: the default-constructed result objects
    ([ThermoProperties.h] is not among the sources); every scalar field
    is zero. *)
Definition ThermoPropertiesSubstance_new : ThermoPropertiesSubstance :=
  {| gibbs_energy := zero; helmholtz_energy := zero; internal_energy := zero;
     enthalpy := zero; entropy := zero; volume := zero;
     heat_capacity_cp := zero; heat_capacity_cv := zero |}.

Definition ThermoPropertiesReaction_new : ThermoPropertiesReaction :=
  {| ln_equilibrium_constant := zero; log_equilibrium_constant := zero;
     reaction_gibbs_energy := zero; reaction_helmholtz_energy := zero;
     reaction_internal_energy := zero; reaction_enthalpy := zero;
     reaction_entropy := zero; reaction_volume := zero;
     reaction_heat_capacity_cp := zero; reaction_heat_capacity_cv := zero |}.

#[export] Instance ThermoPropertiesSubstance_eq_dec :
  EqDecision ThermoPropertiesSubstance.
Proof. solve_decision. Defined.

#[export] Instance ThermoPropertiesReaction_eq_dec :
  EqDecision ThermoPropertiesReaction.
Proof. solve_decision. Defined.

End Properties.
Arguments ThermoPropertiesSubstance : clear implicits.
Arguments ThermoPropertiesReaction : clear implicits.

(* ===================================================================== *)
(** * The physical models                                                 *)
(* ===================================================================== *)

(** Everything the engine calls that these sources do not define: the two
    solvent result types with their default-constructed values, one function
    per model method, the formula parser's elemental entropy and the constant
    [cal_to_J].  A model is a function of the values it is passed; a
    pressure that a model would write back through [double &P] is not
    modelled. *)
Class Models (num : Type) := {
  PropertiesSolvent : Type;
  ElectroPropertiesSolvent : Type;
  PropertiesSolvent_new : PropertiesSolvent;
  ElectroPropertiesSolvent_new : ElectroPropertiesSolvent;
  cal_to_J : num;
  elemental_entropy : string -> num;
  (* generic equations of state *)
  EmpiricalCpIntegration :
    Substance num -> num -> num -> ThermoPropertiesSubstance num;
  SoluteHKFgems :
    Substance num -> num -> num -> PropertiesSolvent -> ElectroPropertiesSolvent ->
    ThermoPropertiesSubstance num;
  SoluteHKFreaktoro :
    Substance num -> num -> num -> PropertiesSolvent -> ElectroPropertiesSolvent ->
    ThermoPropertiesSubstance num;
  (* temperature correction *)
  HPLandau :
    Substance num -> num -> num -> ThermoPropertiesSubstance num ->
    ThermoPropertiesSubstance num;
  (* pressure correction *)
  WaterIdealGasWoolley :
    Substance num -> num -> num -> ThermoPropertiesSubstance num;
  SoluteAkinfievDiamondEOS :
    Substance num -> num -> num -> ThermoPropertiesSubstance num ->
    ThermoPropertiesSubstance num -> ThermoPropertiesSubstance num -> PropertiesSolvent ->
    ThermoPropertiesSubstance num -> ThermoPropertiesSubstance num -> PropertiesSolvent ->
    ThermoPropertiesSubstance num;
  MinMurnaghanEOSHP98 :
    Substance num -> num -> num -> ThermoPropertiesSubstance num ->
    ThermoPropertiesSubstance num;
  MinBerman88 :
    Substance num -> num -> num -> ThermoPropertiesSubstance num ->
    ThermoPropertiesSubstance num;
  MinBMGottschalk :
    Substance num -> num -> num -> ThermoPropertiesSubstance num ->
    ThermoPropertiesSubstance num;
  GasCORK :
    Substance num -> num -> num -> ThermoPropertiesSubstance num ->
    ThermoPropertiesSubstance num;
  GasPRSV :
    Substance num -> num -> num -> ThermoPropertiesSubstance num ->
    ThermoPropertiesSubstance num;
  GasCGF :
    Substance num -> num -> num -> ThermoPropertiesSubstance num ->
    ThermoPropertiesSubstance num;
  GasSRK :
    Substance num -> num -> num -> ThermoPropertiesSubstance num ->
    ThermoPropertiesSubstance num;
  GasPR78 :
    Substance num -> num -> num -> ThermoPropertiesSubstance num ->
    ThermoPropertiesSubstance num;
  GasSTP :
    Substance num -> num -> num -> ThermoPropertiesSubstance num ->
    ThermoPropertiesSubstance num;
  ConMolVol :
    Substance num -> num -> num -> ThermoPropertiesSubstance num ->
    ThermoPropertiesSubstance num;
  IdealGasLawVol :
    Substance num -> num -> num -> ThermoPropertiesSubstance num ->
    ThermoPropertiesSubstance num;
  (* water and steam; the last argument is [solventState] *)
  WaterHGK_thermoPropertiesSubstance :
    Substance num -> num -> num -> Z -> ThermoPropertiesSubstance num;
  WaterHGKreaktoro_thermoPropertiesSubstance :
    Substance num -> num -> num -> Z -> ThermoPropertiesSubstance num;
  WaterWP95reaktoro_thermoPropertiesSubstance :
    Substance num -> num -> num -> Z -> ThermoPropertiesSubstance num;
  WaterZhangDuan2005_thermoPropertiesSubstance :
    Substance num -> num -> num -> Z -> ThermoPropertiesSubstance num;
  WaterHGK_propertiesSolvent : Substance num -> num -> num -> Z -> PropertiesSolvent;
  WaterHGKreaktoro_propertiesSolvent :
    Substance num -> num -> num -> Z -> PropertiesSolvent;
  WaterWP95reaktoro_propertiesSolvent :
    Substance num -> num -> num -> Z -> PropertiesSolvent;
  WaterZhangDuan2005_propertiesSolvent :
    Substance num -> num -> num -> Z -> PropertiesSolvent;
  (* dielectric and Born functions *)
  WaterJNreaktoro :
    Substance num -> num -> num -> PropertiesSolvent -> ElectroPropertiesSolvent;
  WaterJNgems : Substance num -> num -> num -> ElectroPropertiesSolvent;
  WaterElectroSverjensky2014 : Substance num -> num -> num -> ElectroPropertiesSolvent;
  WaterElectroFernandez1997 : Substance num -> num -> num -> ElectroPropertiesSolvent;
  (* reactions *)
  Reaction_LogK_fT :
    Reaction num -> num -> num -> MethodCorrT -> ThermoPropertiesReaction num;
  ReactionFrantzMarshall :
    Reaction num -> num -> num -> PropertiesSolvent -> ThermoPropertiesReaction num;
  ReactionRyzhenkoBryzgalin :
    Reaction num -> num -> num -> PropertiesSolvent -> ThermoPropertiesReaction num;
  Reaction_Vol_fT : Reaction num -> num -> num -> ThermoPropertiesReaction num
}.

(* ===================================================================== *)
(** * Programs over the memoized entry points                             *)
(* ===================================================================== *)

Section Programs.
Context {num : Type} `{Models num}.

(** The four [std::function] members of [ThermoEngine::Impl]. *)
Inductive Kind :=
| thermo_properties_substance
| electro_properties_solvent
| properties_solvent
| thermo_properties_reaction.

(** What each of them returns. *)
Definition Ret (k : Kind) : Type :=
  match k with
  | thermo_properties_substance => ThermoPropertiesSubstance num
  | electro_properties_solvent => ElectroPropertiesSolvent
  | properties_solvent => PropertiesSolvent
  | thermo_properties_reaction => ThermoPropertiesReaction num
  end.

(** Their argument tuple [(double T, double P_, double &P, std::string)]. *)
Definition Key : Type := num * num * num * string.

(** A computation that returns, throws, or invokes an entry point and goes
    on with its result. *)
Inductive Prog (A : Type) : Type :=
| Return (a : A)
| Throw (e : Error)
| Invoke (k : Kind) (args : Key) (cont : Ret k -> Prog A).
Arguments Return {A} a.
Arguments Throw {A} e.
Arguments Invoke {A} k args cont.

Fixpoint bind {A B} (p : Prog A) (f : A -> Prog B) : Prog B :=
  match p with
  | Return a => f a
  | Throw e => Throw e
  | Invoke k args cont => Invoke k args (fun v => bind (cont v) f)
  end.

(** A [Result] as a program: the value, or the exception unwinding. *)
Definition lift {A} (r : Result A) : Prog A :=
  match r with
  | Ok a => Return a
  | Err e => Throw e
  end.

Definition call (k : Kind) (T P_ P : num) (symbol : string) : Prog (Ret k) :=
  Invoke k (T, P_, P, symbol) Return.

(** A range-based [for] with a body that updates an accumulator. *)
Fixpoint for_each {A B} (l : list A) (body : B -> A -> Prog B) (acc : B) : Prog B :=
  match l with
  | [] => Return acc
  | x :: l' => bind (body acc x) (for_each l' body)
  end.

(** Every exception that the program can throw by itself satisfies [P]. *)
Fixpoint throws_only (P : Error -> Prop) {A} (p : Prog A) : Prop :=
  match p with
  | Return _ => True
  | Throw e => P e
  | Invoke _ _ cont => forall v, throws_only P (cont v)
  end.

End Programs.
Arguments Return {num _ A} a.
Arguments Throw {num _ A} e.
Arguments Invoke {num _ A} k args cont.
Arguments Key : clear implicits.

#[export] Instance Kind_eq_dec : EqDecision Kind.
Proof. solve_decision. Defined.

#[export] Instance Prog_ret {num} `{Models num} : MRet Prog :=
  fun A a => Return a.
#[export] Instance Prog_bind {num} `{Models num} : MBind Prog :=
  fun A B f p => bind p f.

(* ===================================================================== *)
(** * [ThermoEngine::Impl]                                                *)
(* ===================================================================== *)

(** [boost::iequals] on ASCII strings. *)
Definition to_lower (c : Ascii.ascii) : Ascii.ascii :=
  let n := Ascii.N_of_ascii c in
  if ((65 <=? n) && (n <=? 90))%N then Ascii.ascii_of_N (n + 32) else c.

Fixpoint string_to_lower (s : string) : string :=
  match s with
  | EmptyString => EmptyString
  | String c s' => String (to_lower c) (string_to_lower s')
  end.

Definition iequals (a b : string) : bool :=
  bool_decide (string_to_lower a = string_to_lower b).

Definition implemented_conventions : list (string * string) :=
  StdMap.of_list
    [ ("Benson-Helgeson", "aparent-properties");
      ("Berman-Brown", "aparent-properties");
      ("steam-tables", "water-properties") ].

(** The member [conventions] and its initialiser. *)
Definition conventions : list (string * string) :=
  StdMap.of_list
    [ ("aparent-properties", "Benson-Helgeson");
      ("water-properties", "") ].

Section Engine.
Context {num : Type} `{Scalar num} `{Models num}.

(** The members [database] and [solventSymbol]; the caches of the four
    entry points are the state of [run] below. *)
Variable database : Database num.
Variable solventSymbol : string.

(** [struct ThermoPreferences]; the member [workReaction], which nothing
    reads, is left out. *)
Record ThermoPreferences := {
  workSubstance : Substance num;
  method_genEOS : MethodGenEoS;
  pref_method_T : MethodCorrT;
  pref_method_P : MethodCorrP;
  solventState : Z;            (* 0: liquid; 1: vapor *)
  isHydrogen : bool;
  isH2Ovapor : bool;
  isH2OSolvent : bool;
  isReacDC : bool
}.

Definition toSteamTables (tps : ThermoPropertiesSubstance num)
  : ThermoPropertiesSubstance num :=
  (* Auxiliary data from Helgeson and Kirkham (1974), on page 1098 *)
  let Str := mul (lit (151320 # 10000)) cal_to_J in
  let Gtr := mul (lit (-56290 # 1)) cal_to_J in
  let Htr := mul (lit (-68767 # 1)) cal_to_J in
  let Utr := mul (lit (-67887 # 1)) cal_to_J in
  let Atr := mul (lit (-55415 # 1)) cal_to_J in
  {| gibbs_energy := sub (gibbs_energy tps) Gtr;
     helmholtz_energy := sub (helmholtz_energy tps) Atr;
     internal_energy := sub (internal_energy tps) Utr;
     enthalpy := sub (enthalpy tps) Htr;
     entropy := sub (entropy tps) Str;
     volume := volume tps;
     heat_capacity_cp := heat_capacity_cp tps;
     heat_capacity_cv := heat_capacity_cv tps |}.

Definition toBermanBrown (tps : ThermoPropertiesSubstance num) (subst : Substance num)
  : ThermoPropertiesSubstance num :=
  let Tr := referenceT subst in
  let entropyElements := elemental_entropy (formula subst) in
  {| gibbs_energy := sub (gibbs_energy tps) (mul Tr entropyElements);
     helmholtz_energy := helmholtz_energy tps;
     internal_energy := internal_energy tps;
     enthalpy := sub (enthalpy tps) (mul Tr entropyElements);
     entropy := entropy tps;
     volume := volume tps;
     heat_capacity_cp := heat_capacity_cp tps;
     heat_capacity_cv := heat_capacity_cv tps |}.

Definition getThermoPreferences (substance : string) : Result ThermoPreferences :=
  match getSubstance database substance with
  | Err e => Err e
  | Ok workSubstance =>
      let method_genEOS := methodGenEOS workSubstance in
      let method_T := method_T workSubstance in
      let method_P := method_P workSubstance in
      Ok {| workSubstance := workSubstance;
            method_genEOS := method_genEOS;
            pref_method_T := method_T;
            pref_method_P := method_P;
            (* check for H+ *)
            isHydrogen := bool_decide (name workSubstance = "H+");
            (* check for H2O vapor *)
            isH2Ovapor := bool_decide (method_genEOS = CTPM_HKF)
                          && bool_decide (method_P = CPM_GAS);
            (* check for solvent *)
            isH2OSolvent := bool_decide (substanceClass workSubstance = AQSOLVENT);
            (* set solvent state *)
            solventState := if bool_decide (aggregateState workSubstance = GAS)
                            then 1 else 0;
            (* check if the substance is reaction dependent *)
            isReacDC := bool_decide (thermoCalculationType workSubstance = REACDC) |}
  end.

(** ** [reacDCthermoProperties] *)

Definition reacDCthermoProperties (T P : num) (subst : Substance num)
  : Prog (ThermoPropertiesSubstance num) :=
  let reactionSymbol := reactionSymbol subst in
  if negb (bool_decide (reactionSymbol = "")) then
    reaction ← lift (getReaction database reactionSymbol);
    tpr ← call thermo_properties_reaction T P P reactionSymbol;
    let tps :=
      {| enthalpy := reaction_enthalpy tpr;
         entropy := reaction_entropy tpr;
         gibbs_energy := reaction_gibbs_energy tpr;
         heat_capacity_cp := reaction_heat_capacity_cp tpr;
         heat_capacity_cv := reaction_heat_capacity_cv tpr;
         helmholtz_energy := reaction_helmholtz_energy tpr;
         internal_energy := reaction_internal_energy tpr;
         volume := reaction_volume tpr |} in
    let reactants := reactants reaction in
    tps ← for_each reactants (fun tps reactant =>
      if negb (bool_decide (reactant.1 = symbol subst)) then
        reacTps ← call thermo_properties_substance T P P reactant.1;
        mret
          {| enthalpy := sub (enthalpy tps) (mul (enthalpy reacTps) reactant.2);
             entropy := sub (entropy tps) (mul (entropy reacTps) reactant.2);
             gibbs_energy :=
               sub (gibbs_energy tps) (mul (gibbs_energy reacTps) reactant.2);
             heat_capacity_cp :=
               sub (heat_capacity_cp tps) (mul (heat_capacity_cp reacTps) reactant.2);
             heat_capacity_cv :=
               sub (heat_capacity_cv tps) (mul (heat_capacity_cv reacTps) reactant.2);
             helmholtz_energy :=
               sub (helmholtz_energy tps) (mul (helmholtz_energy reacTps) reactant.2);
             internal_energy :=
               sub (internal_energy tps) (mul (internal_energy reacTps) reactant.2);
             volume := sub (volume tps) (mul (volume reacTps) reactant.2) |}
      else mret tps) tps;
    let divisor := StdMap.index zero (symbol subst) reactants in
    mret
      {| enthalpy := div (enthalpy tps) divisor;
         entropy := div (entropy tps) divisor;
         gibbs_energy := div (gibbs_energy tps) divisor;
         heat_capacity_cp := div (heat_capacity_cp tps) divisor;
         heat_capacity_cv := div (heat_capacity_cv tps) divisor;
         helmholtz_energy := div (helmholtz_energy tps) divisor;
         internal_energy := div (internal_energy tps) divisor;
         volume := div (volume tps) divisor |}
  else
    Throw (ReactionNotDefined (symbol subst) 566).

(** ** [thermoPropertiesSubstance]

    The function is embedded in four parts, in the order of the source:
    the three switches of a substance that is neither solvent nor vapour
    (lines 186-298), the water and steam switch (lines 300-339), the
    convention conversion (lines 341-350), and the function that chains
    them.  Arguments of one call are evaluated from left to right. *)

Definition method_EOS_T_P (pref : ThermoPreferences) (T P : num)
    (tps : ThermoPropertiesSubstance num) : Prog (ThermoPropertiesSubstance num) :=
  let subst := workSubstance pref in
  (* method EOS *)
  tps ← match method_genEOS pref with
        | CTPM_CPT => mret (EmpiricalCpIntegration subst T P)
        | CTPM_HKF =>
            ps ← call properties_solvent T P P solventSymbol;
            eps ← call electro_properties_solvent T P P solventSymbol;
            mret (SoluteHKFgems subst T P ps eps)
        | CTPM_HKFR =>
            ps ← call properties_solvent T P P solventSymbol;
            eps ← call electro_properties_solvent T P P solventSymbol;
            mret (SoluteHKFreaktoro subst T P ps eps)
        | _ => mret tps                (* default: errorMethodNotFound commented out *)
        end;
  (* method T *)
  let tps := match pref_method_T pref with
             | CTM_CHP => HPLandau subst T P tps
             | _ => tps                (* default: errorMethodNotFound commented out *)
             end in
  (* method P *)
  match pref_method_P pref with
  | CPM_AKI =>
      solvent ← lift (getSubstance database solventSymbol);
      let Pr := referenceP solvent in
      let Tr := referenceT solvent in
      tps_w ← call thermo_properties_substance T P P solventSymbol;
      ps_w ← call properties_solvent T P P solventSymbol;
      tps_wr ← call thermo_properties_substance Tr Pr Pr solventSymbol;
      ps_wr ← call properties_solvent Tr Pr Pr solventSymbol;
      mret (SoluteAkinfievDiamondEOS subst T P tps
              tps_w (WaterIdealGasWoolley solvent T P) ps_w
              tps_wr (WaterIdealGasWoolley solvent Tr Pr) ps_wr)
  | CPM_CEH => mret (MinMurnaghanEOSHP98 subst T P tps)
  | CPM_VBE => mret (MinBerman88 subst T P tps)
  | CPM_VBM => mret (MinBMGottschalk subst T P tps)
  | CPM_CORK => mret (GasCORK subst T P tps)
  | CPM_PRSV => mret (GasPRSV subst T P tps)
  | CPM_EMP => mret (GasCGF subst T P tps)
  | CPM_SRK => mret (GasSRK subst T P tps)
  | CPM_PR78 => mret (GasPR78 subst T P tps)
  | CPM_STP => mret (GasSTP subst T P tps)
  | CPM_CON => mret (ConMolVol subst T P tps)
  | CPM_OFF => mret (IdealGasLawVol subst T P tps)
  | _ => mret tps                      (* default: errorMethodNotFound commented out *)
  end.

Definition water_steam (pref : ThermoPreferences) (T P : num)
    (tps : ThermoPropertiesSubstance num) : ThermoPropertiesSubstance num :=
  let subst := workSubstance pref in
  match pref_method_T pref with
  | CTM_WAT => WaterHGK_thermoPropertiesSubstance subst T P (solventState pref)
  | CTM_WAR => WaterHGKreaktoro_thermoPropertiesSubstance subst T P (solventState pref)
  | CTM_WWP => WaterWP95reaktoro_thermoPropertiesSubstance subst T P (solventState pref)
  | CTM_WZD => WaterZhangDuan2005_thermoPropertiesSubstance subst T P (solventState pref)
  | _ =>
      match method_genEOS pref with
      | CTPM_CPT => EmpiricalCpIntegration subst T P
      | _ => tps
      end
  end.

Definition convention_convert (pref : ThermoPreferences)
    (tps : ThermoPropertiesSubstance num) : Prog (ThermoPropertiesSubstance num) :=
  if isH2OSolvent pref then
    water ← lift (StdMap.at_ "water-properties" conventions);
    if iequals water "steam-tables" then mret (toSteamTables tps) else mret tps
  else
    aparent ← lift (StdMap.at_ "aparent-properties" conventions);
    if iequals aparent "Berman-Brown"
    then mret (toBermanBrown tps (workSubstance pref))
    else mret tps.

Definition thermoPropertiesSubstance (T P : num) (substance : string)
  : Prog (ThermoPropertiesSubstance num) :=
  pref ← lift (getThermoPreferences substance);
  let tps := ThermoPropertiesSubstance_new in
  if isHydrogen pref then mret tps
  else if negb (isReacDC pref) then
    tps ← (if negb (isH2OSolvent pref) && negb (isH2Ovapor pref)
           then method_EOS_T_P pref T P tps
           else mret tps);
    let tps := if isH2OSolvent pref || isH2Ovapor pref
               then water_steam pref T P tps
               else tps in
    convention_convert pref tps
  else
    (* substance properties calculated using the properties of a reaction *)
    reacDCthermoProperties T P (workSubstance pref).

(** ** [electroPropertiesSolvent] and [propertiesSolvent] *)

Definition electroPropertiesSolvent (T P : num) (solvent : string)
  : Prog ElectroPropertiesSolvent :=
  pref ← lift (getThermoPreferences solvent);
  ps ← call properties_solvent T P P solvent;
  let eps := ElectroPropertiesSolvent_new in
  mret (if isH2OSolvent pref then
          match method_genEOS pref with
          | CTPM_WJNR => WaterJNreaktoro (workSubstance pref) T P ps
          | CTPM_WJNG => WaterJNgems (workSubstance pref) T P
          | CTPM_WSV14 => WaterElectroSverjensky2014 (workSubstance pref) T P
          | CTPM_WF97 => WaterElectroFernandez1997 (workSubstance pref) T P
          | _ => eps                   (* default: errorMethodNotFound commented out *)
          end
        else eps).

Definition propertiesSolvent (T P : num) (solvent : string) : Prog PropertiesSolvent :=
  pref ← lift (getThermoPreferences solvent);
  let ps := PropertiesSolvent_new in
  mret (if isH2OSolvent pref then
          match pref_method_T pref with
          | CTM_WAT =>
              WaterHGK_propertiesSolvent (workSubstance pref) T P (solventState pref)
          | CTM_WAR =>
              WaterHGKreaktoro_propertiesSolvent (workSubstance pref) T P (solventState pref)
          | CTM_WWP =>
              WaterWP95reaktoro_propertiesSolvent (workSubstance pref) T P (solventState pref)
          | CTM_WZD =>
              WaterZhangDuan2005_propertiesSolvent (workSubstance pref) T P (solventState pref)
          | _ => ps                    (* default: errorMethodNotFound commented out *)
          end
        else ps).

(** ** [thermoPropertiesReaction]

    [pressure] is the second switch, on [methodP].  The case [CTM_MRB]
    leaves the function with [return tpr = ...] and does not reach it. *)

Definition thermoPropertiesReaction (T P : num) (reaction : string)
  : Prog (ThermoPropertiesReaction num) :=
  let tpr := ThermoPropertiesReaction_new in
  reac ← lift (getReaction database reaction);
  let methodT := reaction_method_T reac in
  let methodP := reaction_method_P reac in
  let pressure (tpr : ThermoPropertiesReaction num) :=
    match methodP with
    | CPM_VKE | CPM_VBE => Reaction_Vol_fT reac T P
    | CPM_NUL | CPM_CON => tpr
    | _ => tpr                         (* default: errorMethodNotFound commented out *)
    end in
  match methodT with
  | CTM_LGX | CTM_LGK | CTM_EK0 | CTM_EK1 | CTM_EK3 | CTM_EK2 =>
      mret (pressure (Reaction_LogK_fT reac T P methodT))
  | CTM_DKR =>                         (* Marshall-Franck density model *)
      ps ← call properties_solvent T P P solventSymbol;
      mret (pressure (ReactionFrantzMarshall reac T P ps))
  | CTM_MRB =>                         (* modified Ryzhenko-Bryzgalin model *)
      ps ← call properties_solvent T P P solventSymbol;
      mret (ReactionRyzhenkoBryzgalin reac T P ps)
  | CTM_IKZ => mret (pressure tpr)
  | _ => mret (pressure tpr)           (* default: errorMethodNotFound commented out *)
  end.

(** The function behind each entry point: the lambdas of [Impl(const
    Database&)] drop [P_] and pass [T], [P] and [symbol] on. *)
Definition underlying (k : Kind) (args : Key num) : Prog (Ret k) :=
  let '(T, P_, P, symbol) := args in
  match k with
  | thermo_properties_substance => thermoPropertiesSubstance T P symbol
  | electro_properties_solvent => electroPropertiesSolvent T P symbol
  | properties_solvent => propertiesSolvent T P symbol
  | thermo_properties_reaction => thermoPropertiesReaction T P symbol
  end.

End Engine.

(* ===================================================================== *)
(** * Running programs: the caches of the entry points                    *)
(* ===================================================================== *)

Section Run.
Context {num : Type} `{Scalar num} `{Models num}.
Variable database : Database num.
Variable solventSymbol : string.

(** The state of an evaluator between and during calls: one cache per
    entry point, each the list of its entries, latest first; and, as an
    observer's counter, the invocations of the underlying functions that
    returned a result, latest first. *)
Record State := {
  cache_substance : list (Key num * ThermoPropertiesSubstance num);
  cache_electro : list (Key num * ElectroPropertiesSolvent);
  cache_solvent : list (Key num * PropertiesSolvent);
  cache_reaction : list (Key num * ThermoPropertiesReaction num);
  computed : list (Kind * Key num)
}.

(** A new evaluator. *)
Definition State_new : State :=
  {| cache_substance := []; cache_electro := []; cache_solvent := [];
     cache_reaction := []; computed := [] |}.

Definition cache (k : Kind) (st : State) : list (Key num * Ret k) :=
  match k with
  | thermo_properties_substance => cache_substance st
  | electro_properties_solvent => cache_electro st
  | properties_solvent => cache_solvent st
  | thermo_properties_reaction => cache_reaction st
  end.

Fixpoint assoc {V} (args : Key num) (l : list (Key num * V)) : option V :=
  match l with
  | [] => None
  | (args', v) :: l' => if decide (args' = args) then Some v else assoc args l'
  end.

Definition cache_find (k : Kind) (args : Key num) (st : State) : option (Ret k) :=
  assoc args (cache k st).

(** The entry is stored and the computation counted. *)
Definition cache_store (k : Kind) (args : Key num) : Ret k -> State -> State :=
  match k with
  | thermo_properties_substance => fun v st =>
      {| cache_substance := (args, v) :: cache_substance st;
         cache_electro := cache_electro st;
         cache_solvent := cache_solvent st;
         cache_reaction := cache_reaction st;
         computed := (thermo_properties_substance, args) :: computed st |}
  | electro_properties_solvent => fun v st =>
      {| cache_substance := cache_substance st;
         cache_electro := (args, v) :: cache_electro st;
         cache_solvent := cache_solvent st;
         cache_reaction := cache_reaction st;
         computed := (electro_properties_solvent, args) :: computed st |}
  | properties_solvent => fun v st =>
      {| cache_substance := cache_substance st;
         cache_electro := cache_electro st;
         cache_solvent := (args, v) :: cache_solvent st;
         cache_reaction := cache_reaction st;
         computed := (properties_solvent, args) :: computed st |}
  | thermo_properties_reaction => fun v st =>
      {| cache_substance := cache_substance st;
         cache_electro := cache_electro st;
         cache_solvent := cache_solvent st;
         cache_reaction := (args, v) :: cache_reaction st;
         computed := (thermo_properties_reaction, args) :: computed st |}
  end.

(** Modelled from the spec: [memoize] ([OptimizationUtils.h] is not among
    the sources).  Section 4.1: the wrapped function has the signature of
    [f]; its result for an argument tuple is computed at most once, and a
    later call with an equal tuple returns the cached value without
    invoking [f]; tuples are equal when their components are, bit for bit on
    the doubles; nothing is evicted.  A call of [f] that throws leaves no
    entry. *)
Definition memoize (k : Kind) (f : Key num -> State -> Result (Ret k) * State)
  : Key num -> State -> Result (Ret k) * State :=
  fun args st =>
    match cache_find k args st with
    | Some v => (Ok v, st)
    | None =>
        match f args st with
        | (Ok v, st') => (Ok v, cache_store k args v st')
        | (Err e, st') => (Err e, st')
        end
    end.

(** [run fuel p st]: the program [p] run in state [st].  An invocation goes
    through the memoized entry point; the underlying function runs with one
    unit of fuel less, so that [fuel] bounds the nesting of invocations. *)
Fixpoint run (fuel : nat) {A : Type} (p : Prog A) (st : State) {struct fuel}
  : Result A * State :=
  (fix run_prog {A : Type} (p : Prog A) (st : State) {struct p} : Result A * State :=
     match p with
     | Return a => (Ok a, st)
     | Throw e => (Err e, st)
     | Invoke k args cont =>
         match memoize k
                 (fun args st =>
                    match fuel with
                    | O => (Err Diverges, st)
                    | S fuel' => run fuel' (underlying database solventSymbol k args) st
                    end) args st with
         | (Ok v, st') => run_prog (cont v) st'
         | (Err e, st') => (Err e, st')
         end
     end) A p st.

(** The entry points as a client calls them, for instance
    [pimpl->thermo_properties_substance_fn(T, P, P, substance)]. *)
Definition entry_point (k : Kind) (fuel : nat) (T P : num) (symbol : string) (st : State)
  : Result (Ret k) * State :=
  run fuel (call k T P P symbol) st.

(** The function an entry point wraps, called directly, for instance
    [thermoPropertiesSubstance(T, P, substance)]. *)
Definition unmemoized (k : Kind) (fuel : nat) (T P : num) (symbol : string) (st : State)
  : Result (Ret k) * State :=
  run fuel (underlying database solventSymbol k (T, P, P, symbol)) st.

(** [eval fuel p]: the result of [p] when every invocation runs the
    underlying function, with no cache. *)
Fixpoint eval (fuel : nat) {A : Type} (p : Prog A) {struct fuel} : Result A :=
  (fix eval_prog {A : Type} (p : Prog A) {struct p} : Result A :=
     match p with
     | Return a => Ok a
     | Throw e => Err e
     | Invoke k args cont =>
         match fuel with
         | O => Err Diverges
         | S fuel' =>
             match eval fuel' (underlying database solventSymbol k args) with
             | Ok v => eval_prog (cont v)
             | Err e => Err e
             end
         end
     end) A p.

End Run.
Arguments run : simpl never.
Arguments eval : simpl never.


(* ===================================================================== *)
(** * Notions used in the statements                                      *)
(* ===================================================================== *)

Section Notions.
Context {num : Type} `{Scalar num} `{Models num}.
Variable database : Database num.
Variable solventSymbol : string.

Local Abbreviation body := (underlying database solventSymbol).
Local Abbreviation runs := (run database solventSymbol).
Local Abbreviation evals := (eval database solventSymbol).

(** What a cache miss does with [fuel] left. *)
Definition invoke_underlying (fuel : nat) (k : Kind) (args : Key num) (st : State)
  : Result (Ret k) * State :=
  match fuel with
  | O => (Err Diverges, st)
  | S fuel' => runs fuel' (body k args) st
  end.

(** [v] is the value of the function behind entry point [k] at [args]. *)
Definition value (k : Kind) (args : Key num) (v : Ret k) : Prop :=
  exists fuel, evals fuel (body k args) = Ok v.

(** Every cached entry holds the value of its function. *)
Definition consistent (st : State) : Prop :=
  forall k args v, cache_find k args st = Some v -> value k args v.

(** No entry is lost or changed. *)
Definition extends (st st' : State) : Prop :=
  forall k args v, cache_find k args st = Some v -> cache_find k args st' = Some v.

(** No result was computed twice, and every computed result is cached. *)
Definition counted (st : State) : Prop :=
  NoDup (computed st) /\
  forall k args, (k, args) ∈ computed st -> is_Some (cache_find k args st).

(** The states an evaluator goes through: it starts with empty caches, and
    its clients call the four entry points. *)
Inductive reachable : State -> Prop :=
| reachable_new : reachable State_new
| reachable_call k fuel T P symbol st :
    reachable st ->
    reachable (entry_point database solventSymbol k fuel T P symbol st).2.

(** [later st st']: the evaluator gets from [st] to [st'] by such calls. *)
Inductive later (st : State) : State -> Prop :=
| later_now : later st st
| later_call k fuel T P symbol st' :
    later st st' ->
    later st (entry_point database solventSymbol k fuel T P symbol st').2.

(** The store holds the record that the function behind entry point [k]
    fetches first for [symbol]. *)
Definition in_store (k : Kind) (symbol : string) : Prop :=
  match k with
  | thermo_properties_reaction => is_Some (reactions_map database !! symbol)
  | _ => is_Some (substances_map database !! symbol)
  end.

(** Every cached entry belongs to a record of the store. *)
Definition known (st : State) : Prop :=
  forall k args v, cache_find k args st = Some v -> in_store k args.2.

End Notions.

(** ** Reaction-derived substances *)

Section Closure.
Context {num : Type} `{Scalar num}.

(** The steps of section 4.6 of the spec, in its words, to compare
    [reacDCthermoProperties] with: the result seeded from the reaction's
    fields, [coefficient x properties] subtracted from every field, every
    field divided by a coefficient. *)
Definition tps_of_reaction (tpr : ThermoPropertiesReaction num)
  : ThermoPropertiesSubstance num :=
  {| gibbs_energy := reaction_gibbs_energy tpr;
     helmholtz_energy := reaction_helmholtz_energy tpr;
     internal_energy := reaction_internal_energy tpr;
     enthalpy := reaction_enthalpy tpr;
     entropy := reaction_entropy tpr;
     volume := reaction_volume tpr;
     heat_capacity_cp := reaction_heat_capacity_cp tpr;
     heat_capacity_cv := reaction_heat_capacity_cv tpr |}.

Definition tps_sub_scaled (tps reacTps : ThermoPropertiesSubstance num) (coefficient : num)
  : ThermoPropertiesSubstance num :=
  {| gibbs_energy := sub (gibbs_energy tps) (mul (gibbs_energy reacTps) coefficient);
     helmholtz_energy :=
       sub (helmholtz_energy tps) (mul (helmholtz_energy reacTps) coefficient);
     internal_energy :=
       sub (internal_energy tps) (mul (internal_energy reacTps) coefficient);
     enthalpy := sub (enthalpy tps) (mul (enthalpy reacTps) coefficient);
     entropy := sub (entropy tps) (mul (entropy reacTps) coefficient);
     volume := sub (volume tps) (mul (volume reacTps) coefficient);
     heat_capacity_cp :=
       sub (heat_capacity_cp tps) (mul (heat_capacity_cp reacTps) coefficient);
     heat_capacity_cv :=
       sub (heat_capacity_cv tps) (mul (heat_capacity_cv reacTps) coefficient) |}.

Definition tps_div (tps : ThermoPropertiesSubstance num) (divisor : num)
  : ThermoPropertiesSubstance num :=
  {| gibbs_energy := div (gibbs_energy tps) divisor;
     helmholtz_energy := div (helmholtz_energy tps) divisor;
     internal_energy := div (internal_energy tps) divisor;
     enthalpy := div (enthalpy tps) divisor;
     entropy := div (entropy tps) divisor;
     volume := div (volume tps) divisor;
     heat_capacity_cp := div (heat_capacity_cp tps) divisor;
     heat_capacity_cv := div (heat_capacity_cv tps) divisor |}.

Definition tps_add (a b : ThermoPropertiesSubstance num) : ThermoPropertiesSubstance num :=
  {| gibbs_energy := add (gibbs_energy a) (gibbs_energy b);
     helmholtz_energy := add (helmholtz_energy a) (helmholtz_energy b);
     internal_energy := add (internal_energy a) (internal_energy b);
     enthalpy := add (enthalpy a) (enthalpy b);
     entropy := add (entropy a) (entropy b);
     volume := add (volume a) (volume b);
     heat_capacity_cp := add (heat_capacity_cp a) (heat_capacity_cp b);
     heat_capacity_cv := add (heat_capacity_cv a) (heat_capacity_cv b) |}.

(** The reactants of the reaction other than the substance itself, in the
    order of the map. *)
Definition other_reactants (subst : Substance num) (reaction : Reaction num)
  : list (string * num) :=
  filter (fun reactant => reactant.1 <> symbol subst) (reactants reaction).

(** The seeded result less the contributions, each a coefficient and the
    properties of its reactant. *)
Definition numerator (tpr : ThermoPropertiesReaction num)
    (contributions : list (num * ThermoPropertiesSubstance num))
  : ThermoPropertiesSubstance num :=
  fold_left (fun tps c => tps_sub_scaled tps c.2 c.1) contributions (tps_of_reaction tpr).

End Closure.


(* ===================================================================== *)
(** * [ThermoEngine]: the public functions                                *)
(* ===================================================================== *)

Section FromReactants.
Context {num : Type} `{Scalar num} `{Models num}.
Variable database : Database num.

(** The constants [R_CONSTANT] and [ln_to_lg], defined outside these
    sources. *)
Variables R_CONSTANT ln_to_lg : num.

(** What the body of the loop of [thermoPropertiesReactionFromReactants]
    assigns (lines 626-632): the contribution of one reactant, [tps] times
    [coeff], is added to five fields, and the two equilibrium constants are set
    from the Gibbs energy accumulated so far. *)
Definition tpr_add_scaled (T : num) (tpr : ThermoPropertiesReaction num)
    (tps : ThermoPropertiesSubstance num) (coeff : num)
  : ThermoPropertiesReaction num :=
  let reaction_heat_capacity_cp' :=
    add (reaction_heat_capacity_cp tpr) (mul (heat_capacity_cp tps) coeff) in
  let reaction_gibbs_energy' :=
    add (reaction_gibbs_energy tpr) (mul (gibbs_energy tps) coeff) in
  let reaction_enthalpy' := add (reaction_enthalpy tpr) (mul (enthalpy tps) coeff) in
  let reaction_entropy' := add (reaction_entropy tpr) (mul (entropy tps) coeff) in
  let reaction_volume' := add (reaction_volume tpr) (mul (volume tps) coeff) in
  let ln_equilibrium_constant' :=
    div reaction_gibbs_energy' (opp (mul R_CONSTANT T)) in
  let log_equilibrium_constant' := mul ln_equilibrium_constant' ln_to_lg in
  {| reaction_heat_capacity_cp := reaction_heat_capacity_cp';
     reaction_gibbs_energy := reaction_gibbs_energy';
     reaction_enthalpy := reaction_enthalpy';
     reaction_entropy := reaction_entropy';
     reaction_volume := reaction_volume';
     ln_equilibrium_constant := ln_equilibrium_constant';
     log_equilibrium_constant := log_equilibrium_constant';
     reaction_helmholtz_energy := reaction_helmholtz_energy tpr;
     reaction_internal_energy := reaction_internal_energy tpr;
     reaction_heat_capacity_cv := reaction_heat_capacity_cv tpr |}.

(** The result object before the loop: default-constructed, then seven of
    its fields set to [0.0]. *)
Definition tpr_before_loop : ThermoPropertiesReaction num :=
  let tpr := ThermoPropertiesReaction_new in
  {| reaction_heat_capacity_cp := zero;
     reaction_gibbs_energy := zero;
     reaction_enthalpy := zero;
     reaction_entropy := zero;
     reaction_volume := zero;
     ln_equilibrium_constant := zero;
     log_equilibrium_constant := zero;
     reaction_helmholtz_energy := reaction_helmholtz_energy tpr;
     reaction_internal_energy := reaction_internal_energy tpr;
     reaction_heat_capacity_cv := reaction_heat_capacity_cv tpr |}.

(** [ThermoEngine::thermoPropertiesReactionFromReactants].  It is not
    memoized itself; it reads the store and calls the substance entry point
    for every reactant, in the order of the map.  The calls of [setMessage]
    change the status and the message of the scalars only. *)
Definition thermoPropertiesReactionFromReactants (T P : num) (symbol : string)
  : Prog (ThermoPropertiesReaction num) :=
  let tpr := tpr_before_loop in
  reaction ← lift (getReaction database symbol);
  for_each (reactants reaction) (fun tpr reactant =>
    let coeff := reactant.2 in
    let substance := reactant.1 in
    tps ← call thermo_properties_substance T P P substance;
    mret (tpr_add_scaled T tpr tps coeff)) tpr.

End FromReactants.

Section PublicEngine.
Context {num : Type} `{Scalar num} `{Models num}.

(** A [ThermoEngine]: what [pimpl] points to.  The four memoized functions
    are the entry points over the caches of [pimpl_state]. *)
Record ThermoEngine := {
  pimpl_database : Database num;
  pimpl_solventSymbol : string;
  pimpl_state : State
}.

(** [ThermoEngine(const Database&)]; the solvent symbol has its default. *)
Definition ThermoEngine_new (database : Database num) : ThermoEngine :=
  {| pimpl_database := database;
     pimpl_solventSymbol := "H2O@";
     pimpl_state := State_new |}.

Definition setSolventSymbol (solvent_symbol : string) (engine : ThermoEngine)
  : ThermoEngine :=
  {| pimpl_database := pimpl_database engine;
     pimpl_solventSymbol := solvent_symbol;
     pimpl_state := pimpl_state engine |}.

(** [ThermoEngine::thermoPropertiesSubstance], [electroPropertiesSolvent],
    [propertiesSolvent] and [thermoPropertiesReaction]: each calls its entry
    point with [(T, P, P, symbol)]. *)
Definition ThermoEngine_call (k : Kind) (fuel : nat) (T P : num) (symbol : string)
    (engine : ThermoEngine) : Result (Ret k) * ThermoEngine :=
  let r := entry_point (pimpl_database engine) (pimpl_solventSymbol engine)
             k fuel T P symbol (pimpl_state engine) in
  (r.1, {| pimpl_database := pimpl_database engine;
           pimpl_solventSymbol := pimpl_solventSymbol engine;
           pimpl_state := r.2 |}).

(** [ThermoEngine::thermoPropertiesReactionFromReactants] on an evaluator:
    it runs against the caches of the evaluator. *)
Definition ThermoEngine_thermoPropertiesReactionFromReactants
    (R_CONSTANT ln_to_lg : num) (fuel : nat) (T P : num) (symbol : string)
    (engine : ThermoEngine) : Result (ThermoPropertiesReaction num) * ThermoEngine :=
  let r := run (pimpl_database engine) (pimpl_solventSymbol engine) fuel
             (thermoPropertiesReactionFromReactants (pimpl_database engine)
                R_CONSTANT ln_to_lg T P symbol)
             (pimpl_state engine) in
  (r.1, {| pimpl_database := pimpl_database engine;
           pimpl_solventSymbol := pimpl_solventSymbol engine;
           pimpl_state := r.2 |}).

(** The evaluators a client can have: one made from the store, then, in any
    order, calls of its functions and changes of its solvent symbol. *)
Inductive ThermoEngine_reachable (database : Database num) : ThermoEngine -> Prop :=
| engine_new : ThermoEngine_reachable database (ThermoEngine_new database)
| engine_call k fuel T P symbol engine :
    ThermoEngine_reachable database engine ->
    ThermoEngine_reachable database (ThermoEngine_call k fuel T P symbol engine).2
| engine_from_reactants R_CONSTANT ln_to_lg fuel T P symbol engine :
    ThermoEngine_reachable database engine ->
    ThermoEngine_reachable database
      (ThermoEngine_thermoPropertiesReactionFromReactants
         R_CONSTANT ln_to_lg fuel T P symbol engine).2
| engine_setSolventSymbol solvent_symbol engine :
    ThermoEngine_reachable database engine ->
    ThermoEngine_reachable database (setSolventSymbol solvent_symbol engine).

End PublicEngine.

(** Every value the program can return, whatever the entry points it invokes
    return, satisfies [Q]. *)
Fixpoint returns_only {num} `{Models num} {A} (Q : A -> Prop) (p : Prog A) : Prop :=
  match p with
  | Return a => Q a
  | Throw _ => True
  | Invoke _ _ cont => forall v, returns_only Q (cont v)
  end.


(* ===================================================================== *)
(** * The CSV export                                                      *)
(* ===================================================================== *)

(** The characters of a file are a [string].  A file system holds the
    contents of the regular files that exist, and says which names cannot be
    opened for writing: a name in a directory that does not exist, the name of
    a directory, the empty name, a file that may not be written. *)
Record FileSystem := {
  files : gmap string string;
  refuses : string -> bool
}.

(** The file system in which [filename] holds [content] and all else is as
    in [fs]. *)
Definition write_file (filename content : string) (fs : FileSystem) : FileSystem :=
  {| files := <[filename := content]> (files fs); refuses := refuses fs |}.

(** A file system in which every name can be opened. *)
Definition all_writable (files : gmap string string) : FileSystem :=
  {| files := files; refuses := fun _ => false |}.

Definition endl : string := String (Ascii.ascii_of_nat 10) EmptyString.

(** [int res = myfile.tellp()]: the stream position narrowed to a 32-bit
    [int]. *)
Definition int_of_streamoff (off : Z) : Z :=
  (off + 2 ^ 31) mod 2 ^ 32 - 2 ^ 31.

Section CSV.
Context {num : Type}.

(** [operator<<(double)] of the stream, not part of the sources. *)
Variable format_double : num -> string.

(** The fields of [WaterThermoState] that the export reads. *)
Record WaterThermoState := {
  wt_temperature : num;
  wt_pressure : num;
  wt_cp : num;
  wt_cv : num;
  wt_density : num;
  wt_enthalpy : num;
  wt_entropy : num;
  wt_gibbs : num;
  wt_helmholtz : num;
  wt_internal_energy : num;
  wt_volume : num
}.

(** A [std::ofstream] after [open]: the characters of the file it writes
    to, or [None] when the file could not be opened; the stream then has its
    failbit set, and nothing clears it. *)
Definition ofstream : Type := option string.

(** [myfile.open(filename, std::ios::app)]: the file is created when it does
    not exist; the stream holds its contents.  The code does not look at
    [is_open()] or at the state of the stream. *)
Definition open_app (filename : string) (fs : FileSystem) : ofstream :=
  if refuses fs filename then None
  else Some (default "" (files fs !! filename)).

(** [myfile.tellp()] right after the file was opened for appending: the
    position output goes to, which is the end of the file; and [pos_type(-1)]
    when the stream has failed. *)
Definition tellp (myfile : ofstream) : Z :=
  match myfile with
  | Some content => Z.of_nat (String.length content)
  | None => -1
  end.

(** [myfile << s]: a stream that has failed writes nothing; the stream of an
    open file takes the characters. *)
Definition put (myfile : ofstream) (s : string) : ofstream :=
  match myfile with
  | Some content => Some (content +:+ s)
  | None => None
  end.

(** [myfile.close()]: what was written is in the file. *)
Definition close (filename : string) (myfile : ofstream) (fs : FileSystem) : FileSystem :=
  match myfile with
  | Some content => write_file filename content fs
  | None => fs
  end.

Definition header : string := "T,P,Cp,Cv,RHO,H,S,G,A,U,V" +:+ endl.

(** What the second output statement writes. *)
Definition row (wt : WaterThermoState) : string :=
  let c := "," in
  format_double (wt_temperature wt) +:+ c +:+ format_double (wt_pressure wt) +:+ c +:+
  format_double (wt_cp wt) +:+ c +:+ format_double (wt_cv wt) +:+ c +:+
  format_double (wt_density wt) +:+ c +:+
  format_double (wt_enthalpy wt) +:+ c +:+ format_double (wt_entropy wt) +:+ c +:+
  format_double (wt_gibbs wt) +:+ c +:+ format_double (wt_helmholtz wt) +:+ c +:+
  format_double (wt_internal_energy wt) +:+ c +:+ format_double (wt_volume wt) +:+ endl.

Definition OutputSteamConventionH2OProp (filename : string) (wt : WaterThermoState)
    (fs : FileSystem) : FileSystem :=
  let myfile := open_app filename fs in
  let res := int_of_streamoff (tellp myfile) in
  let myfile := if decide (res = 0) then put myfile header else myfile in
  let myfile := put myfile (row wt) in
  close filename myfile fs.

(** [N] calls in a row, the records taken from a list. *)
Definition export_all (filename : string) (wts : list WaterThermoState)
    (fs : FileSystem) : FileSystem :=
  fold_left (fun fs wt => OutputSteamConventionH2OProp filename wt fs) wts fs.

(** The data rows of the records, one after the other. *)
Definition rows (wts : list WaterThermoState) : string :=
  foldr (fun wt s => row wt +:+ s) "" wts.

End CSV.
Arguments WaterThermoState : clear implicits.

(** A file of 4 GiB: 2^32 characters. *)
Definition file_4GiB : string := N.iter 4294967296 (String (Ascii.ascii_of_nat 120)) "". (* 120: the letter x *)


(* ===================================================================== *)
(** * A sample evaluator                                                  *)
(* ===================================================================== *)

(** Stand-ins for the physical models, with results that tell them apart,
    and a small store; the closed examples below are evaluated on them, with
    binary64 numbers or with rationals. *)
Module Sample.
Section Sample.
Context {num : Type} `{Scalar num}.

Definition tps_all (x : num) : ThermoPropertiesSubstance num :=
  {| gibbs_energy := x; helmholtz_energy := x; internal_energy := x; enthalpy := x;
     entropy := x; volume := x; heat_capacity_cp := x; heat_capacity_cv := x |}.

Definition tps_shift (x : num) (tps : ThermoPropertiesSubstance num)
  : ThermoPropertiesSubstance num :=
  {| gibbs_energy := add (gibbs_energy tps) x;
     helmholtz_energy := add (helmholtz_energy tps) x;
     internal_energy := add (internal_energy tps) x;
     enthalpy := add (enthalpy tps) x;
     entropy := add (entropy tps) x;
     volume := add (volume tps) x;
     heat_capacity_cp := add (heat_capacity_cp tps) x;
     heat_capacity_cv := add (heat_capacity_cv tps) x |}.

Definition tpr_all (x : num) : ThermoPropertiesReaction num :=
  {| ln_equilibrium_constant := x; log_equilibrium_constant := x;
     reaction_gibbs_energy := x; reaction_helmholtz_energy := x;
     reaction_internal_energy := x; reaction_enthalpy := x;
     reaction_entropy := x; reaction_volume := x;
     reaction_heat_capacity_cp := x; reaction_heat_capacity_cv := x |}.

Definition n (z : Z) : num := lit (z # 1).

Definition models : Models num := {|
  PropertiesSolvent := num;
  ElectroPropertiesSolvent := num;
  PropertiesSolvent_new := zero;
  ElectroPropertiesSolvent_new := zero;
  cal_to_J := lit (4184 # 1000);
  elemental_entropy := fun _ => n 7;
  EmpiricalCpIntegration := fun s T P => tps_all (add (referenceT s) (add T P));
  SoluteHKFgems := fun _ _ _ ps eps => tps_all (add (n 20) (add ps eps));
  SoluteHKFreaktoro := fun _ _ _ ps eps => tps_all (add (n 30) (add ps eps));
  HPLandau := fun _ _ _ => tps_shift (n 100);
  WaterIdealGasWoolley := fun _ T P => tps_all (add T P);
  SoluteAkinfievDiamondEOS := fun _ _ _ tps w _ _ wr _ _ =>
    tps_shift (add (gibbs_energy w) (gibbs_energy wr)) tps;
  MinMurnaghanEOSHP98 := fun _ _ _ => tps_shift (n 1000);
  MinBerman88 := fun _ _ _ => tps_shift (n 2000);
  MinBMGottschalk := fun _ _ _ => tps_shift (n 3000);
  GasCORK := fun _ _ _ => tps_shift (n 4000);
  GasPRSV := fun _ _ _ => tps_shift (n 5000);
  GasCGF := fun _ _ _ => tps_shift (n 6000);
  GasSRK := fun _ _ _ => tps_shift (n 7000);
  GasPR78 := fun _ _ _ => tps_shift (n 8000);
  GasSTP := fun _ _ _ => tps_shift (n 9000);
  ConMolVol := fun _ _ _ => tps_shift (n 10000);
  IdealGasLawVol := fun _ _ _ => tps_shift (n 11000);
  WaterHGK_thermoPropertiesSubstance := fun _ T P _ => tps_all (add (n 40) (add T P));
  WaterHGKreaktoro_thermoPropertiesSubstance := fun _ T P _ => tps_all (add (n 41) (add T P));
  WaterWP95reaktoro_thermoPropertiesSubstance := fun _ T P _ => tps_all (add (n 42) (add T P));
  WaterZhangDuan2005_thermoPropertiesSubstance := fun _ T P _ => tps_all (add (n 43) (add T P));
  WaterHGK_propertiesSolvent := fun _ T P _ => add (n 50) (add T P);
  WaterHGKreaktoro_propertiesSolvent := fun _ T P _ => add (n 51) (add T P);
  WaterWP95reaktoro_propertiesSolvent := fun _ T P _ => add (n 52) (add T P);
  WaterZhangDuan2005_propertiesSolvent := fun _ T P _ => add (n 53) (add T P);
  WaterJNreaktoro := fun _ _ _ ps => add (n 60) ps;
  WaterJNgems := fun _ _ _ => n 61;
  WaterElectroSverjensky2014 := fun _ _ _ => n 62;
  WaterElectroFernandez1997 := fun _ _ _ => n 63;
  Reaction_LogK_fT := fun _ T P _ => tpr_all (add (n 70) (add T P));
  ReactionFrantzMarshall := fun _ _ _ ps => tpr_all (add (n 71) ps);
  ReactionRyzhenkoBryzgalin := fun _ _ _ ps => tpr_all (add (n 72) ps);
  Reaction_Vol_fT := fun _ T P => tpr_all (add (n 73) (add T P))
|}.

(** A substance computed directly, with the given name, symbol and codes. *)
Definition substance (name symbol : string) (genEOS : MethodGenEoS) (T : MethodCorrT)
    (P : MethodCorrP) (Tr : Z) : Substance num :=
  {| name := name; symbol := symbol; formula := symbol; reactionSymbol := "";
     substanceClass := SubstanceClass_other 0;
     aggregateState := AggregateState_other 0;
     thermoCalculationType := SubstanceThermoCalculationType_other 0;
     methodGenEOS := genEOS; method_T := T; method_P := P;
     referenceT := n Tr; referenceP := n 1 |}.

Definition hydrogen : Substance num :=
  substance "H+" "H+" CTPM_HKF (CTM_other 0) (CPM_other 0) 298.

Definition water : Substance num :=
  {| name := "H2O@"; symbol := "H2O@"; formula := "H2O"; reactionSymbol := "";
     substanceClass := AQSOLVENT;
     aggregateState := AggregateState_other 0;
     thermoCalculationType := SubstanceThermoCalculationType_other 0;
     methodGenEOS := CTPM_WJNR; method_T := CTM_WAT; method_P := CPM_other 0;
     referenceT := n 298; referenceP := n 1 |}.

Definition A : Substance num := substance "A" "A" CTPM_CPT (CTM_other 0) CPM_CON 3.
Definition B : Substance num := substance "B" "B" CTPM_HKF CTM_CHP CPM_CEH 5.

(** A substance whose three codes have no handler. *)
Definition U : Substance num :=
  substance "U" "U" (CTPM_other 100) (CTM_other 100) (CPM_other 100) 298.

(** A substance defined through the reaction [R]. *)
Definition X : Substance num :=
  {| name := "X"; symbol := "X"; formula := "X"; reactionSymbol := "R";
     substanceClass := SubstanceClass_other 0;
     aggregateState := AggregateState_other 0;
     thermoCalculationType := REACDC;
     methodGenEOS := CTPM_other 0; method_T := CTM_other 0; method_P := CPM_other 0;
     referenceT := n 298; referenceP := n 1 |}.

(** A reaction-derived substance that its reaction does not list. *)
Definition Y : Substance num :=
  {| name := "Y"; symbol := "Y"; formula := "Y"; reactionSymbol := "R";
     substanceClass := SubstanceClass_other 0;
     aggregateState := AggregateState_other 0;
     thermoCalculationType := REACDC;
     methodGenEOS := CTPM_other 0; method_T := CTM_other 0; method_P := CPM_other 0;
     referenceT := n 298; referenceP := n 1 |}.

(** A record whose name is not its symbol. *)
Definition quartz : Substance num :=
  substance "Quartz" "Qtz" CTPM_CPT (CTM_other 0) CPM_CON 298.

Definition R : Reaction num :=
  {| reaction_name := "R"; reaction_symbol := "R";
     reaction_method_T := CTM_LGK; reaction_method_P := CPM_NUL;
     reactants := StdMap.of_list [("X", one); ("A", opp one); ("B", opp one)] |}.

(** A reaction with the modified Ryzhenko-Bryzgalin temperature correction and
    a volume-based pressure correction, and one that differs from it in the
    temperature correction only. *)
Definition R_MRB : Reaction num :=
  {| reaction_name := "R_MRB"; reaction_symbol := "R_MRB";
     reaction_method_T := CTM_MRB; reaction_method_P := CPM_VKE;
     reactants := StdMap.of_list [("A", one); ("B", opp one)] |}.

Definition R_DKR : Reaction num :=
  {| reaction_name := "R_DKR"; reaction_symbol := "R_DKR";
     reaction_method_T := CTM_DKR; reaction_method_P := CPM_VKE;
     reactants := StdMap.of_list [("A", one); ("B", opp one)] |}.

(** A reaction whose two codes have no handler. *)
Definition R_U : Reaction num :=
  {| reaction_name := "R_U"; reaction_symbol := "R_U";
     reaction_method_T := CTM_other 100; reaction_method_P := CPM_other 100;
     reactants := StdMap.of_list [("A", one); ("B", opp one)] |}.

Definition database : Database num :=
  addReaction R_U (addReaction R_DKR (addReaction R_MRB (addReaction R
    (addSubstance Y (addSubstance X (addSubstance U (addSubstance B (addSubstance A
      (addSubstance water (addSubstance hydrogen Database_new)))))))))).

(** A second store, in which the record named "H+" is reaction-derived,
    through a reaction [R_H] with reactants {H+: 1, A: -1, B: -1}. *)
Definition hydrogen_reacDC : Substance num :=
  {| name := "H+"; symbol := "H+"; formula := "H+"; reactionSymbol := "R_H";
     substanceClass := SubstanceClass_other 0;
     aggregateState := AggregateState_other 0;
     thermoCalculationType := REACDC;
     methodGenEOS := CTPM_other 0; method_T := CTM_other 0; method_P := CPM_other 0;
     referenceT := n 298; referenceP := n 1 |}.

Definition R_H : Reaction num :=
  {| reaction_name := "R_H"; reaction_symbol := "R_H";
     reaction_method_T := CTM_LGK; reaction_method_P := CPM_NUL;
     reactants := StdMap.of_list [("H+", one); ("A", opp one); ("B", opp one)] |}.

Definition database_H : Database num :=
  addReaction R_H (addSubstance hydrogen_reacDC (addSubstance B (addSubstance A
    (addSubstance water Database_new)))).

End Sample.
End Sample.

(** More records for the closed examples: reaction-derived substances whose
    definition is incomplete or goes round in a circle, and a second
    solvent. *)
Module Sample2.
Section Sample2.
Context {num : Type} `{Scalar num}.

(** A reaction-derived substance with the given reaction symbol. *)
Definition derived (name reactionSymbol : string) : Substance num :=
  {| name := name; symbol := name; formula := name; reactionSymbol := reactionSymbol;
     substanceClass := SubstanceClass_other 0;
     aggregateState := AggregateState_other 0;
     thermoCalculationType := REACDC;
     methodGenEOS := CTPM_other 0; method_T := CTM_other 0; method_P := CPM_other 0;
     referenceT := Sample.n 298; referenceP := Sample.n 1 |}.

(** No reaction symbol; and the symbol of a reaction that the store does not
    hold. *)
Definition Z_empty : Substance num := derived "Z_empty" "".
Definition Z_missing : Substance num := derived "Z_missing" "R_none".

(** Two substances defined by the same reaction, each in terms of the
    other. *)
Definition V : Substance num := derived "V" "R_VW".
Definition W : Substance num := derived "W" "R_VW".

Definition R_VW : Reaction num :=
  {| reaction_name := "R_VW"; reaction_symbol := "R_VW";
     reaction_method_T := CTM_LGK; reaction_method_P := CPM_NUL;
     reactants := StdMap.of_list [("V", one); ("W", opp one)] |}.

(** A second solvent, with another water model. *)
Definition heavy_water : Substance num :=
  {| name := "D2O@"; symbol := "D2O@"; formula := "D2O"; reactionSymbol := "";
     substanceClass := AQSOLVENT;
     aggregateState := AggregateState_other 0;
     thermoCalculationType := SubstanceThermoCalculationType_other 0;
     methodGenEOS := CTPM_WJNG; method_T := CTM_WAR; method_P := CPM_other 0;
     referenceT := Sample.n 298; referenceP := Sample.n 1 |}.

Definition database : Database num :=
  addReaction R_VW (addSubstance W (addSubstance V (addSubstance Z_missing
    (addSubstance Z_empty (addSubstance heavy_water Sample.database))))).

(** A store without a solvent. *)
Definition database_dry : Database num :=
  addSubstance Sample.B Database_new.

(** One-digit rows for the export. *)
Definition digit (z : Z) : string :=
  String (Ascii.ascii_of_N (48 + Z.to_N z)) "".

Definition wt_all (z : Z) : WaterThermoState Z :=
  {| wt_temperature := z; wt_pressure := z; wt_cp := z; wt_cv := z;
     wt_density := z; wt_enthalpy := z; wt_entropy := z; wt_gibbs := z;
     wt_helmholtz := z; wt_internal_energy := z; wt_volume := z |}.

End Sample2.

(** What [thermoPropertiesReactionFromReactants] returns for the reaction [R]
    of the sample store at T = 3, P = 2, with rationals and with [R_CONSTANT]
    and [ln_to_lg] taken to be 1. *)
Definition tpr_R : ThermoPropertiesReaction Q :=
  {| ln_equilibrium_constant := -75 # 3; log_equilibrium_constant := -75 # 3;
     reaction_gibbs_energy := 75%Q; reaction_helmholtz_energy := 0%Q;
     reaction_internal_energy := 0%Q; reaction_enthalpy := 75%Q;
     reaction_entropy := 75%Q; reaction_volume := 75%Q;
     reaction_heat_capacity_cp := 75%Q; reaction_heat_capacity_cv := 0%Q |}.

End Sample2.


(* ===================================================================== *)
(** * Exact scalars                                                       *)
(* ===================================================================== *)

Lemma Q_sub_mul_opp_one (x y : Q) : Qminus x (Qmult y (Qopp 1)) = Qplus x y.
Proof.
  destruct x as [xn xd], y as [yn yd].
  unfold Qminus, Qplus, Qmult, Qopp; simpl.
  rewrite Pos.mul_1_r. f_equal. lia.
Qed.

Lemma Q_div_one (x : Q) : Qdiv x 1 = x.
Proof.
  destruct x as [xn xd]. unfold Qdiv, Qmult, Qinv; simpl.
  rewrite Pos.mul_1_r, Z.mul_1_r. reflexivity.
Qed.

Lemma Q_add_swap (x y z : Q) : Qplus (Qplus x y) z = Qplus (Qplus x z) y.
Proof.
  destruct x as [xn xd], y as [yn yd], z as [zn zd].
  unfold Qplus; simpl. f_equal; lia.
Qed.

(** Rational arithmetic is exact. *)
#[export] Instance Q_ExactScalar : ExactScalar Q := {|
  sub_mul_opp_one := Q_sub_mul_opp_one;
  div_one := Q_div_one;
  add_swap := Q_add_swap
|}.

Section QcExact.
Import Qcanon.

(** Arithmetic on rationals in lowest terms is exact. *)
#[export] Instance Qc_ExactField : @ExactField Qc Qc_Scalar.
Proof.
  split; simpl; intros.
  - ring.
  - ring.
  - ring.
  - ring.
  - unfold Qcminus. ring.
  - unfold Qcminus. ring.
  - unfold Qcminus. ring.
  - unfold Qcdiv. field. done.
Qed.

End QcExact.


(* ===================================================================== *)
(** * The record store                                                    *)
(* ===================================================================== *)

Section StoreFacts.
Context {num : Type}.
Implicit Types (db : Database num) (s : Substance num) (r : Reaction num).

Lemma map_count_None {V} (m : gmap string V) (k : string) :
  m !! k = None -> map_count m k = 0.
Proof. unfold map_count. intros ->. reflexivity. Qed.

Lemma map_count_Some {V} (m : gmap string V) (k : string) (v : V) :
  m !! k = Some v -> map_count m k = 1.
Proof. unfold map_count. intros ->. reflexivity. Qed.

Lemma getSubstance_None db name :
  substances_map db !! name = None ->
  getSubstance db name = errorNonExistent "substance" name 189.
Proof.
  intros Hk. unfold getSubstance. rewrite (map_count_None _ _ Hk).
  rewrite decide_True by reflexivity. reflexivity.
Qed.

Lemma getSubstance_Some db name s :
  substances_map db !! name = Some s -> getSubstance db name = Ok s.
Proof.
  intros Hk. unfold getSubstance. rewrite (map_count_Some _ _ _ Hk), Hk.
  rewrite decide_False by discriminate. reflexivity.
Qed.

Lemma getReaction_None db name :
  reactions_map db !! name = None ->
  getReaction db name = errorNonExistent "reaction" name 197.
Proof.
  intros Hk. unfold getReaction. rewrite (map_count_None _ _ Hk).
  rewrite decide_True by reflexivity. reflexivity.
Qed.

Lemma getReaction_Some db name r :
  reactions_map db !! name = Some r -> getReaction db name = Ok r.
Proof.
  intros Hk. unfold getReaction. rewrite (map_count_Some _ _ _ Hk), Hk.
  rewrite decide_False by discriminate. reflexivity.
Qed.

Lemma getSubstance_Ok db name s :
  getSubstance db name = Ok s -> substances_map db !! name = Some s.
Proof.
  destruct (substances_map db !! name) as [s'|] eqn:Hk.
  - rewrite (getSubstance_Some _ _ _ Hk). congruence.
  - rewrite (getSubstance_None _ _ Hk). discriminate.
Qed.

Lemma getReaction_Ok db name r :
  getReaction db name = Ok r -> reactions_map db !! name = Some r.
Proof.
  destruct (reactions_map db !! name) as [r'|] eqn:Hk.
  - rewrite (getReaction_Some _ _ _ Hk). congruence.
  - rewrite (getReaction_None _ _ Hk). discriminate.
Qed.

Lemma map_insert_fresh {V} (k : string) (v : V) (m : gmap string V) :
  m !! k = None -> map_insert k v m !! k = Some v.
Proof. intros Hk. unfold map_insert. rewrite Hk. apply lookup_insert_eq. Qed.

Lemma map_insert_taken {V} (k : string) (v v' : V) (m : gmap string V) :
  m !! k = Some v' -> map_insert k v m = m.
Proof. intros Hk. unfold map_insert. rewrite Hk. reflexivity. Qed.

Lemma map_insert_lookup {V} (k k' : string) (v v' : V) (m : gmap string V) :
  map_insert k v m !! k' = Some v' -> m !! k' = Some v' \/ (k' = k /\ v' = v).
Proof.
  unfold map_insert. destruct (m !! k) eqn:Hk; [by left|].
  destruct (decide (k = k')) as [->|Hne].
  - rewrite lookup_insert_eq. intros [= ->]. by right.
  - rewrite lookup_insert_ne by done. by left.
Qed.

(** In a store built with [addSubstance] and [addReaction], a record is
    filed under its name. *)
Lemma Database_built_substance_name db :
  Database_built db ->
  forall k s, substances_map db !! k = Some s -> name s = k.
Proof.
  induction 1 as [|s0 db Hb IH|r0 db Hb IH]; intros k s; simpl.
  - rewrite lookup_empty. discriminate.
  - intros [Hk|[-> ->]]%map_insert_lookup; [by apply IH | reflexivity].
  - apply IH.
Qed.

Lemma Database_built_reaction_name db :
  Database_built db ->
  forall k r, reactions_map db !! k = Some r -> reaction_name r = k.
Proof.
  induction 1 as [|s0 db Hb IH|r0 db Hb IH]; intros k r; simpl.
  - rewrite lookup_empty. discriminate.
  - apply IH.
  - intros [Hk|[-> ->]]%map_insert_lookup; [by apply IH | reflexivity].
Qed.

End StoreFacts.


(* ===================================================================== *)
(** * Facts about [run] and [eval]                                        *)
(* ===================================================================== *)

Section RunFacts.
Context {num : Type} `{Scalar num} `{Models num}.
Variable database : Database num.
Variable solventSymbol : string.

Local Abbreviation body := (underlying database solventSymbol).
Local Abbreviation runs := (run database solventSymbol).
Local Abbreviation evals := (eval database solventSymbol).
Local Abbreviation invoke_underlying := (invoke_underlying database solventSymbol).
Local Abbreviation value := (value database solventSymbol).
Local Abbreviation consistent := (consistent database solventSymbol).
Local Abbreviation reachable := (reachable database solventSymbol).

Lemma run_Return fuel {A} (a : A) st : runs fuel (Return a) st = (Ok a, st).
Proof. destruct fuel; reflexivity. Qed.

Lemma run_Throw fuel {A} e st : runs fuel (@Throw _ _ A e) st = (Err e, st).
Proof. destruct fuel; reflexivity. Qed.

Lemma run_Invoke fuel {A} k args (cont : Ret k -> Prog A) st :
  runs fuel (Invoke k args cont) st =
  match memoize k (invoke_underlying fuel k) args st with
  | (Ok v, st') => runs fuel (cont v) st'
  | (Err e, st') => (Err e, st')
  end.
Proof. destruct fuel; reflexivity. Qed.

Lemma eval_Return fuel {A} (a : A) : evals fuel (Return a) = Ok a.
Proof. destruct fuel; reflexivity. Qed.

Lemma eval_Throw fuel {A} e : evals fuel (@Throw _ _ A e) = Err e.
Proof. destruct fuel; reflexivity. Qed.

Lemma eval_Invoke fuel {A} k args (cont : Ret k -> Prog A) :
  evals fuel (Invoke k args cont) =
  match fuel with
  | O => Err Diverges
  | S fuel' =>
      match evals fuel' (body k args) with
      | Ok v => evals fuel (cont v)
      | Err e => Err e
      end
  end.
Proof. destruct fuel; reflexivity. Qed.

Lemma run_bind fuel {A B} (p : Prog A) (f : A -> Prog B) st :
  runs fuel (bind p f) st =
  match runs fuel p st with
  | (Ok a, st') => runs fuel (f a) st'
  | (Err e, st') => (Err e, st')
  end.
Proof.
  revert st. induction p as [a|e|k args cont IH]; intros st; simpl.
  - rewrite run_Return. reflexivity.
  - rewrite !run_Throw. reflexivity.
  - rewrite !run_Invoke.
    destruct (memoize k (invoke_underlying fuel k) args st) as [[v|e] st']; [apply IH | reflexivity].
Qed.

Lemma eval_bind fuel {A B} (p : Prog A) (f : A -> Prog B) :
  evals fuel (bind p f) =
  match evals fuel p with
  | Ok a => evals fuel (f a)
  | Err e => Err e
  end.
Proof.
  induction p as [a|e|k args cont IH]; simpl.
  - rewrite eval_Return. reflexivity.
  - rewrite !eval_Throw. reflexivity.
  - rewrite !eval_Invoke. destruct fuel as [|fuel']; [reflexivity|].
    destruct (evals fuel' (body k args)) as [v|e]; [apply IH | reflexivity].
Qed.

(** More fuel does not change a result. *)
Lemma eval_mono fuel :
  forall {A} (p : Prog A) r, evals fuel p = r -> r <> Err Diverges ->
  forall fuel', (fuel <= fuel')%nat -> evals fuel' p = r.
Proof.
  induction fuel as [|n IHn]; intros A p; induction p as [a|e|k args cont IHp];
    intros r Hr Hnd m Hm.
  - rewrite eval_Return in *. congruence.
  - rewrite eval_Throw in *. congruence.
  - rewrite eval_Invoke in Hr. congruence.
  - rewrite eval_Return in *. congruence.
  - rewrite eval_Throw in *. congruence.
  - rewrite eval_Invoke in Hr. destruct m as [|m]; [lia|]. rewrite eval_Invoke.
    destruct (evals n (body k args)) as [v|e] eqn:Hb.
    + rewrite (IHn _ _ _ Hb) by (congruence || lia). by apply IHp.
    + rewrite (IHn _ _ _ Hb) by (congruence || lia). done.
Qed.

Lemma eval_det {A} (p : Prog A) fuel fuel' r r' :
  evals fuel p = r -> evals fuel' p = r' ->
  r <> Err Diverges -> r' <> Err Diverges -> r = r'.
Proof.
  intros Hr Hr' Hnd Hnd'.
  rewrite <- (eval_mono _ _ _ Hr Hnd (fuel `max` fuel')%nat) by lia.
  rewrite <- (eval_mono _ _ _ Hr' Hnd' (fuel `max` fuel')%nat) by lia.
  reflexivity.
Qed.

Lemma value_det k args v v' : value k args v -> value k args v' -> v = v'.
Proof.
  intros [n Hn] [n' Hn'].
  assert (Ok v = Ok v') as [=]; [|done].
  by eapply (eval_det _ n n').
Qed.

(** ** The caches *)

Lemma cache_find_store k args v st args' :
  cache_find k args' (cache_store k args v st) =
  if decide (args = args') then Some v else cache_find k args' st.
Proof. destruct k; reflexivity. Qed.

Lemma cache_find_store_ne k args v st k' args' :
  k <> k' -> cache_find k' args' (cache_store k args v st) = cache_find k' args' st.
Proof. destruct k, k'; intros Hne; try reflexivity; congruence. Qed.

Lemma computed_store k args v st :
  computed (cache_store k args v st) = (k, args) :: computed st.
Proof. destruct k; reflexivity. Qed.

Lemma consistent_new : consistent State_new.
Proof. intros k args v. destruct k; discriminate. Qed.

Lemma consistent_store k args v st :
  consistent st -> value k args v -> consistent (cache_store k args v st).
Proof.
  intros Hc Hv k' args' v'.
  destruct (decide (k = k')) as [<-|Hne].
  - rewrite cache_find_store. case_decide; [|apply Hc].
    intros [= <-]. by subst.
  - rewrite cache_find_store_ne by done. apply Hc.
Qed.

Lemma extends_refl st : extends st st.
Proof. by intros k args v. Qed.

Lemma extends_trans st1 st2 st3 : extends st1 st2 -> extends st2 st3 -> extends st1 st3.
Proof. intros H12 H23 k args v Hf. by apply H23, H12. Qed.

Lemma extends_store k args v st :
  consistent st -> value k args v -> extends st (cache_store k args v st).
Proof.
  intros Hc Hv k' args' v' Hf.
  destruct (decide (k = k')) as [<-|Hne].
  - rewrite cache_find_store. case_decide; [|done]. subst.
    f_equal. eapply value_det; [done|]. by apply Hc.
  - by rewrite cache_find_store_ne.
Qed.

(** ** A run against the caches computes what [eval] computes *)

Lemma run_sound fuel :
  forall {A} (p : Prog A) st, consistent st ->
  consistent (runs fuel p st).2 /\
  extends st (runs fuel p st).2 /\
  ((runs fuel p st).1 <> Err Diverges -> exists fuel', evals fuel' p = (runs fuel p st).1) /\
  (forall r, evals fuel p = r -> r <> Err Diverges -> (runs fuel p st).1 = r).
Proof.
  induction fuel as [fuel IHfuel] using lt_wf_ind.
  intros A p; induction p as [a|e|k args cont IHp]; intros st Hc.
  - rewrite run_Return; simpl. split_and!; [done|apply extends_refl| |].
    + intros _. exists O. by rewrite eval_Return.
    + intros r. rewrite eval_Return. by intros <-.
  - rewrite run_Throw; simpl. split_and!; [done|apply extends_refl| |].
    + intros _. exists O. by rewrite eval_Throw.
    + intros r. rewrite eval_Throw. by intros <-.
  - rewrite run_Invoke. unfold memoize.
    destruct (cache_find k args st) as [v|] eqn:Hfind.
    + (* a cached value *)
      destruct (Hc _ _ _ Hfind) as [n Hn].
      destruct (IHp v st Hc) as (Hc' & Hext & Hfwd & Hbwd).
      split_and!; [done|done| |].
      * intros Hnd. destruct (Hfwd Hnd) as [m Hm].
        exists (S (n `max` m)). rewrite eval_Invoke.
        rewrite (eval_mono _ _ _ Hn) by (done || lia).
        apply (eval_mono _ _ _ Hm); [done|lia].
      * intros r. rewrite eval_Invoke. destruct fuel as [|fuel']; [congruence|].
        destruct (evals fuel' (body k args)) as [v'|e] eqn:Hb.
        -- assert (Ok v' = Ok v) as [= ->] by (by eapply (eval_det _ fuel' n)).
           apply Hbwd.
        -- intros <- Hnd. exfalso.
           assert (Err e = Ok v) by (eapply (eval_det _ fuel' n); done || congruence).
           discriminate.
    + (* a miss *)
      destruct fuel as [|fuel']; unfold invoke_underlying.
      * split_and!; [done|apply extends_refl|done|].
        intros r Hr Hnd. rewrite eval_Invoke in Hr. congruence.
      * destruct (IHfuel fuel' ltac:(lia) _ (body k args) st Hc) as (Hc1 & Hext1 & Hfwd1 & Hbwd1).
        destruct (runs fuel' (body k args) st) as [[v|e] st1] eqn:Hrun; simpl in *.
        -- assert (value k args v) as Hv by (apply Hfwd1; done).
           pose proof (consistent_store _ _ _ _ Hc1 Hv) as Hc2.
           destruct (IHp v _ Hc2) as (Hc' & Hext & Hfwd & Hbwd).
           split_and!; [done| | |].
           ++ eapply extends_trans; [done|]. eapply extends_trans; [|done].
              by apply extends_store.
           ++ intros Hnd. destruct (Hfwd Hnd) as [m Hm]. destruct Hv as [n Hn].
              exists (S (n `max` m)). rewrite eval_Invoke.
              rewrite (eval_mono _ _ _ Hn) by (done || lia).
              apply (eval_mono _ _ _ Hm); [done|lia].
           ++ intros r. rewrite eval_Invoke.
              destruct (evals fuel' (body k args)) as [v'|e] eqn:Hb.
              ** assert (Ok v = Ok v') as [= <-] by (by apply Hbwd1).
                 apply Hbwd.
              ** intros <- Hnd.
                 assert (Ok v = Err e) by (apply Hbwd1; congruence). discriminate.
        -- split_and!; [done|done| |].
           ++ intros Hnd. destruct (Hfwd1 ltac:(congruence)) as [m Hm].
              exists (S m). rewrite eval_Invoke, Hm. done.
           ++ intros r. rewrite eval_Invoke.
              destruct (evals fuel' (body k args)) as [v'|e'] eqn:Hb.
              ** assert (Err e = Ok v') by (by apply Hbwd1). discriminate.
              ** intros <- Hnd. simpl.
                 assert (@Err (Ret k) e = Err e') by (apply Hbwd1; congruence).
                 congruence.
Qed.

(** ** An entry is never computed inside its own computation *)

(** Every entry that a run adds belongs to an invocation nested in the
    program: when the program has a value with [m] levels of nesting, the
    function of each new entry has one with fewer. *)
Lemma run_fresh fuel :
  forall {A} (p : Prog A) st m v0, consistent st -> evals m p = Ok v0 ->
  forall k args, cache_find k args st = None ->
  is_Some (cache_find k args (runs fuel p st).2) ->
  exists j, (j < m)%nat /\ is_Ok (evals j (body k args)).
Proof.
  induction fuel as [fuel IHfuel] using lt_wf_ind.
  intros A p; induction p as [a|e|k1 a1 cont IHp]; intros st m v0 Hc Hev k args Hnone.
  - rewrite run_Return; simpl. rewrite Hnone. by intros [? ?].
  - rewrite run_Throw; simpl. rewrite Hnone. by intros [? ?].
  - rewrite eval_Invoke in Hev. destruct m as [|m']; [discriminate|].
    destruct (evals m' (body k1 a1)) as [v1|] eqn:Hb; [|discriminate].
    rewrite run_Invoke. unfold memoize.
    destruct (cache_find k1 a1 st) as [v|] eqn:Hfind.
    + assert (v = v1) as -> by (eapply value_det; [by apply Hc | by exists m']).
      by apply (IHp v1 st (S m') v0).
    + destruct fuel as [|fuel']; unfold invoke_underlying.
      { simpl. rewrite Hnone. by intros [? ?]. }
      pose proof (run_sound fuel' (body k1 a1) st Hc) as (Hc1 & Hext1 & Hfwd1 & _).
      pose proof (IHfuel fuel' ltac:(lia) _ (body k1 a1) st m' v1 Hc Hb k args Hnone) as IH1.
      destruct (runs fuel' (body k1 a1) st) as [[v|e] st1] eqn:Hrun; simpl in *.
      * assert (value k1 a1 v) as Hv by (by apply Hfwd1).
        assert (v = v1) as -> by (eapply value_det; [done | by exists m']).
        pose proof (consistent_store _ _ _ _ Hc1 Hv) as Hc2.
        destruct (cache_find k args (cache_store k1 a1 v1 st1)) as [w|] eqn:Hf2.
        -- intros _. destruct (decide (k1 = k)) as [<-|Hne].
           ++ rewrite cache_find_store in Hf2. case_decide as Hargs.
              ** subst. exists m'. split; [lia | by exists v1].
              ** destruct IH1 as (j & Hj & Hok); [by rewrite Hf2|].
                 exists j. split; [lia | done].
           ++ rewrite cache_find_store_ne in Hf2 by done.
              destruct IH1 as (j & Hj & Hok); [by rewrite Hf2|].
              exists j. split; [lia | done].
        -- by apply (IHp v1 _ (S m') v0).
      * intros Hs. destruct (IH1 Hs) as (j & Hj & Hok). exists j. split; [lia | done].
Qed.

Lemma run_no_self_nesting fuel k args st v st1 :
  consistent st -> cache_find k args st = None ->
  runs fuel (body k args) st = (Ok v, st1) ->
  cache_find k args st1 = None.
Proof.
  intros Hc Hnone Hrun.
  destruct (cache_find k args st1) as [w|] eqn:Hf; [exfalso | reflexivity].
  assert (forall n, is_Ok (evals n (body k args)) -> False) as Hno.
  { induction n as [n IHn] using lt_wf_ind. intros [v' Hv'].
    destruct (run_fresh fuel (body k args) st n v' Hc Hv' k args Hnone) as (j & Hj & Hok).
    - rewrite Hrun. simpl. by rewrite Hf.
    - by apply (IHn j). }
  pose proof (run_sound fuel (body k args) st Hc) as (_ & _ & Hfwd & _).
  rewrite Hrun in Hfwd. destruct Hfwd as [n Hn]; [done|].
  apply (Hno n). by exists v.
Qed.

(** Nor does a run of the function, however it ends, leave an entry for its
    own tuple. *)
Lemma run_no_own_entry fuel k args st :
  consistent st -> cache_find k args st = None ->
  cache_find k args (runs fuel (body k args) st).2 = None.
Proof.
  intros Hc Hnone.
  destruct (cache_find k args (runs fuel (body k args) st).2) as [w|] eqn:Hf;
    [exfalso | reflexivity].
  assert (forall n, is_Ok (evals n (body k args)) -> False) as Hno.
  { induction n as [n IHn] using lt_wf_ind. intros [v' Hv'].
    destruct (run_fresh fuel (body k args) st n v' Hc Hv' k args Hnone)
      as (j & Hj & Hok).
    - by rewrite Hf.
    - by apply (IHn j). }
  pose proof (run_sound fuel (body k args) st Hc) as (Hc1 & _).
  destruct (Hc1 _ _ _ Hf) as [n Hn]. apply (Hno n). by exists w.
Qed.

Lemma counted_new : counted State_new.
Proof.
  split; [constructor|]. intros k args Hin. simpl in Hin. by apply elem_of_nil in Hin.
Qed.

Lemma counted_store k args v st :
  counted st -> cache_find k args st = None -> counted (cache_store k args v st).
Proof.
  intros [Hnd Hin] Hnone. split.
  - rewrite computed_store. constructor; [|done].
    intros Hk. apply Hin in Hk. rewrite Hnone in Hk. by destruct Hk.
  - intros k' args'. rewrite computed_store. intros [Heq|Hk]%elem_of_cons.
    + injection Heq as -> ->. rewrite cache_find_store, decide_True by done. by eexists.
    + destruct (decide (k = k')) as [<-|Hne].
      * rewrite cache_find_store. case_decide; [by eexists | by apply Hin].
      * rewrite cache_find_store_ne by done. by apply Hin.
Qed.

Lemma run_counted fuel :
  forall {A} (p : Prog A) st, consistent st -> counted st -> counted (runs fuel p st).2.
Proof.
  induction fuel as [fuel IHfuel] using lt_wf_ind.
  intros A p; induction p as [a|e|k args cont IHp]; intros st Hc Hn.
  - by rewrite run_Return.
  - by rewrite run_Throw.
  - rewrite run_Invoke. unfold memoize.
    destruct (cache_find k args st) as [v|] eqn:Hfind; [by apply IHp|].
    destruct fuel as [|fuel']; unfold invoke_underlying; [done|].
    pose proof (run_sound fuel' (body k args) st Hc) as (Hc1 & _ & Hfwd1 & _).
    pose proof (IHfuel fuel' ltac:(lia) _ (body k args) st Hc Hn) as Hn1.
    destruct (runs fuel' (body k args) st) as [[v|e] st1] eqn:Hrun; simpl in *; [|done].
    apply IHp.
    + apply consistent_store; [done | by apply Hfwd1].
    + apply counted_store; [done|].
      exact (run_no_self_nesting fuel' k args st v st1 Hc Hfind Hrun).
Qed.

Lemma reachable_consistent st : reachable st -> consistent st.
Proof.
  induction 1 as [|k fuel T P symbol st Hr IH]; [apply consistent_new|].
  by apply run_sound.
Qed.

Lemma reachable_counted st : reachable st -> counted st.
Proof.
  induction 1 as [|k fuel T P symbol st Hr IH]; [apply counted_new|].
  apply run_counted; [by apply reachable_consistent | done].
Qed.

Lemma later_reachable st st' :
  reachable st -> later database solventSymbol st st' -> reachable st'.
Proof. intros Hr. induction 1; [done | by constructor]. Qed.

Lemma later_extends st st' :
  reachable st -> later database solventSymbol st st' -> extends st st'.
Proof.
  intros Hr. induction 1 as [|k fuel T P symbol st' Hl IH]; [apply extends_refl|].
  eapply extends_trans; [done|].
  apply run_sound, reachable_consistent. by eapply later_reachable.
Qed.

(** ** The entry points *)

Lemma entry_point_hit k fuel T P symbol st v :
  cache_find k (T, P, P, symbol) st = Some v ->
  entry_point database solventSymbol k fuel T P symbol st = (Ok v, st).
Proof.
  intros Hf. unfold entry_point, call. rewrite run_Invoke. unfold memoize.
  rewrite Hf. apply run_Return.
Qed.

Lemma entry_point_miss k fuel T P symbol st :
  cache_find k (T, P, P, symbol) st = None ->
  entry_point database solventSymbol k (S fuel) T P symbol st =
  match runs fuel (body k (T, P, P, symbol)) st with
  | (Ok v, st') => (Ok v, cache_store k (T, P, P, symbol) v st')
  | (Err e, st') => (Err e, st')
  end.
Proof.
  intros Hf. unfold entry_point, call. rewrite run_Invoke. unfold memoize.
  rewrite Hf. unfold invoke_underlying.
  destruct (runs fuel (body k (T, P, P, symbol)) st) as [[v|e] st']; [apply run_Return | done].
Qed.

Lemma eval_call fuel k T P symbol :
  evals (S fuel) (call k T P P symbol) = evals fuel (body k (T, P, P, symbol)).
Proof.
  unfold call. rewrite eval_Invoke.
  destruct (evals fuel (body k (T, P, P, symbol))); [apply eval_Return | done].
Qed.

(** With enough fuel an entry point returns what [eval] computes, in every
    state the evaluator can be in. *)
Lemma entry_point_eval k fuel T P symbol st r :
  consistent st ->
  evals fuel (body k (T, P, P, symbol)) = r -> r <> Err Diverges ->
  forall fuel', (fuel < fuel')%nat ->
  (entry_point database solventSymbol k fuel' T P symbol st).1 = r.
Proof.
  intros Hc Hr Hnd fuel' Hlt. unfold entry_point.
  apply run_sound; [done| |done].
  destruct fuel' as [|fuel']; [lia|]. rewrite eval_call.
  apply (eval_mono _ _ _ Hr); [done|lia].
Qed.

(** And what an entry point returns is the value of its function. *)
Lemma entry_point_value k fuel T P symbol st r :
  consistent st ->
  (entry_point database solventSymbol k fuel T P symbol st).1 = r -> r <> Err Diverges ->
  exists fuel', evals fuel' (body k (T, P, P, symbol)) = r.
Proof.
  intros Hc Hr Hnd. unfold entry_point in Hr.
  destruct (run_sound fuel (call k T P P symbol) st Hc) as (_ & _ & Hfwd & _).
  destruct Hfwd as [m Hm]; [congruence|]. rewrite Hr in Hm. destruct m as [|m].
  - unfold call in Hm. rewrite eval_Invoke in Hm. congruence.
  - exists m. rewrite <- eval_call. congruence.
Qed.

Lemma entry_point_cached k fuel T P symbol st v :
  (entry_point database solventSymbol k fuel T P symbol st).1 = Ok v ->
  cache_find k (T, P, P, symbol) (entry_point database solventSymbol k fuel T P symbol st).2
  = Some v.
Proof.
  destruct (cache_find k (T, P, P, symbol) st) as [w|] eqn:Hf.
  - rewrite (entry_point_hit _ _ _ _ _ _ _ Hf). simpl. congruence.
  - destruct fuel as [|fuel].
    + unfold entry_point, call. rewrite run_Invoke. unfold memoize. rewrite Hf. discriminate.
    + rewrite (entry_point_miss _ _ _ _ _ _ Hf).
      destruct (runs fuel (body k (T, P, P, symbol)) st) as [[w|e] st']; simpl; [|discriminate].
      intros [= ->]. rewrite cache_find_store. by rewrite decide_True.
Qed.

(** A call that ends with an error leaves no entry for its tuple. *)
Lemma entry_point_Err_not_cached k fuel T P symbol st e :
  consistent st ->
  (entry_point database solventSymbol k fuel T P symbol st).1 = Err e ->
  cache_find k (T, P, P, symbol) (entry_point database solventSymbol k fuel T P symbol st).2
  = None.
Proof.
  intros Hc.
  destruct (cache_find k (T, P, P, symbol) st) as [w|] eqn:Hf.
  - by rewrite (entry_point_hit _ _ _ _ _ _ _ Hf).
  - destruct fuel as [|fuel].
    + unfold entry_point, call. rewrite run_Invoke. unfold memoize. by rewrite Hf.
    + rewrite (entry_point_miss _ _ _ _ _ _ Hf).
      pose proof (run_no_own_entry fuel k (T, P, P, symbol) st Hc Hf) as Hown.
      destruct (runs fuel (body k (T, P, P, symbol)) st) as [[v|e'] st']; simpl in *; done.
Qed.

End RunFacts.


(* ===================================================================== *)
(** * Properties of the store                                             *)
(* ===================================================================== *)

(** C7, as the spec states it, fails: a record whose name is not its symbol
    is filed under its name, and [getSubstance] does not find it under its
    symbol. *)
Lemma store_not_keyed_by_symbol :
  let db := addSubstance (@Sample.quartz Q _) Database_new in
  symbol (@Sample.quartz Q _) = "Qtz" /\
  substances_map db !! "Qtz" = None /\
  getSubstance db "Qtz" <> Ok Sample.quartz /\
  getSubstance db "Quartz" = Ok Sample.quartz.
Proof. split_and!; [reflexivity | reflexivity | discriminate | reflexivity]. Qed.

(** C7, amended: the store is keyed by the record's name.  After
    [addSubstance(s)] on a store with no record under [s.name], the store
    holds [s] under the key [s.name] and [getSubstance(s.name)] returns [s];
    likewise for [addReaction] and [getReaction] with the reaction's name.
    The record's symbol plays no part. *)
Theorem store_keyed_by_name {num : Type} (db : Database num)
    (s : Substance num) (r : Reaction num) :
  substances_map db !! name s = None ->
  reactions_map db !! reaction_name r = None ->
  (substances_map (addSubstance s db) !! name s = Some s /\
   getSubstance (addSubstance s db) (name s) = Ok s) /\
  (reactions_map (addReaction r db) !! reaction_name r = Some r /\
   getReaction (addReaction r db) (reaction_name r) = Ok r).
Proof.
  intros Hs Hr.
  assert (substances_map (addSubstance s db) !! name s = Some s) as Hs'
    by (by apply map_insert_fresh).
  assert (reactions_map (addReaction r db) !! reaction_name r = Some r) as Hr'
    by (by apply map_insert_fresh).
  split; (split; [done|]).
  - by apply getSubstance_Some.
  - by apply getReaction_Some.
Qed.

Lemma store_keyed_by_name_witness :
  (substances_map (addSubstance (@Sample.quartz Q _) Database_new) !! "Quartz"
     = Some Sample.quartz /\
   getSubstance (addSubstance (@Sample.quartz Q _) Database_new) "Quartz"
     = Ok Sample.quartz) /\
  (reactions_map (addReaction (@Sample.R Q _) Database_new) !! "R" = Some Sample.R /\
   getReaction (addReaction (@Sample.R Q _) Database_new) "R" = Ok Sample.R).
Proof.
  exact (store_keyed_by_name Database_new Sample.quartz Sample.R eq_refl eq_refl).
Defined.


(* ===================================================================== *)
(** * Properties of the engine                                            *)
(* ===================================================================== *)

Section EngineFacts.
Context {num : Type} `{Scalar num} `{Models num}.
Variable database : Database num.
Variable solventSymbol : string.

Local Abbreviation body := (underlying database solventSymbol).
Local Abbreviation runs := (run database solventSymbol).
Local Abbreviation evals := (eval database solventSymbol).
Local Abbreviation reachable := (reachable database solventSymbol).
Local Abbreviation entry_point := (entry_point database solventSymbol).

(** An entry point whose function throws at once leaves the evaluator as it
    was. *)
Lemma entry_point_Throw k fuel T P symbol e st :
  reachable st ->
  body k (T, P, P, symbol) = Throw e ->
  entry_point k (S fuel) T P symbol st = (Err e, st).
Proof.
  intros Hr Hb.
  destruct (cache_find k (T, P, P, symbol) st) as [v|] eqn:Hf.
  - apply reachable_consistent in Hr. destruct (Hr _ _ _ Hf) as [n Hn].
    rewrite Hb, eval_Throw in Hn. discriminate.
  - rewrite (entry_point_miss _ _ _ _ _ _ _ _ Hf), Hb. by rewrite run_Throw.
Qed.

(** An entry point whose function returns at once returns that value. *)
Lemma entry_point_Return k fuel T P symbol v st :
  reachable st ->
  body k (T, P, P, symbol) = Return v ->
  (entry_point k (S fuel) T P symbol st).1 = Ok v.
Proof.
  intros Hr Hb. apply (entry_point_eval _ _ _ O); [by apply reachable_consistent| |done|lia].
  rewrite Hb. apply eval_Return.
Qed.

Lemma getThermoPreferences_None substance :
  substances_map database !! substance = None ->
  getThermoPreferences database substance = errorNonExistent "substance" substance 189.
Proof.
  intros Hk. unfold getThermoPreferences. by rewrite (getSubstance_None _ _ Hk).
Qed.

Lemma thermoPropertiesSubstance_None T P substance :
  substances_map database !! substance = None ->
  thermoPropertiesSubstance database solventSymbol T P substance =
  lift (errorNonExistent "substance" substance 189).
Proof.
  intros Hk. unfold thermoPropertiesSubstance.
  by rewrite (getThermoPreferences_None _ Hk).
Qed.

Lemma thermoPropertiesReaction_None T P reaction :
  reactions_map database !! reaction = None ->
  thermoPropertiesReaction database solventSymbol T P reaction =
  lift (errorNonExistent "reaction" reaction 197).
Proof.
  intros Hk. unfold thermoPropertiesReaction.
  by rewrite (getReaction_None _ _ Hk).
Qed.

(** C6.  For a symbol absent from the store, [getSubstance] ([getReaction]
    for a reaction) raises the error of [errorNonExistent], whose message
    names the type and the symbol; the substance (reaction) entry point called
    on it ends with that same error, in any state of the evaluator, returns no
    result and leaves the caches as they were: nothing is retried, nothing is
    stored. *)
Theorem absent_symbol_raises (st : State) (substance reaction : string) :
  reachable st ->
  substances_map database !! substance = None ->
  reactions_map database !! reaction = None ->
  (getSubstance database substance = errorNonExistent "substance" substance 189 /\
   (forall A, @errorNonExistent A "substance" substance 189 =
     Err (RaiseError
       {| error := "Cannot get an instance of the substance `" +:+ substance
                     +:+ "` in the database.";
          reason := "There is no such substance in the database.";
          line := 189 |})) /\
   forall fuel T P,
     entry_point thermo_properties_substance (S fuel) T P substance st =
     (errorNonExistent "substance" substance 189, st)) /\
  (getReaction database reaction = errorNonExistent "reaction" reaction 197 /\
   (forall A, @errorNonExistent A "reaction" reaction 197 =
     Err (RaiseError
       {| error := "Cannot get an instance of the reaction `" +:+ reaction
                     +:+ "` in the database.";
          reason := "There is no such reaction in the database.";
          line := 197 |})) /\
   forall fuel T P,
     entry_point thermo_properties_reaction (S fuel) T P reaction st =
     (errorNonExistent "reaction" reaction 197, st)).
Proof.
  intros Hr Hs Hre. split; split_and!.
  - by apply getSubstance_None.
  - reflexivity.
  - intros fuel T P. apply entry_point_Throw; [done|]. simpl.
    by rewrite (thermoPropertiesSubstance_None _ _ _ Hs).
  - by apply getReaction_None.
  - reflexivity.
  - intros fuel T P. apply entry_point_Throw; [done|]. simpl.
    by rewrite (thermoPropertiesReaction_None _ _ _ Hre).
Qed.

(** C9.  In a store built with [addSubstance], if there is a record under
    the key "H+", then [thermoPropertiesSubstance] on "H+" is the program that
    returns the default-constructed result: it invokes no entry point and calls
    no model.  The substance entry point returns that result, every field of
    which is zero, for all [T] and [P] and in every state of the evaluator. *)
Theorem hydrogen_sentinel (st : State) (fuel : nat) (T P : num) :
  Database_built database ->
  reachable st ->
  is_Some (substances_map database !! "H+") ->
  thermoPropertiesSubstance database solventSymbol T P "H+"
    = Return ThermoPropertiesSubstance_new /\
  (entry_point thermo_properties_substance (S fuel) T P "H+" st).1 =
    Ok {| gibbs_energy := zero; helmholtz_energy := zero; internal_energy := zero;
          enthalpy := zero; entropy := zero; volume := zero;
          heat_capacity_cp := zero; heat_capacity_cv := zero |}.
Proof.
  intros Hb Hr [s Hs].
  assert (thermoPropertiesSubstance database solventSymbol T P "H+"
          = Return ThermoPropertiesSubstance_new) as Hprog.
  { unfold thermoPropertiesSubstance, getThermoPreferences.
    rewrite (getSubstance_Some _ _ _ Hs). simpl.
    rewrite (Database_built_substance_name _ Hb _ _ Hs).
    by rewrite bool_decide_eq_true_2. }
  split; [done|]. by apply entry_point_Return.
Qed.

Lemma convention_convert_Return (pref : ThermoPreferences)
    (tps : ThermoPropertiesSubstance num) :
  convention_convert pref tps = Return tps.
Proof. unfold convention_convert. by destruct (isH2OSolvent pref). Qed.

(** C5.  The table [conventions] holds "" under "water-properties" and
    "Benson-Helgeson" under "aparent-properties", so both guards of the
    convention conversion are false, the conversion returns the result it is
    given, with neither [toSteamTables] nor [toBermanBrown] applied, and
    [thermoPropertiesSubstance] returns what the dispatched models returned:
    it runs as the function without its last block does. *)
Theorem conventions_never_applied :
  StdMap.at_ "water-properties" conventions = Ok "" /\
  iequals "" "steam-tables" = false /\
  StdMap.at_ "aparent-properties" conventions = Ok "Benson-Helgeson" /\
  iequals "Benson-Helgeson" "Berman-Brown" = false /\
  (forall (pref : ThermoPreferences) (tps : ThermoPropertiesSubstance num),
     convention_convert pref tps = Return tps) /\
  (forall fuel T P substance st,
     runs fuel (thermoPropertiesSubstance database solventSymbol T P substance) st =
     match getThermoPreferences database substance with
     | Err e => (Err e, st)
     | Ok pref =>
         if isHydrogen pref then (Ok ThermoPropertiesSubstance_new, st)
         else if negb (isReacDC pref) then
           match runs fuel
                   (if negb (isH2OSolvent pref) && negb (isH2Ovapor pref)
                    then method_EOS_T_P database solventSymbol pref T P
                           ThermoPropertiesSubstance_new
                    else Return ThermoPropertiesSubstance_new) st with
           | (Ok tps, st') =>
               (Ok (if isH2OSolvent pref || isH2Ovapor pref
                    then water_steam pref T P tps
                    else tps), st')
           | (Err e, st') => (Err e, st')
           end
         else runs fuel (reacDCthermoProperties database T P (workSubstance pref)) st
     end).
Proof.
  split_and!; try reflexivity.
  - apply convention_convert_Return.
  - intros fuel T P substance st. unfold thermoPropertiesSubstance.
    destruct (getThermoPreferences database substance) as [pref|e]; simpl.
    + destruct (isHydrogen pref); [apply run_Return|].
      destruct (isReacDC pref); simpl; [reflexivity|].
      unfold mbind, Prog_bind. rewrite run_bind.
      destruct (runs fuel _ st) as [[tps|e] st']; [|reflexivity].
      rewrite convention_convert_Return. apply run_Return.
    + apply run_Throw.
Qed.

End EngineFacts.

(** C6 at a symbol that the sample store holds neither as a substance nor as
    a reaction. *)
Lemma absent_symbol_raises_witness :
  (getSubstance (@Sample.database Q _) "Qtz" = errorNonExistent "substance" "Qtz" 189 /\
   (forall A, @errorNonExistent A "substance" "Qtz" 189 =
     Err (RaiseError
       {| error := "Cannot get an instance of the substance `Qtz` in the database.";
          reason := "There is no such substance in the database.";
          line := 189 |})) /\
   forall fuel T P,
     entry_point (H0 := Sample.models) Sample.database "H2O@"
       thermo_properties_substance (S fuel) T P "Qtz" State_new =
     (errorNonExistent "substance" "Qtz" 189, State_new)) /\
  (getReaction (@Sample.database Q _) "Qtz" = errorNonExistent "reaction" "Qtz" 197 /\
   (forall A, @errorNonExistent A "reaction" "Qtz" 197 =
     Err (RaiseError
       {| error := "Cannot get an instance of the reaction `Qtz` in the database.";
          reason := "There is no such reaction in the database.";
          line := 197 |})) /\
   forall fuel T P,
     entry_point (H0 := Sample.models) Sample.database "H2O@"
       thermo_properties_reaction (S fuel) T P "Qtz" State_new =
     (errorNonExistent "reaction" "Qtz" 197, State_new)).
Proof.
  apply (absent_symbol_raises (H0 := Sample.models) Sample.database "H2O@"
           State_new "Qtz" "Qtz").
  - apply reachable_new.
  - reflexivity.
  - reflexivity.
Defined.

Lemma Sample_database_built {num : Type} `{Scalar num} :
  Database_built (@Sample.database num _).
Proof. unfold Sample.database. repeat constructor. Qed.

(** C9 on the sample store, with binary64 numbers, at 298.15 K and 1 bar. *)
Lemma hydrogen_sentinel_witness :
  thermoPropertiesSubstance (H0 := Sample.models) (@Sample.database float _) "H2O@"
      (29815 / 100)%float 1%float "H+"
    = Return ThermoPropertiesSubstance_new /\
  (entry_point (H0 := Sample.models) (@Sample.database float _) "H2O@"
     thermo_properties_substance 1 (29815 / 100)%float 1%float "H+" State_new).1 =
    Ok {| gibbs_energy := 0%float; helmholtz_energy := 0%float;
          internal_energy := 0%float; enthalpy := 0%float; entropy := 0%float;
          volume := 0%float; heat_capacity_cp := 0%float; heat_capacity_cv := 0%float |}.
Proof.
  refine (hydrogen_sentinel (H0 := Sample.models) Sample.database "H2O@"
            State_new 0 (29815 / 100)%float 1%float _ _ _).
  - apply Sample_database_built.
  - apply reachable_new.
  - vm_compute. eexists. reflexivity.
Defined.


(** ** No function of the engine throws [errorMethodNotFound] *)

Section NoMethodNotFound.
Context {num : Type} `{Scalar num} `{Models num}.
Variable database : Database num.
Variable solventSymbol : string.

Local Abbreviation body := (underlying database solventSymbol).
Local Abbreviation runs := (run database solventSymbol).

Lemma throws_only_bind (P : Error -> Prop) {A B} (p : Prog A) (f : A -> Prog B) :
  throws_only P p -> (forall a, throws_only P (f a)) -> throws_only P (bind p f).
Proof.
  intros Hp Hf. induction p as [a|e|k args cont IH]; simpl in *; [apply Hf | done |].
  intros v. by apply IH.
Qed.

Lemma throws_only_mbind (P : Error -> Prop) {A B} (p : Prog A) (f : A -> Prog B) :
  throws_only P p -> (forall a, throws_only P (f a)) -> throws_only P (p ≫= f).
Proof. apply throws_only_bind. Qed.

Lemma throws_only_for_each (P : Error -> Prop) {A B} (l : list A)
    (step : B -> A -> Prog B) (acc : B) :
  (forall b a, throws_only P (step b a)) -> throws_only P (for_each l step acc).
Proof.
  intros Hstep. revert acc. induction l as [|a l IH]; intros acc; simpl; [done|].
  apply throws_only_bind; [apply Hstep | apply IH].
Qed.

Lemma throws_only_getSubstance name :
  throws_only (fun e => ~ is_MethodNotFound e) (lift (getSubstance database name)).
Proof.
  unfold getSubstance, errorNonExistent.
  case_decide; [simpl; tauto|]. destruct (_ !! name); simpl; tauto.
Qed.

Lemma throws_only_getReaction name :
  throws_only (fun e => ~ is_MethodNotFound e) (lift (getReaction database name)).
Proof.
  unfold getReaction, errorNonExistent.
  case_decide; [simpl; tauto|]. destruct (_ !! name); simpl; tauto.
Qed.

Lemma throws_only_getThermoPreferences substance :
  throws_only (fun e => ~ is_MethodNotFound e)
    (lift (getThermoPreferences database substance)).
Proof.
  pose proof (throws_only_getSubstance substance) as Hs.
  unfold getThermoPreferences.
  destruct (getSubstance database substance); simpl in *; tauto.
Qed.

Lemma throws_only_at_ key (m : list (string * string)) :
  throws_only (fun e => ~ is_MethodNotFound e) (lift (StdMap.at_ key m)).
Proof. unfold StdMap.at_. destruct (StdMap.find key m); simpl; tauto. Qed.

Lemma underlying_throws_only k args :
  throws_only (fun e => ~ is_MethodNotFound e) (body k args).
Proof.
  destruct args as [[[T P_] P] symbol].
  destruct k; simpl;
    unfold thermoPropertiesSubstance, electroPropertiesSolvent, propertiesSolvent,
      thermoPropertiesReaction, reacDCthermoProperties, method_EOS_T_P,
      convention_convert;
    repeat first
      [ apply throws_only_getThermoPreferences
      | apply throws_only_getSubstance
      | apply throws_only_getReaction
      | apply throws_only_at_
      | apply throws_only_mbind
      | apply throws_only_for_each
      | progress intros
      | match goal with
        | |- throws_only _ (match ?x with _ => _ end) => destruct x
        end
      | progress (cbn [throws_only call mret Prog_ret])
      | exact I
      | progress (simpl; tauto) ].
Qed.

Lemma run_throws_only (P : Error -> Prop) :
  (forall k args, throws_only P (body k args)) -> P Diverges ->
  forall fuel {A} (p : Prog A) st e,
  throws_only P p -> (runs fuel p st).1 = Err e -> P e.
Proof.
  intros Hbody Hdiv fuel. induction fuel as [fuel IHfuel] using lt_wf_ind.
  intros A p; induction p as [a|e0|k args cont IHp]; intros st e Hp.
  - by rewrite run_Return.
  - rewrite run_Throw. simpl in *. by intros [= <-].
  - rewrite run_Invoke. unfold memoize.
    destruct (cache_find k args st) as [v|]; [by apply IHp|].
    destruct fuel as [|fuel']; unfold invoke_underlying; [simpl; by intros [= <-]|].
    pose proof (IHfuel fuel' ltac:(lia) _ (body k args) st) as IH.
    destruct (runs fuel' (body k args) st) as [[v|e1] st1]; simpl in *.
    + by apply IHp.
    + intros [= <-]. by apply (IH e1).
Qed.

Lemma entry_point_not_MethodNotFound k fuel T P symbol st type sym line :
  (entry_point database solventSymbol k fuel T P symbol st).1
  <> Err (MethodNotFound type sym line).
Proof.
  intros Herr. unfold entry_point in Herr.
  eapply (run_throws_only (fun e => ~ is_MethodNotFound e)) in Herr.
  - apply Herr. exact I.
  - apply underlying_throws_only.
  - simpl. tauto.
  - intros v. exact I.
Qed.

End NoMethodNotFound.

(** C2 fails on the code.  No entry point ever ends with the error of
    [errorMethodNotFound], whatever the store and the models.  A substance
    whose three method codes have no handler, and a reaction whose two codes
    have none, are evaluated without any error: the entry points return the
    default-constructed result. *)
Theorem unmatched_codes_return_default :
  (forall (num : Type) (S : Scalar num) (M : Models num) (database : Database num)
          (solventSymbol : string) k fuel T P symbol st type sym line,
     (entry_point database solventSymbol k fuel T P symbol st).1
     <> Err (MethodNotFound type sym line)) /\
  methodGenEOS (@Sample.U float _) = CTPM_other 100 /\
  method_T (@Sample.U float _) = CTM_other 100 /\
  method_P (@Sample.U float _) = CPM_other 100 /\
  (entry_point (H0 := Sample.models) (@Sample.database float _) "H2O@"
     thermo_properties_substance 1 300%float 1%float "U" State_new).1
  = Ok ThermoPropertiesSubstance_new /\
  reaction_method_T (@Sample.R_U float _) = CTM_other 100 /\
  reaction_method_P (@Sample.R_U float _) = CPM_other 100 /\
  (entry_point (H0 := Sample.models) (@Sample.database float _) "H2O@"
     thermo_properties_reaction 1 300%float 1%float "R_U" State_new).1
  = Ok ThermoPropertiesReaction_new.
Proof.
  split; [|split_and!; vm_compute; reflexivity].
  intros. apply entry_point_not_MethodNotFound.
Qed.

(** C4 fails on the code.  [R_MRB] and [R_DKR] have the same
    pressure-correction code, [CPM_VKE].  For [R_DKR] the result is that of the
    volume-based correction [Reaction_Vol_fT]; for [R_MRB], whose temperature
    correction is the modified Ryzhenko-Bryzgalin model, it is the result of
    that model, and not that of the correction. *)
Theorem MRB_returns_before_pressure_switch :
  reaction_method_P (@Sample.R_MRB float _) = CPM_VKE /\
  reaction_method_P (@Sample.R_DKR float _) = CPM_VKE /\
  (entry_point (H0 := Sample.models) (@Sample.database float _) "H2O@"
     thermo_properties_reaction 2 300%float 1%float "R_DKR" State_new).1
  = Ok (Reaction_Vol_fT (Models := Sample.models) Sample.R_DKR 300%float 1%float) /\
  (entry_point (H0 := Sample.models) (@Sample.database float _) "H2O@"
     thermo_properties_reaction 2 300%float 1%float "R_MRB" State_new).1
  = Ok (ReactionRyzhenkoBryzgalin (Models := Sample.models) Sample.R_MRB 300%float 1%float
          (WaterHGK_propertiesSolvent (Models := Sample.models) Sample.water
             300%float 1%float 0)) /\
  (entry_point (H0 := Sample.models) (@Sample.database float _) "H2O@"
     thermo_properties_reaction 2 300%float 1%float "R_MRB" State_new).1
  <> Ok (Reaction_Vol_fT (Models := Sample.models) Sample.R_MRB 300%float 1%float).
Proof.
  split_and!; try (vm_compute; reflexivity).
  intros Heq. apply (f_equal (fun r => match r with
                                       | Ok tpr => reaction_volume tpr
                                       | Err _ => 0%float
                                       end)) in Heq.
  apply (f_equal (PrimFloat.eqb 374%float)) in Heq.
  vm_compute in Heq. discriminate.
Qed.


(* ===================================================================== *)
(** * Memoization                                                         *)
(* ===================================================================== *)

Section Memoization.
Context {num : Type} `{Scalar num} `{Models num}.
Variable database : Database num.
Variable solventSymbol : string.

Local Abbreviation body := (underlying database solventSymbol).
Local Abbreviation runs := (run database solventSymbol).
Local Abbreviation evals := (eval database solventSymbol).
Local Abbreviation reachable := (reachable database solventSymbol).
Local Abbreviation entry_point := (entry_point database solventSymbol).

(** C3.  In every state [st] that an evaluator reaches by calls of its four
    entry points while its solvent symbol stays the same, and for each of the
    four entry points [k] and every argument tuple:

    - the entry point returns what the function it wraps returns when called
      directly in [st]: a result of the function with [fuel] levels of nesting
      is the result of the entry point, and a result of the entry point is a
      result of the function with enough fuel ([Diverges], the exhaustion of
      the fuel, is not a result);
    - once the entry point has returned a value, every later call with the
      same tuple, in any state the evaluator has reached since, returns that
      same value and leaves the state as it is: the function is not invoked;
    - no result in the evaluator's count of computed results occurs twice:
      the function has returned at most once for each tuple;
    - a call that ends with an error leaves no entry for its tuple, so that
      the next call with this tuple invokes the function again. *)
Theorem memoization_transparent (k : Kind) (st : State) (fuel : nat)
    (T P : num) (symbol : string) :
  reachable st ->
  (forall r, (unmemoized database solventSymbol k fuel T P symbol st).1 = r -> r <> Err Diverges ->
     (entry_point k (S fuel) T P symbol st).1 = r) /\
  ((entry_point k (S fuel) T P symbol st).1 <> Err Diverges ->
     exists fuel',
       (unmemoized database solventSymbol k fuel' T P symbol st).1 = (entry_point k (S fuel) T P symbol st).1) /\
  (forall v, (entry_point k (S fuel) T P symbol st).1 = Ok v ->
     forall st' fuel',
       later database solventSymbol (entry_point k (S fuel) T P symbol st).2 st' ->
     entry_point k fuel' T P symbol st' = (Ok v, st')) /\
  NoDup (computed (entry_point k (S fuel) T P symbol st).2) /\
  (forall e, (entry_point k (S fuel) T P symbol st).1 = Err e ->
     cache_find k (T, P, P, symbol) (entry_point k (S fuel) T P symbol st).2 = None).
Proof.
  intros Hreach. pose proof (reachable_consistent _ _ _ Hreach) as Hc.
  split_and!.
  - intros r Hr Hnd. unfold unmemoized in Hr.
    destruct (cache_find k (T, P, P, symbol) st) as [v|] eqn:Hf.
    + rewrite (entry_point_hit _ _ _ _ _ _ _ _ _ Hf). simpl.
      destruct (run_sound database solventSymbol fuel (body k (T, P, P, symbol)) st Hc)
        as (_ & _ & Hfwd & _).
      rewrite Hr in Hfwd. destruct (Hfwd Hnd) as [m Hm].
      destruct (Hc _ _ _ Hf) as [n Hn].
      symmetry. by eapply (eval_det _ _ _ m n).
    + rewrite (entry_point_miss _ _ _ _ _ _ _ _ Hf).
      destruct (runs fuel (body k (T, P, P, symbol)) st) as [[v|e] st']; simpl in *; done.
  - intros Hnd.
    destruct (entry_point_value _ _ _ _ _ _ _ _ _ Hc eq_refl Hnd) as [m Hm].
    exists m. unfold unmemoized. by apply run_sound.
  - intros v Hv st' fuel' Hlater.
    apply entry_point_hit.
    apply (later_extends database solventSymbol _ _ (reachable_call _ _ k (S fuel) T P symbol st Hreach) Hlater).
    by apply entry_point_cached.
  - apply (reachable_counted database solventSymbol).
    by constructor.
  - intros e He. by apply (entry_point_Err_not_cached _ _ _ _ _ _ _ _ e).
Qed.

End Memoization.

(** C3 on the sample evaluator: the reaction-derived substance [X], asked for
    by a new evaluator. *)
Lemma memoization_transparent_witness :
  (forall r,
     (unmemoized (H0 := Sample.models) (@Sample.database float _) "H2O@"
        thermo_properties_substance 3 300%float 1%float "X" State_new).1 = r ->
     r <> Err Diverges ->
     (entry_point (H0 := Sample.models) (@Sample.database float _) "H2O@"
        thermo_properties_substance 4 300%float 1%float "X" State_new).1 = r) /\
  ((entry_point (H0 := Sample.models) (@Sample.database float _) "H2O@"
      thermo_properties_substance 4 300%float 1%float "X" State_new).1 <> Err Diverges ->
     exists fuel',
       (unmemoized (H0 := Sample.models) (@Sample.database float _) "H2O@"
          thermo_properties_substance fuel' 300%float 1%float "X" State_new).1 =
       (entry_point (H0 := Sample.models) (@Sample.database float _) "H2O@"
          thermo_properties_substance 4 300%float 1%float "X" State_new).1) /\
  (forall v,
     (entry_point (H0 := Sample.models) (@Sample.database float _) "H2O@"
        thermo_properties_substance 4 300%float 1%float "X" State_new).1 = Ok v ->
     forall st' fuel',
       later (H0 := Sample.models) (@Sample.database float _) "H2O@"
         (entry_point (H0 := Sample.models) (@Sample.database float _) "H2O@"
            thermo_properties_substance 4 300%float 1%float "X" State_new).2 st' ->
       entry_point (H0 := Sample.models) (@Sample.database float _) "H2O@"
         thermo_properties_substance fuel' 300%float 1%float "X" st' = (Ok v, st')) /\
  NoDup (computed
    (entry_point (H0 := Sample.models) (@Sample.database float _) "H2O@"
       thermo_properties_substance 4 300%float 1%float "X" State_new).2) /\
  (forall e,
     (entry_point (H0 := Sample.models) (@Sample.database float _) "H2O@"
        thermo_properties_substance 4 300%float 1%float "X" State_new).1 = Err e ->
     cache_find thermo_properties_substance (300%float, 1%float, 1%float, "X")
       (entry_point (H0 := Sample.models) (@Sample.database float _) "H2O@"
          thermo_properties_substance 4 300%float 1%float "X" State_new).2 = None).
Proof.
  refine (memoization_transparent (H0 := Sample.models) Sample.database "H2O@"
            thermo_properties_substance State_new 3 300%float 1%float "X" _).
  apply reachable_new.
Defined.

(** C3, as the spec states it, fails: one evaluator, after a change of its
    solvent symbol.  The HKF solute [B] is computed with the solvent "H2O@";
    [setSolventSymbol("D2O@")] keeps the caches; the memoized function then
    returns the entry computed with "H2O@", and the function it wraps, called
    directly on this evaluator, computes another result with "D2O@". *)
Lemma memoized_differs_after_setSolventSymbol :
  let engine :=
    setSolventSymbol "D2O@"
      (ThermoEngine_call (H0 := Sample.models) thermo_properties_substance
         5 3%float 2%float "B" (ThermoEngine_new Sample2.database)).2 in
  (ThermoEngine_call (H0 := Sample.models) thermo_properties_substance
     5 3%float 2%float "B" engine).1
  = Ok (Sample.tps_all 1290%float) /\
  (unmemoized (H0 := Sample.models) (pimpl_database engine) (pimpl_solventSymbol engine)
     thermo_properties_substance 4 3%float 2%float "B" (pimpl_state engine)).1
  = Ok (Sample.tps_all 1237%float) /\
  Sample.tps_all 1290%float <> Sample.tps_all 1237%float.
Proof.
  split_and!; try (vm_compute; reflexivity).
  intros Heq. apply (f_equal gibbs_energy) in Heq.
  apply (f_equal (PrimFloat.eqb 1290%float)) in Heq.
  vm_compute in Heq. discriminate.
Qed.


(* ===================================================================== *)
(** * Reaction-derived substances                                         *)
(* ===================================================================== *)


Section ReactionDerived.
Context {num : Type} `{Scalar num} `{Models num}.
Variable database : Database num.
Variable solventSymbol : string.

Local Abbreviation body := (underlying database solventSymbol).
Local Abbreviation runs := (run database solventSymbol).
Local Abbreviation evals := (eval database solventSymbol).
Local Abbreviation reachable := (reachable database solventSymbol).
Local Abbreviation entry_point := (entry_point database solventSymbol).

Lemma eval_mbind fuel {A B} (p : Prog A) (f : A -> Prog B) :
  evals fuel (p ≫= f) =
  match evals fuel p with
  | Ok a => evals fuel (f a)
  | Err e => Err e
  end.
Proof. apply eval_bind. Qed.

Lemma eval_for_each_reactants fuel (T P : num) (sym : string) :
  forall (l : list (string * num)) (acc : ThermoPropertiesSubstance num)
         (vs : list (ThermoPropertiesSubstance num)),
  Forall2 (fun reactant v =>
             evals fuel (body thermo_properties_substance (T, P, P, reactant.1)) = Ok v)
          (filter (fun reactant => reactant.1 <> sym) l) vs ->
  evals (S fuel)
    (for_each l (fun tps reactant =>
       if negb (bool_decide (reactant.1 = sym)) then
         reacTps ← call thermo_properties_substance T P P reactant.1;
         mret (tps_sub_scaled tps reacTps reactant.2)
       else mret tps) acc)
  = Ok (fold_left (fun tps c => tps_sub_scaled tps c.2 c.1)
          (zip (filter (fun reactant => reactant.1 <> sym) l).*2 vs) acc).
Proof.
  induction l as [|[key c] l IH]; intros acc vs Hvs; simpl.
  - rewrite eval_Return. by destruct vs.
  - rewrite eval_bind. rewrite filter_cons in Hvs |- *. simpl in *.
    destruct (decide (key <> sym)) as [Hne|Heq%dec_stable].
    + rewrite bool_decide_eq_false_2 by done. simpl.
      destruct vs as [|v vs]; [by apply Forall2_nil_inv_r in Hvs|].
      apply Forall2_cons_1 in Hvs as [Hv Hvs]. cbn [fst] in Hv.
      rewrite eval_Invoke. simpl. rewrite Hv. unfold mret, Prog_ret.
      rewrite eval_Return. by apply IH.
    + rewrite bool_decide_eq_true_2 by done. simpl. unfold mret, Prog_ret.
      rewrite ?eval_Return. by apply IH.
Qed.

Lemma eval_reacDCthermoProperties fuel (T P : num) (X : Substance num) (R : Reaction num)
    (tpr : ThermoPropertiesReaction num) (vs : list (ThermoPropertiesSubstance num)) :
  reactionSymbol X <> "" ->
  reactions_map database !! reactionSymbol X = Some R ->
  evals fuel (body thermo_properties_reaction (T, P, P, reactionSymbol X)) = Ok tpr ->
  Forall2 (fun reactant v =>
             evals fuel (body thermo_properties_substance (T, P, P, reactant.1)) = Ok v)
          (other_reactants X R) vs ->
  evals (S fuel) (reacDCthermoProperties database T P X)
  = Ok (tps_div (numerator tpr (zip (other_reactants X R).*2 vs))
          (StdMap.index zero (symbol X) (reactants R))).
Proof.
  intros Hrs HR Htpr Hvs. unfold reacDCthermoProperties.
  rewrite bool_decide_eq_false_2 by done. simpl.
  rewrite (getReaction_Some _ _ _ HR). simpl.
  rewrite eval_Invoke, Htpr, eval_mbind.
  rewrite (eval_for_each_reactants fuel T P (symbol X) (reactants R) _ vs Hvs).
  unfold mret, Prog_ret. by rewrite eval_Return.
Qed.

Lemma thermoPropertiesSubstance_reacDC (T P : num) (x : string) (X : Substance num) :
  substances_map database !! x = Some X ->
  name X <> "H+" ->
  thermoCalculationType X = REACDC ->
  thermoPropertiesSubstance database solventSymbol T P x
  = reacDCthermoProperties database T P X.
Proof.
  intros HX Hname Hcalc. unfold thermoPropertiesSubstance, getThermoPreferences.
  rewrite (getSubstance_Some _ _ _ HX). simpl.
  rewrite bool_decide_eq_false_2 by done.
  by rewrite bool_decide_eq_true_2.
Qed.

(** Results that entry points returned, in whatever states, are values of
    their functions at one common fuel. *)
Lemma entry_point_values_bound (T P : num) (l : list (string * num))
    (vs : list (ThermoPropertiesSubstance num)) :
  Forall2 (fun reactant v => exists st_i fuel_i, reachable st_i /\
             (entry_point thermo_properties_substance fuel_i T P reactant.1 st_i).1 = Ok v)
          l vs ->
  exists fuel, forall fuel', (fuel <= fuel')%nat ->
    Forall2 (fun reactant v =>
               evals fuel' (body thermo_properties_substance (T, P, P, reactant.1)) = Ok v)
            l vs.
Proof.
  induction 1 as [|reactant v l vs (st_i & fuel_i & Hr & Hv) _ [n IH]].
  - exists O. constructor.
  - destruct (entry_point_value database solventSymbol _ _ _ _ _ _ _
                (reachable_consistent _ _ _ Hr) Hv ltac:(done)) as [m Hm].
    exists (n `max` m)%nat. intros fuel' Hle. constructor.
    + apply (eval_mono _ _ _ _ _ Hm); [done|lia].
    + apply IH. lia.
Qed.

(** What [reacDCthermoProperties] returns, from the results of the reaction
    and of the other reactants. *)
Lemma reacDC_run (st st_r : State) (fuel_r : nat) (T P : num)
    (X : Substance num) (R : Reaction num) (tpr : ThermoPropertiesReaction num)
    (vs : list (ThermoPropertiesSubstance num)) :
  reachable st -> reachable st_r ->
  reactionSymbol X <> "" ->
  reactions_map database !! reactionSymbol X = Some R ->
  (entry_point thermo_properties_reaction fuel_r T P (reactionSymbol X) st_r).1 = Ok tpr ->
  Forall2 (fun reactant v => exists st_i fuel_i, reachable st_i /\
             (entry_point thermo_properties_substance fuel_i T P reactant.1 st_i).1 = Ok v)
          (other_reactants X R) vs ->
  exists fuel0, forall fuel, (fuel0 <= fuel)%nat ->
    (runs fuel (reacDCthermoProperties database T P X) st).1 =
    Ok (tps_div (numerator tpr (zip (other_reactants X R).*2 vs))
          (StdMap.index zero (symbol X) (reactants R))).
Proof.
  intros Hst Hst_r Hrs HR Htpr Hvs.
  destruct (entry_point_value database solventSymbol _ _ _ _ _ _ _
              (reachable_consistent _ _ _ Hst_r) Htpr ltac:(done)) as [n Hn].
  destruct (entry_point_values_bound _ _ _ _ Hvs) as [m Hm].
  exists (S (n `max` m))%nat. intros fuel Hle.
  apply run_sound; [by apply reachable_consistent| |done].
  destruct fuel as [|fuel]; [lia|].
  apply eval_reacDCthermoProperties; [done|done| |].
  - apply (eval_mono _ _ _ _ _ Hn); [done|lia].
  - apply Hm. lia.
Qed.

(** The result of a reaction-derived substance, from the results of its
    reaction and of the other reactants. *)
Lemma reacDC_entry_point (st st_r : State) (fuel_r : nat) (T P : num) (x : string)
    (X : Substance num) (R : Reaction num) (tpr : ThermoPropertiesReaction num)
    (vs : list (ThermoPropertiesSubstance num)) :
  reachable st -> reachable st_r ->
  substances_map database !! x = Some X ->
  name X <> "H+" ->
  thermoCalculationType X = REACDC ->
  reactionSymbol X <> "" ->
  reactions_map database !! reactionSymbol X = Some R ->
  (entry_point thermo_properties_reaction fuel_r T P (reactionSymbol X) st_r).1 = Ok tpr ->
  Forall2 (fun reactant v => exists st_i fuel_i, reachable st_i /\
             (entry_point thermo_properties_substance fuel_i T P reactant.1 st_i).1 = Ok v)
          (other_reactants X R) vs ->
  exists fuel0, forall fuel, (fuel0 <= fuel)%nat ->
    (entry_point thermo_properties_substance fuel T P x st).1 =
    Ok (tps_div (numerator tpr (zip (other_reactants X R).*2 vs))
          (StdMap.index zero (symbol X) (reactants R))).
Proof.
  intros Hst Hst_r HX Hname Hcalc Hrs HR Htpr Hvs.
  destruct (entry_point_value database solventSymbol _ _ _ _ _ _ _
              (reachable_consistent _ _ _ Hst_r) Htpr ltac:(done)) as [n Hn].
  destruct (entry_point_values_bound _ _ _ _ Hvs) as [m Hm].
  exists (S (S (n `max` m)))%nat. intros fuel Hle.
  apply (entry_point_eval database solventSymbol _ (S (n `max` m)));
    [by apply reachable_consistent| |done|lia].
  simpl. rewrite (thermoPropertiesSubstance_reacDC _ _ _ _ HX Hname Hcalc).
  apply eval_reacDCthermoProperties; [done|done| |].
  - apply (eval_mono _ _ _ _ _ Hn); [done|lia].
  - apply Hm. lia.
Qed.

End ReactionDerived.

(** A map of three entries with distinct keys: whatever the order of the
    keys, the entries other than the first are the second and the third. *)
Lemma StdMap_of_list_three {V} (k1 k2 k3 : string) (v1 v2 v3 : V) :
  k2 <> k3 -> k2 <> k1 -> k3 <> k1 ->
  (filter (fun entry => entry.1 <> k1) (StdMap.of_list [(k1, v1); (k2, v2); (k3, v3)])
     = [(k2, v2); (k3, v3)] \/
   filter (fun entry => entry.1 <> k1) (StdMap.of_list [(k1, v1); (k2, v2); (k3, v3)])
     = [(k3, v3); (k2, v2)]) /\
  StdMap.find k1 (StdMap.of_list [(k1, v1); (k2, v2); (k3, v3)]) = Some v1.
Proof.
  intros H23 H21 H31. unfold StdMap.of_list. simpl.
  destruct (String.compare k2 k1) eqn:C21; simpl;
    try (apply String.compare_eq_iff in C21; congruence);
    destruct (String.compare k3 k2) eqn:C32; simpl;
    try (apply String.compare_eq_iff in C32; congruence);
    destruct (String.compare k3 k1) eqn:C31; simpl;
    try (apply String.compare_eq_iff in C31; congruence);
    rewrite ?C32; simpl;
    rewrite !filter_cons, filter_nil; simpl;
    repeat case_decide; try congruence; auto.
Qed.

(** C1, as the spec states it, fails for a reaction-derived substance
    named "H+": the test for hydrogen comes first and the entry point returns
    the default-constructed result, not the one computed from the reaction
    [R_H] (75 in every field) and the reactants [A] (10008) and [B] (1290). *)
Lemma reaction_derived_hydrogen_is_zero :
  thermoCalculationType (@Sample.hydrogen_reacDC Q _) = REACDC /\
  reactionSymbol (@Sample.hydrogen_reacDC Q _) = "R_H" /\
  substances_map (@Sample.database_H Q _) !! "H+" = Some Sample.hydrogen_reacDC /\
  reactions_map (@Sample.database_H Q _) !! "R_H" = Some Sample.R_H /\
  (entry_point (H0 := Sample.models) (@Sample.database_H Q _) "H2O@"
     thermo_properties_reaction 4 3%Q 2%Q "R_H" State_new).1 = Ok (Sample.tpr_all 75%Q) /\
  (entry_point (H0 := Sample.models) (@Sample.database_H Q _) "H2O@"
     thermo_properties_substance 4 3%Q 2%Q "A" State_new).1 = Ok (Sample.tps_all 10008%Q) /\
  (entry_point (H0 := Sample.models) (@Sample.database_H Q _) "H2O@"
     thermo_properties_substance 4 3%Q 2%Q "B" State_new).1 = Ok (Sample.tps_all 1290%Q) /\
  tps_div (numerator (Sample.tpr_all 75%Q)
             [(opp one, Sample.tps_all 10008%Q); (opp one, Sample.tps_all 1290%Q)]) one
    = Sample.tps_all 11373%Q /\
  (entry_point (H0 := Sample.models) (@Sample.database_H Q _) "H2O@"
     thermo_properties_substance 4 3%Q 2%Q "H+" State_new).1
    = Ok ThermoPropertiesSubstance_new /\
  (entry_point (H0 := Sample.models) (@Sample.database_H Q _) "H2O@"
     thermo_properties_substance 4 3%Q 2%Q "H+" State_new).1
    <> Ok (Sample.tps_all 11373%Q).
Proof. split_and!; try (vm_compute; reflexivity). vm_compute. discriminate. Qed.

Section ReactionDerivedClaims.
Context {num : Type} `{Scalar num} `{Models num}.
Variable database : Database num.
Variable solventSymbol : string.

Local Abbreviation reachable := (reachable database solventSymbol).
Local Abbreviation entry_point := (entry_point database solventSymbol).

Lemma closure_two `{!ExactScalar num} (tpr : ThermoPropertiesReaction num)
    (ta tb : ThermoPropertiesSubstance num) :
  tps_div (numerator tpr [(opp one, ta); (opp one, tb)]) one
  = tps_add (tps_add (tps_of_reaction tpr) ta) tb.
Proof.
  unfold tps_div, numerator, tps_sub_scaled, tps_add, tps_of_reaction. simpl.
  by rewrite !div_one, !sub_mul_opp_one.
Qed.

Lemma tps_add_swap `{!ExactScalar num} (r ta tb : ThermoPropertiesSubstance num) :
  tps_add (tps_add r tb) ta = tps_add (tps_add r ta) tb.
Proof.
  unfold tps_add. simpl. f_equal; apply add_swap.
Qed.

(** C1, amended.  Let [X] be a reaction-derived substance whose name is not
    "H+", filed under [x], with a
    non-empty reaction symbol whose reaction [R] is in the store, and let
    [tpr] be the result of the reaction entry point on [R].

    - If the substance entry point returns [vs] on the reactants of [R] other
      than [X], then on [x] it returns, given enough fuel, the result seeded
      from the eight fields of [tpr], less coefficient times properties for
      each of those reactants in the order of the map, every field divided by
      the coefficient of [X] in the map.
    - In exact arithmetic, when the reactants are {X: 1, A: -1, B: -1}, that
      result is, field by field, the reaction's plus that of [A] plus that
      of [B]. *)
Theorem reaction_derived_closure (st st_r : State) (fuel_r : nat) (T P : num)
    (x : string) (X : Substance num) (R : Reaction num)
    (tpr : ThermoPropertiesReaction num) :
  reachable st -> reachable st_r ->
  substances_map database !! x = Some X ->
  name X <> "H+" ->
  thermoCalculationType X = REACDC ->
  reactionSymbol X <> "" ->
  reactions_map database !! reactionSymbol X = Some R ->
  (entry_point thermo_properties_reaction fuel_r T P (reactionSymbol X) st_r).1 = Ok tpr ->
  (forall vs,
     Forall2 (fun reactant v => exists st_i fuel_i, reachable st_i /\
                (entry_point thermo_properties_substance fuel_i T P reactant.1 st_i).1
                = Ok v)
             (other_reactants X R) vs ->
     exists fuel0, forall fuel, (fuel0 <= fuel)%nat ->
       (entry_point thermo_properties_substance fuel T P x st).1 =
       Ok (tps_div (numerator tpr (zip (other_reactants X R).*2 vs))
             (StdMap.index zero (symbol X) (reactants R)))) /\
  (ExactScalar num ->
   forall a b st_a st_b fuel_a fuel_b ta tb,
     reactants R = StdMap.of_list [(symbol X, one); (a, opp one); (b, opp one)] ->
     a <> b -> a <> symbol X -> b <> symbol X ->
     reachable st_a ->
     (entry_point thermo_properties_substance fuel_a T P a st_a).1 = Ok ta ->
     reachable st_b ->
     (entry_point thermo_properties_substance fuel_b T P b st_b).1 = Ok tb ->
     exists fuel0, forall fuel, (fuel0 <= fuel)%nat ->
       (entry_point thermo_properties_substance fuel T P x st).1 =
       Ok (tps_add (tps_add (tps_of_reaction tpr) ta) tb)).
Proof.
  intros Hst Hst_r HX Hname Hcalc Hrs HR Htpr. split.
  - intros vs Hvs. by eapply reacDC_entry_point.
  - intros Hexact a b st_a st_b fuel_a fuel_b ta tb Hmap Hab Hax Hbx Hsa Hta Hsb Htb.
    destruct (StdMap_of_list_three (symbol X) a b one (opp one) (opp one) Hab Hax Hbx)
      as [Hothers Hfind].
    rewrite <- Hmap in Hothers, Hfind.
    assert (StdMap.index zero (symbol X) (reactants R) = one) as Hdiv
      by (unfold StdMap.index; by rewrite Hfind).
    destruct Hothers as [Hothers|Hothers].
    + destruct (reacDC_entry_point database solventSymbol st st_r fuel_r T P x X R tpr
                  [ta; tb] Hst Hst_r HX Hname Hcalc Hrs HR Htpr) as [fuel0 Hfuel0].
      { unfold other_reactants. rewrite Hothers.
        repeat constructor; [by exists st_a, fuel_a | by exists st_b, fuel_b]. }
      exists fuel0. intros fuel Hle. rewrite (Hfuel0 fuel Hle), Hdiv.
      unfold other_reactants. rewrite Hothers. simpl. by rewrite closure_two.
    + destruct (reacDC_entry_point database solventSymbol st st_r fuel_r T P x X R tpr
                  [tb; ta] Hst Hst_r HX Hname Hcalc Hrs HR Htpr) as [fuel0 Hfuel0].
      { unfold other_reactants. rewrite Hothers.
        repeat constructor; [by exists st_b, fuel_b | by exists st_a, fuel_a]. }
      exists fuel0. intros fuel Hle. rewrite (Hfuel0 fuel Hle), Hdiv.
      unfold other_reactants. rewrite Hothers. simpl.
      by rewrite closure_two, tps_add_swap.
Qed.

(** C8.  Let [X] be a substance with a non-empty reaction symbol whose
    reaction [R] is in the store, and take the results of the reaction and of
    the other reactants as in C1.  When the reactant map of [R] holds a
    coefficient [c] other than zero under the symbol of [X], the divisor of the
    final division of [reacDCthermoProperties] is [c], hence not zero, and the
    function returns the numerator divided by [c].  Nothing checks this before
    the division: when the map has no entry under the symbol, or holds zero
    there, the function still returns a result, the numerator divided by
    zero. *)
Theorem reaction_derived_divisor (st st_r : State) (fuel_r : nat) (T P : num)
    (X : Substance num) (R : Reaction num)
    (tpr : ThermoPropertiesReaction num) (vs : list (ThermoPropertiesSubstance num)) :
  reachable st -> reachable st_r ->
  reactionSymbol X <> "" ->
  reactions_map database !! reactionSymbol X = Some R ->
  (entry_point thermo_properties_reaction fuel_r T P (reactionSymbol X) st_r).1 = Ok tpr ->
  Forall2 (fun reactant v => exists st_i fuel_i, reachable st_i /\
             (entry_point thermo_properties_substance fuel_i T P reactant.1 st_i).1 = Ok v)
          (other_reactants X R) vs ->
  (forall c,
     StdMap.find (symbol X) (reactants R) = Some c -> c <> zero ->
     StdMap.index zero (symbol X) (reactants R) = c /\
     StdMap.index zero (symbol X) (reactants R) <> zero /\
     exists fuel0, forall fuel, (fuel0 <= fuel)%nat ->
       (run database solventSymbol fuel (reacDCthermoProperties database T P X) st).1 =
       Ok (tps_div (numerator tpr (zip (other_reactants X R).*2 vs)) c)) /\
  (StdMap.find (symbol X) (reactants R) = None \/
   StdMap.find (symbol X) (reactants R) = Some zero ->
   exists fuel0, forall fuel, (fuel0 <= fuel)%nat ->
     (run database solventSymbol fuel (reacDCthermoProperties database T P X) st).1 =
     Ok (tps_div (numerator tpr (zip (other_reactants X R).*2 vs)) zero)).
Proof.
  intros Hst Hst_r Hrs HR Htpr Hvs.
  destruct (reacDC_run database solventSymbol st st_r fuel_r T P X R tpr vs
              Hst Hst_r Hrs HR Htpr Hvs) as [fuel0 Hfuel0].
  split.
  - intros c Hfind Hc.
    assert (StdMap.index zero (symbol X) (reactants R) = c) as Hdiv
      by (unfold StdMap.index; by rewrite Hfind).
    split_and!; [done | congruence |].
    exists fuel0. intros fuel Hle. by rewrite (Hfuel0 fuel Hle), Hdiv.
  - intros Hfind.
    assert (StdMap.index zero (symbol X) (reactants R) = zero) as Hdiv
      by (unfold StdMap.index; by destruct Hfind as [-> | ->]).
    exists fuel0. intros fuel Hle. by rewrite (Hfuel0 fuel Hle), Hdiv.
Qed.

End ReactionDerivedClaims.

(** C1 on the sample evaluator, with rationals: [X] is defined by the
    reaction [R] with reactants {X: 1, A: -1, B: -1}; at T = 3, P = 2 the
    reaction gives 75 in every field, [A] gives 10008 and [B] gives 1290. *)
Lemma reaction_derived_closure_witness :
  (exists fuel0, forall fuel, (fuel0 <= fuel)%nat ->
     (entry_point (H0 := Sample.models) (@Sample.database Q _) "H2O@"
        thermo_properties_substance fuel 3%Q 2%Q "X" State_new).1 =
     Ok (Sample.tps_all 11373%Q)) /\
  (exists fuel0, forall fuel, (fuel0 <= fuel)%nat ->
     (entry_point (H0 := Sample.models) (@Sample.database Q _) "H2O@"
        thermo_properties_substance fuel 3%Q 2%Q "X" State_new).1 =
     Ok (tps_add (tps_add (tps_of_reaction (Sample.tpr_all 75%Q))
                    (Sample.tps_all 10008%Q))
           (Sample.tps_all 1290%Q))).
Proof.
  destruct (reaction_derived_closure (H0 := Sample.models) Sample.database "H2O@"
              State_new State_new 2 3%Q 2%Q "X" Sample.X Sample.R (Sample.tpr_all 75%Q)
              (reachable_new _ _) (reachable_new _ _) eq_refl
              ltac:(discriminate) eq_refl ltac:(discriminate) eq_refl eq_refl)
    as [Hgeneral Hexact].
  split.
  - destruct (Hgeneral [Sample.tps_all 10008%Q; Sample.tps_all 1290%Q]) as [fuel0 Hfuel0].
    { repeat constructor; exists State_new, 3%nat;
        (split; [apply reachable_new | vm_compute; reflexivity]). }
    exists fuel0. intros fuel Hle. rewrite (Hfuel0 fuel Hle). vm_compute. reflexivity.
  - apply (Hexact Q_ExactScalar "A" "B" State_new State_new 3%nat 3%nat);
      first [ reflexivity | discriminate | apply reachable_new
            | vm_compute; reflexivity ].
Defined.

(** C8 on the sample evaluator, with binary64 numbers: [X] has the
    coefficient 1 in [R], and [Y], defined by the same reaction, has none. *)
Lemma reaction_derived_divisor_witness :
  (StdMap.index zero (symbol (@Sample.X float _)) (reactants (@Sample.R float _)) = 1%float /\
   StdMap.index zero (symbol (@Sample.X float _)) (reactants (@Sample.R float _)) <> 0%float /\
   exists fuel0, forall fuel, (fuel0 <= fuel)%nat ->
     (run (H0 := Sample.models) (@Sample.database float _) "H2O@" fuel
        (reacDCthermoProperties Sample.database 3%float 2%float Sample.X) State_new).1 =
     Ok (Sample.tps_all 11373%float)) /\
  (exists fuel0, forall fuel, (fuel0 <= fuel)%nat ->
     (run (H0 := Sample.models) (@Sample.database float _) "H2O@" fuel
        (reacDCthermoProperties Sample.database 3%float 2%float Sample.Y) State_new).1 =
     Ok (tps_div (Sample.tps_all 0%float) 0%float)).
Proof.
  assert (1%float <> 0%float) as Hone.
  { intros Heq. apply (f_equal (PrimFloat.eqb 1%float)) in Heq.
    vm_compute in Heq. discriminate. }
  split.
  - destruct (reaction_derived_divisor (H0 := Sample.models) Sample.database "H2O@"
                State_new State_new 2 3%float 2%float Sample.X Sample.R
                (Sample.tpr_all 75%float)
                [Sample.tps_all 10008%float; Sample.tps_all 1290%float]
                (reachable_new _ _) (reachable_new _ _)
                ltac:(discriminate) eq_refl eq_refl)
      as [Hdivisor _].
    { repeat constructor; exists State_new, 3%nat;
        (split; [apply reachable_new | vm_compute; reflexivity]). }
    destruct (Hdivisor 1%float eq_refl Hone) as (Hc & Hnz & fuel0 & Hfuel0).
    split_and!; [exact Hc | exact Hnz |].
    exists fuel0. intros fuel Hle. rewrite (Hfuel0 fuel Hle). vm_compute. reflexivity.
  - destruct (reaction_derived_divisor (H0 := Sample.models) Sample.database "H2O@"
                State_new State_new 2 3%float 2%float Sample.Y Sample.R
                (Sample.tpr_all 75%float)
                [Sample.tps_all 10008%float; Sample.tps_all 1290%float;
                 Sample.tps_all 11373%float]
                (reachable_new _ _) (reachable_new _ _)
                ltac:(discriminate) eq_refl eq_refl)
      as [_ Hunchecked].
    { repeat constructor; exists State_new, 4%nat;
        (split; [apply reachable_new | vm_compute; reflexivity]). }
    destruct (Hunchecked (or_introl eq_refl)) as [fuel0 Hfuel0].
    exists fuel0. intros fuel Hle. rewrite (Hfuel0 fuel Hle). vm_compute. reflexivity.
Defined.


(* ===================================================================== *)
(** * Properties of the CSV export                                        *)
(* ===================================================================== *)

Lemma string_length_app (s1 s2 : string) :
  String.length (s1 +:+ s2) = (String.length s1 + String.length s2)%nat.
Proof. induction s1 as [|c s1 IH]; simpl; [done | by rewrite IH]. Qed.

Lemma string_app_assoc (s1 s2 s3 : string) : (s1 +:+ s2) +:+ s3 = s1 +:+ (s2 +:+ s3).
Proof.
  induction s1 as [|c s1 IH]; [done|].
  change (String c ((s1 +:+ s2) +:+ s3) = String c (s1 +:+ (s2 +:+ s3))).
  by rewrite IH.
Qed.

Lemma string_app_nil_r (s : string) : s +:+ "" = s.
Proof.
  induction s as [|c s IH]; [done|].
  change (String c (s +:+ "") = String c s). by rewrite IH.
Qed.

(** Narrowing to [int] keeps a position below 2^32 apart from zero. *)
Lemma int_of_streamoff_nonzero (off : Z) :
  0 < off < 2 ^ 32 -> int_of_streamoff off <> 0.
Proof.
  intros Hoff. unfold int_of_streamoff.
  destruct (Z_lt_le_dec off (2 ^ 31)) as [Hlt|Hge].
  - rewrite Z.mod_small by lia. lia.
  - replace (off + 2 ^ 31) with (off - 2 ^ 31 + 1 * 2 ^ 32) by lia.
    rewrite Z_mod_plus_full, Z.mod_small by lia. lia.
Qed.

Lemma length_N_iter_String (c : Ascii.ascii) (n : N) :
  Z.of_nat (String.length (N.iter n (String c) "")) = Z.of_N n.
Proof.
  apply (N.iter_ind _ (String c) ""
           (fun n s => Z.of_nat (String.length s) = Z.of_N n)); [done|].
  intros m s IH. cbn [String.length]. lia.
Qed.

Lemma file_4GiB_length : Z.of_nat (String.length file_4GiB) = 2 ^ 32.
Proof. unfold file_4GiB. by rewrite length_N_iter_String. Qed.

Lemma file_4GiB_not_empty : file_4GiB <> "".
Proof.
  unfold file_4GiB. change 4294967296%N with (N.succ 4294967295).
  rewrite N.iter_succ. discriminate.
Qed.

Section CSVFacts.
Context {num : Type}.
Variable format_double : num -> string.

Local Abbreviation row := (row format_double).
Local Abbreviation rows := (rows format_double).
Local Abbreviation export := (OutputSteamConventionH2OProp format_double).
Local Abbreviation exports := (export_all format_double).

(** A name that cannot be opened: the call writes nothing and reports
    nothing. *)
Lemma export_refused filename wt (fs : FileSystem) :
  refuses fs filename = true -> export filename wt fs = fs.
Proof.
  intros Hr. unfold OutputSteamConventionH2OProp, open_app. by rewrite Hr.
Qed.

(** The first call on a file that is empty or does not exist. *)
Lemma export_fresh filename wt (fs : FileSystem) :
  refuses fs filename = false ->
  files fs !! filename = None \/ files fs !! filename = Some "" ->
  export filename wt fs = write_file filename (header +:+ row wt) fs.
Proof.
  intros Hr Hf. unfold OutputSteamConventionH2OProp, open_app. rewrite Hr.
  by destruct Hf as [-> | ->].
Qed.

(** A call on a file with fewer than 2^32 characters, and at least one. *)
Lemma export_nonempty filename wt (fs : FileSystem) content :
  refuses fs filename = false ->
  files fs !! filename = Some content ->
  0 < Z.of_nat (String.length content) < 2 ^ 32 ->
  export filename wt fs = write_file filename (content +:+ row wt) fs.
Proof.
  intros Hr Hf Hlen. unfold OutputSteamConventionH2OProp, open_app, tellp.
  rewrite Hr, Hf. change (default "" (Some content)) with content.
  by rewrite decide_False by (by apply int_of_streamoff_nonzero).
Qed.

(** A call on a file with exactly 2^32 characters. *)
Lemma export_wraps filename wt (fs : FileSystem) content :
  refuses fs filename = false ->
  files fs !! filename = Some content ->
  Z.of_nat (String.length content) = 2 ^ 32 ->
  export filename wt fs
  = write_file filename ((content +:+ header) +:+ row wt) fs.
Proof.
  intros Hr Hf Hlen. unfold OutputSteamConventionH2OProp, open_app, tellp.
  rewrite Hr, Hf. change (default "" (Some content)) with content. rewrite Hlen.
  by rewrite decide_True by reflexivity.
Qed.

Lemma export_all_nonempty filename wts :
  forall (fs : FileSystem) content,
  refuses fs filename = false ->
  files fs !! filename = Some content ->
  0 < Z.of_nat (String.length content) ->
  Z.of_nat (String.length content) + Z.of_nat (String.length (rows wts)) < 2 ^ 32 ->
  files (exports filename wts fs) !! filename = Some (content +:+ rows wts).
Proof.
  induction wts as [|wt wts IH]; intros fs content Hr Hf Hpos Hlen.
  - simpl. by rewrite string_app_nil_r.
  - change (exports filename (wt :: wts) fs)
      with (exports filename wts (export filename wt fs)).
    change (rows (wt :: wts)) with (row wt +:+ rows wts) in Hlen |- *.
    rewrite string_length_app in Hlen.
    rewrite (export_nonempty _ _ _ _ Hr Hf) by lia.
    rewrite (IH _ (content +:+ row wt)).
    + by rewrite string_app_assoc.
    + done.
    + apply lookup_insert_eq.
    + rewrite string_length_app. lia.
    + rewrite string_length_app. lia.
Qed.

(** The export on a fresh file, for files that stay below 4 GiB: one header
    line, then the rows. *)
Lemma export_all_fresh filename wt wts (fs : FileSystem) :
  refuses fs filename = false ->
  files fs !! filename = None \/ files fs !! filename = Some "" ->
  Z.of_nat (String.length (header +:+ rows (wt :: wts))) < 2 ^ 32 ->
  files (exports filename (wt :: wts) fs) !! filename
  = Some (header +:+ rows (wt :: wts)).
Proof.
  intros Hr Hf Hlen.
  change (exports filename (wt :: wts) fs) with (exports filename wts (export filename wt fs)).
  change (rows (wt :: wts)) with (row wt +:+ rows wts) in Hlen |- *.
  rewrite (export_fresh _ _ _ Hr Hf).
  rewrite <- string_app_assoc in Hlen. rewrite string_length_app in Hlen.
  rewrite (export_all_nonempty _ _ _ (header +:+ row wt)).
  - by rewrite string_app_assoc.
  - done.
  - apply lookup_insert_eq.
  - rewrite string_length_app. unfold header at 1. simpl. lia.
  - lia.
Qed.

(** From a fresh file, while the size stays below 2^32 every call appends one
    row to the header line and the rows written before. *)
Lemma export_repeated filename (wt : WaterThermoState num) (len : Z) (n : N) :
  Z.of_nat (String.length (row wt)) = len -> 0 <= len ->
  Z.of_nat (String.length header) + len * Z.of_N n < 2 ^ 32 ->
  N.iter (N.succ n) (export filename wt) (all_writable ∅)
  = all_writable
      {[ filename := header +:+ N.iter (N.succ n) (fun s => s +:+ row wt) "" ]}.
Proof.
  intros Hrow Hlen.
  assert (forall m, Z.of_nat (String.length (N.iter m (fun s => s +:+ row wt) ""))
                    = len * Z.of_N m) as Hrows.
  { intros m. apply (N.iter_ind _ (fun s => s +:+ row wt) ""
                       (fun m s => Z.of_nat (String.length s) = len * Z.of_N m)).
    - cbn [String.length]. lia.
    - intros k s IH. rewrite string_length_app, Nat2Z.inj_add, IH, Hrow. lia. }
  assert (0 < Z.of_nat (String.length header)) as Hheader by reflexivity.
  induction n as [|n IH] using N.peano_ind; intros Hn.
  - rewrite !N.iter_succ. cbn [N.iter].
    rewrite export_fresh by (done || left; apply lookup_empty).
    unfold write_file, all_writable. cbn [files refuses].
    by rewrite insert_empty.
  - rewrite (N.iter_succ (N.succ n)).
    rewrite (N.iter_succ (N.succ n) _ (fun s => s +:+ row wt)).
    rewrite (IH ltac:(nia)).
    rewrite (export_nonempty _ _ _
               (header +:+ N.iter (N.succ n) (fun s => s +:+ row wt) "")).
    + unfold write_file, all_writable. cbn [files refuses].
      by rewrite insert_singleton_eq, string_app_assoc.
    + done.
    + apply lookup_singleton_eq.
    + rewrite string_length_app, Nat2Z.inj_add, Hrows. nia.
Qed.

(** From a fresh file: when the header line and [n] rows come to exactly 2^32
    characters, the call after them writes a second header line.  With rows
    of 22 characters, as for a record whose fields all print as one digit,
    this is the call after the first 195225785 ones: the header line has 26
    characters and 26 + 22 * 195225785 = 2^32. *)
Lemma export_repeated_wraps filename (wt : WaterThermoState num) (n : N) :
  Z.of_nat (String.length header)
  + Z.of_nat (String.length (row wt)) * Z.of_N n = 2 ^ 32 ->
  files (N.iter (N.succ n) (export filename wt) (all_writable ∅)) !! filename
  = Some (((header +:+ N.iter n (fun s => s +:+ row wt) "") +:+ header)
          +:+ row wt).
Proof.
  intros Hn.
  assert (Z.of_nat (String.length header) = 26) as Hheader by reflexivity.
  assert (forall m, Z.of_nat (String.length (N.iter m (fun s => s +:+ row wt) ""))
                    = Z.of_nat (String.length (row wt)) * Z.of_N m) as Hrows.
  { intros m. apply (N.iter_ind _ (fun s => s +:+ row wt) ""
                       (fun m s => Z.of_nat (String.length s)
                                   = Z.of_nat (String.length (row wt)) * Z.of_N m)).
    - cbn [String.length]. lia.
    - intros k s IH. rewrite string_length_app, Nat2Z.inj_add, IH. lia. }
  destruct (N.eq_dec n 0%N) as [->|Hpos]; [lia|].
  assert (n = N.succ (N.pred n)) as Hsucc by lia.
  revert Hn. generalize dependent (N.pred n). intros m -> Hn.
  rewrite (N.iter_succ (N.succ m)).
  rewrite (export_repeated filename wt _ m eq_refl ltac:(lia) ltac:(nia)).
  rewrite (export_wraps _ _ _
             (header +:+ N.iter (N.succ m) (fun s => s +:+ row wt) "")).
  - apply lookup_insert_eq.
  - done.
  - apply lookup_singleton_eq.
  - rewrite string_length_app, Nat2Z.inj_add, Hrows. lia.
Qed.

(** C10 fails on the code.  The file [file_4GiB] is not empty and can be
    opened; its size, 2^32, narrows to the [int] 0, and the call writes a
    header line before its row. *)
Theorem header_written_again (wt : WaterThermoState num) :
  file_4GiB <> "" /\
  int_of_streamoff (tellp (open_app "steam.csv" (all_writable {[ "steam.csv" := file_4GiB ]})))
  = 0 /\
  files (export "steam.csv" wt (all_writable {[ "steam.csv" := file_4GiB ]})) !! "steam.csv"
  = Some ((file_4GiB +:+ header) +:+ row wt).
Proof.
  split_and!.
  - apply file_4GiB_not_empty.
  - unfold open_app, all_writable. cbn [refuses files].
    rewrite lookup_singleton_eq. unfold tellp. cbn [default].
    change (id file_4GiB) with file_4GiB. by rewrite file_4GiB_length.
  - assert (refuses (all_writable {[ "steam.csv" := file_4GiB ]}) "steam.csv" = false)
      as Hopen by reflexivity.
    assert (files (all_writable {[ "steam.csv" := file_4GiB ]}) !! "steam.csv"
            = Some file_4GiB) as Hfile
      by (unfold all_writable; cbn [files]; apply lookup_singleton_eq).
    pose proof (export_wraps "steam.csv" wt _ file_4GiB Hopen Hfile) as Hwraps.
    specialize (Hwraps file_4GiB_length). rewrite Hwraps.
    unfold write_file. cbn [files]. apply lookup_insert_eq.
Qed.

End CSVFacts.

(** The rows of a record whose fields all print as one digit have 22
    characters: on a fresh file the first 195225785 calls write one header
    line, and call 195225786 writes a second one. *)
Lemma export_one_digit_rows (wt : WaterThermoState Z) :
  files (N.iter (N.succ 195225785)
           (OutputSteamConventionH2OProp (fun _ => "1") "steam.csv" wt)
           (all_writable ∅)) !! "steam.csv"
  = Some (((header
            +:+ N.iter 195225785 (fun s => s +:+ row (fun _ => "1") wt) "")
           +:+ header)
          +:+ row (fun _ => "1") wt).
Proof. apply export_repeated_wraps. reflexivity. Qed.


(* ===================================================================== *)
(** * Further properties of the store                                     *)
(* ===================================================================== *)

Section StoreUpdates.
Context {num : Type}.
Implicit Types (db : Database num) (s : Substance num) (r : Reaction num).

Lemma map_insert_Some {V} (k k' : string) (v v' : V) (m : gmap string V) :
  m !! k' = Some v' -> map_insert k v m !! k' = Some v'.
Proof.
  intros Hk'. unfold map_insert. destruct (m !! k) eqn:Hk; [done|].
  rewrite lookup_insert_ne; [done|]. intros ->. congruence.
Qed.

Lemma map_insert_ne {V} (k k' : string) (v : V) (m : gmap string V) :
  k' <> k -> map_insert k v m !! k' = m !! k'.
Proof.
  intros Hne. unfold map_insert. destruct (m !! k); [done|].
  by rewrite lookup_insert_ne.
Qed.

Lemma map_insert_comm {V} (k1 k2 : string) (v1 v2 : V) (m : gmap string V) :
  k1 <> k2 -> map_insert k1 v1 (map_insert k2 v2 m) = map_insert k2 v2 (map_insert k1 v1 m).
Proof.
  intros Hne. unfold map_insert.
  destruct (m !! k1) eqn:H1, (m !! k2) eqn:H2; rewrite ?H1, ?H2;
    rewrite ?lookup_insert_ne by done; rewrite ?H1, ?H2; try done.
  by apply insert_insert_ne.
Qed.

Lemma getSubstance_lookup db n :
  getSubstance db n =
  match substances_map db !! n with
  | Some s => Ok s
  | None => errorNonExistent "substance" n 189
  end.
Proof.
  destruct (substances_map db !! n) as [s|] eqn:Hn;
    [by apply getSubstance_Some | by apply getSubstance_None].
Qed.

Lemma getReaction_lookup db n :
  getReaction db n =
  match reactions_map db !! n with
  | Some r => Ok r
  | None => errorNonExistent "reaction" n 197
  end.
Proof.
  destruct (reactions_map db !! n) as [r|] eqn:Hn;
    [by apply getReaction_Some | by apply getReaction_None].
Qed.

Lemma containsSubstance_lookup db n :
  containsSubstance db n = bool_decide (is_Some (substances_map db !! n)).
Proof.
  unfold containsSubstance, map_count.
  destruct (substances_map db !! n) as [s|]; apply bool_decide_ext;
    rewrite ?is_Some_alt; split; try done; lia.
Qed.

Lemma containsReaction_lookup db n :
  containsReaction db n = bool_decide (is_Some (reactions_map db !! n)).
Proof.
  unfold containsReaction, map_count.
  destruct (reactions_map db !! n) as [r|]; apply bool_decide_ext;
    rewrite ?is_Some_alt; split; try done; lia.
Qed.

(** X1.  [containsSubstance] tells what [getSubstance] will do: it is true
    exactly when [getSubstance] returns a record, and false exactly when
    [getSubstance] raises the error of [errorNonExistent]; likewise for
    [containsReaction] and [getReaction]. *)
Theorem contains_agrees_with_get (db : Database num) (n : string) :
  (containsSubstance db n = true <-> exists s, getSubstance db n = Ok s) /\
  (containsSubstance db n = false <->
     getSubstance db n = errorNonExistent "substance" n 189) /\
  (containsReaction db n = true <-> exists r, getReaction db n = Ok r) /\
  (containsReaction db n = false <->
     getReaction db n = errorNonExistent "reaction" n 197).
Proof.
  rewrite containsSubstance_lookup, containsReaction_lookup,
    getSubstance_lookup, getReaction_lookup.
  rewrite !bool_decide_eq_true, !bool_decide_eq_false.
  destruct (substances_map db !! n) as [s|], (reactions_map db !! n) as [r|];
    unfold errorNonExistent; split_and!; split;
    try done; try (intros _; by eexists); try (by intros [? ?]);
    try (intros Hn; exfalso; apply Hn; by eexists);
    try (intros _ [? [=]]).
Qed.


(** X2.  The store never replaces or removes a record.  A lookup that
    returned a record returns the same record after any later [addSubstance]
    or [addReaction], whatever is added; and adding a record under a name
    that is taken leaves the whole store as it was. *)
Theorem stored_records_persist (db : Database num) (s' : Substance num)
    (r' : Reaction num) :
  (forall n s, getSubstance db n = Ok s ->
     getSubstance (addSubstance s' db) n = Ok s /\
     getSubstance (addReaction r' db) n = Ok s) /\
  (forall n r, getReaction db n = Ok r ->
     getReaction (addSubstance s' db) n = Ok r /\
     getReaction (addReaction r' db) n = Ok r) /\
  (containsSubstance db (name s') = true -> addSubstance s' db = db) /\
  (containsReaction db (reaction_name r') = true -> addReaction r' db = db).
Proof.
  split_and!.
  - intros n s Hs%getSubstance_Ok. split; apply getSubstance_Some; simpl; [|done].
    by apply map_insert_Some.
  - intros n r Hr%getReaction_Ok. split; apply getReaction_Some; simpl; [done|].
    by apply map_insert_Some.
  - rewrite containsSubstance_lookup, bool_decide_eq_true. intros [s0 Hs0].
    destruct db as [ss rs]. unfold addSubstance. simpl in *.
    by rewrite (map_insert_taken _ _ _ _ Hs0).
  - rewrite containsReaction_lookup, bool_decide_eq_true. intros [r0 Hr0].
    destruct db as [ss rs]. unfold addReaction. simpl in *.
    by rewrite (map_insert_taken _ _ _ _ Hr0).
Qed.

(** X3.  Records with different names can be added in either order, and a
    substance and a reaction in either order: the store is the same. *)
Theorem add_order_irrelevant (db : Database num) (s1 s2 : Substance num)
    (r1 r2 : Reaction num) :
  name s1 <> name s2 ->
  reaction_name r1 <> reaction_name r2 ->
  addSubstance s1 (addSubstance s2 db) = addSubstance s2 (addSubstance s1 db) /\
  addReaction r1 (addReaction r2 db) = addReaction r2 (addReaction r1 db) /\
  addSubstance s1 (addReaction r1 db) = addReaction r1 (addSubstance s1 db).
Proof.
  intros Hs Hr. unfold addSubstance, addReaction. simpl. split_and!.
  - f_equal. by apply map_insert_comm.
  - f_equal. by apply map_insert_comm.
  - reflexivity.
Qed.

(** X4.  [addSubstance(s)] changes nothing but the entry under the name of
    [s]: every lookup of another substance name, and every lookup of a
    reaction, gives what it gave before, a record or the error; likewise for
    [addReaction]. *)
Theorem add_changes_one_entry (db : Database num) (s : Substance num)
    (r : Reaction num) :
  (forall n, n <> name s ->
     getSubstance (addSubstance s db) n = getSubstance db n /\
     containsSubstance (addSubstance s db) n = containsSubstance db n) /\
  (forall n, getReaction (addSubstance s db) n = getReaction db n /\
     containsReaction (addSubstance s db) n = containsReaction db n) /\
  (forall n, n <> reaction_name r ->
     getReaction (addReaction r db) n = getReaction db n /\
     containsReaction (addReaction r db) n = containsReaction db n) /\
  (forall n, getSubstance (addReaction r db) n = getSubstance db n /\
     containsSubstance (addReaction r db) n = containsSubstance db n).
Proof.
  split_and!; intros n; try intros Hne;
    rewrite ?getSubstance_lookup, ?getReaction_lookup,
      ?containsSubstance_lookup, ?containsReaction_lookup; simpl;
    rewrite ?map_insert_ne by done; done.
Qed.

(** X5.  In a store built with [addSubstance] and [addReaction], a lookup
    returns a record that bears the name it was asked for: every record that
    [getSubstance] returns, and every record that [getReaction] returns,
    whatever else the store holds. *)
Theorem built_store_files_by_name (db : Database num) :
  Database_built db ->
  (forall (n : string) (s : Substance num), getSubstance db n = Ok s -> name s = n) /\
  (forall (n : string) (r : Reaction num), getReaction db n = Ok r -> reaction_name r = n).
Proof.
  intros Hb. split.
  - intros n s Hs%getSubstance_Ok. by apply (Database_built_substance_name db Hb).
  - intros n r Hr%getReaction_Ok. by apply (Database_built_reaction_name db Hb).
Qed.

End StoreUpdates.

Section ListingFacts.
Context {num : Type}.

Lemma collectValues_Permutation {V} (m : gmap string V) :
  collectValues m ≡ₚ (map_to_list m).*2.
Proof. unfold collectValues. by rewrite merge_sort_Permutation. Qed.

Lemma elem_of_collectValues {V} (m : gmap string V) (v : V) :
  v ∈ collectValues m <-> exists k, m !! k = Some v.
Proof.
  rewrite collectValues_Permutation, list_elem_of_fmap. split.
  - intros ([k v'] & -> & Hin%elem_of_map_to_list). by exists k.
  - intros [k Hk]. exists (k, v). split; [done|]. by apply elem_of_map_to_list.
Qed.

Lemma length_collectValues {V} (m : gmap string V) :
  length (collectValues m) = size m.
Proof.
  by rewrite collectValues_Permutation, length_fmap, length_map_to_list.
Qed.

Lemma String_le_lt (a b : string) :
  String.le a b -> a <> b -> String.ltb a b = true.
Proof.
  unfold String.le, String.leb, String.ltb. intros Hle Hne.
  destruct (String.compare a b) eqn:Hc; [|done|done].
  by apply String.compare_eq_iff in Hc.
Qed.

(** When every value carries its key, the listing is in strictly increasing
    order of the keys carried. *)
Lemma collectValues_sorted {V} (m : gmap string V) (key : V -> string) :
  (forall k v, m !! k = Some v -> key v = k) ->
  StronglySorted (fun a b => String.ltb (key a) (key b) = true) (collectValues m).
Proof.
  intros Hkey. unfold collectValues.
  set (R := fun a b : string * V => String.le a.1 b.1).
  assert (Transitive R) as HT by (intros a b c; unfold R; apply transitivity).
  assert (Total R) as Htot by (intros a b; unfold R; apply total, _).
  pose proof (StronglySorted_merge_sort R (map_to_list m)) as Hsorted.
  assert (NoDup (merge_sort R (map_to_list m)).*1) as Hnd.
  { rewrite merge_sort_Permutation. apply NoDup_fst_map_to_list. }
  assert (Forall (fun e => key e.2 = e.1) (merge_sort R (map_to_list m))) as Hall.
  { apply Forall_forall. intros [k v] Hin. rewrite merge_sort_Permutation in Hin.
    apply elem_of_map_to_list in Hin. by apply Hkey. }
  induction (merge_sort R (map_to_list m)) as [|e l IH]; [constructor|].
  apply StronglySorted_inv in Hsorted as [Hs He].
  apply NoDup_cons in Hnd as [Hnotin Hnd].
  apply Forall_cons in Hall as [Hk Hall].
  simpl. constructor; [by apply IH|].
  apply Forall_fmap, Forall_forall. intros e' Hin. simpl.
  rewrite Hk, (proj1 (Forall_forall _ _) Hall e' Hin).
  apply String_le_lt.
  - by apply (proj1 (Forall_forall _ _) He e' Hin).
  - intros Heq. apply Hnotin. rewrite Heq. by apply (list_elem_of_fmap_2 fst).
Qed.

(** X6.  [getSubstances] lists the store: a record is in the list exactly
    when some lookup returns it, and the list is as long as the map has
    entries; likewise for [getReactions]. *)
Theorem listing_is_the_store (db : Database num) :
  (forall s, s ∈ getSubstances db <-> exists n, getSubstance db n = Ok s) /\
  length (getSubstances db) = size (substances_map db) /\
  (forall r, r ∈ getReactions db <-> exists n, getReaction db n = Ok r) /\
  length (getReactions db) = size (reactions_map db).
Proof.
  unfold getSubstances, getReactions. split_and!.
  - intros s. rewrite elem_of_collectValues. split; intros [n Hn]; exists n.
    + by apply getSubstance_Some.
    + by apply getSubstance_Ok.
  - apply length_collectValues.
  - intros r. rewrite elem_of_collectValues. split; intros [n Hn]; exists n.
    + by apply getReaction_Some.
    + by apply getReaction_Ok.
  - apply length_collectValues.
Qed.

(** X7.  In a store built with [addSubstance] and [addReaction], the
    records that [getSubstances] returns are in strictly increasing order of
    their names, so no name occurs twice, and each of them is the record that
    [getSubstance] returns for its name; likewise for the reactions. *)
Theorem listing_sorted_by_name (db : Database num) :
  Database_built db ->
  (StronglySorted (fun a b => String.ltb (name a) (name b) = true) (getSubstances db) /\
   Forall (fun s => getSubstance db (name s) = Ok s) (getSubstances db)) /\
  (StronglySorted (fun a b => String.ltb (reaction_name a) (reaction_name b) = true)
     (getReactions db) /\
   Forall (fun r => getReaction db (reaction_name r) = Ok r) (getReactions db)).
Proof.
  intros Hb. unfold getSubstances, getReactions. split; split.
  - apply collectValues_sorted. by apply Database_built_substance_name.
  - apply Forall_forall. intros s [k Hk]%elem_of_collectValues.
    apply getSubstance_Some.
    by rewrite (Database_built_substance_name db Hb k s Hk).
  - apply collectValues_sorted. by apply Database_built_reaction_name.
  - apply Forall_forall. intros r [k Hk]%elem_of_collectValues.
    apply getReaction_Some.
    by rewrite (Database_built_reaction_name db Hb k r Hk).
Qed.

Lemma collectValues_insert {V} (k : string) (v : V) (m : gmap string V) :
  m !! k = None -> collectValues (map_insert k v m) ≡ₚ v :: collectValues m.
Proof.
  intros Hk. unfold map_insert. rewrite Hk.
  rewrite !collectValues_Permutation, (map_to_list_insert _ _ _ Hk). reflexivity.
Qed.

(** X27.  Adding a record under a name that the store does not hold yet adds
    that record, and nothing else, to the listing: [getSubstances] then returns
    the records it returned before and the new one, up to their order, and
    [getReactions] returns what it returned; likewise for [addReaction]. *)
Theorem listing_after_add (db : Database num) (s : Substance num) (r : Reaction num) :
  containsSubstance db (name s) = false ->
  containsReaction db (reaction_name r) = false ->
  (getSubstances (addSubstance s db) ≡ₚ s :: getSubstances db /\
   getReactions (addSubstance s db) = getReactions db) /\
  (getReactions (addReaction r db) ≡ₚ r :: getReactions db /\
   getSubstances (addReaction r db) = getSubstances db).
Proof.
  rewrite containsSubstance_lookup, containsReaction_lookup.
  rewrite !bool_decide_eq_false, <- !eq_None_not_Some. intros Hs Hr.
  unfold getSubstances, getReactions. simpl. split; split; try reflexivity.
  - by apply collectValues_insert.
  - by apply collectValues_insert.
Qed.

End ListingFacts.


(** Narrowing to [int] gives zero exactly at the multiples of 2^32. *)
Lemma int_of_streamoff_zero (off : Z) :
  int_of_streamoff off = 0 <-> off mod 2 ^ 32 = 0.
Proof.
  unfold int_of_streamoff. change (2 ^ 32) with 4294967296.
  change (2 ^ 31) with 2147483648.
  pose proof (Z.div_mod off 4294967296 ltac:(lia)) as Hoff.
  pose proof (Z.mod_pos_bound off 4294967296 ltac:(lia)) as Hbound.
  pose proof (Z.div_mod (off + 2147483648) 4294967296 ltac:(lia)) as Hoff'.
  pose proof (Z.mod_pos_bound (off + 2147483648) 4294967296 ltac:(lia)) as Hbound'.
  lia.
Qed.

Section CSVMore.
Context {num : Type}.
Variable format_double : num -> string.

Local Abbreviation row := (row format_double).
Local Abbreviation rows := (rows format_double).
Local Abbreviation export := (OutputSteamConventionH2OProp format_double).
Local Abbreviation exports := (export_all format_double).

(** X8.  What one call does to the file system, for every file system and
    every name.  When the name cannot be opened the call changes nothing: no
    file is made and nothing is written, and the caller is told nothing.  When
    it can be opened, the named file ends up holding what it held (nothing,
    when it did not exist), then the header line if and only if its size was a
    multiple of 2^32 bytes, zero included, then the row; earlier content is
    never changed or removed.  In both cases no other file is touched. *)
Theorem export_appends_to_one_file (filename : string) (wt : WaterThermoState num)
    (fs : FileSystem) :
  (refuses fs filename = true -> export filename wt fs = fs) /\
  (refuses fs filename = false ->
   files (export filename wt fs) !! filename =
     Some ((default "" (files fs !! filename)
            +:+ (if decide (Z.of_nat (String.length (default "" (files fs !! filename)))
                            mod 2 ^ 32 = 0)
                 then header else ""))
           +:+ row wt)) /\
  (forall other, other <> filename ->
     files (export filename wt fs) !! other = files fs !! other) /\
  refuses (export filename wt fs) = refuses fs.
Proof.
  split; [apply export_refused|].
  unfold OutputSteamConventionH2OProp, open_app.
  destruct (refuses fs filename) eqn:Hr; [by rewrite decide_False|].
  unfold tellp, put, close, write_file.
  destruct (decide (int_of_streamoff _ = 0)) as [Hz|Hnz]; cbn [files refuses];
    (split_and!; [intros _|intros other Hne; by rewrite lookup_insert_ne|done]);
    rewrite lookup_insert_eq; f_equal; f_equal.
  - by rewrite decide_True by (by apply int_of_streamoff_zero).
  - rewrite decide_False by (by rewrite <- int_of_streamoff_zero).
    by rewrite string_app_nil_r.
Qed.

(** X9.  One or more calls in a row on a name that can be opened, whose
    output keeps the file below 2^32 bytes: the file holds what it held, then
    one header line if it was empty or did not exist and none otherwise, then
    the rows of the calls in their order. *)
Theorem export_all_below_4GiB (filename : string) (wt : WaterThermoState num)
    (wts : list (WaterThermoState num)) (fs : FileSystem) :
  refuses fs filename = false ->
  Z.of_nat (String.length
    ((default "" (files fs !! filename)
      +:+ (if decide (default "" (files fs !! filename) = "") then header else ""))
     +:+ rows (wt :: wts))) < 2 ^ 32 ->
  files (exports filename (wt :: wts) fs) !! filename =
    Some ((default "" (files fs !! filename)
           +:+ (if decide (default "" (files fs !! filename) = "") then header else ""))
          +:+ rows (wt :: wts)).
Proof.
  intros Hr.
  destruct (files fs !! filename) as [content|] eqn:Hf.
  - change (default "" (Some content)) with content.
    destruct (decide (content = "")) as [->|Hne]; intros Hlen.
    + change ("" +:+ header) with header in Hlen |- *.
      apply export_all_fresh; [done | by right | done].
    + rewrite string_app_nil_r in Hlen |- *. rewrite string_length_app in Hlen.
      apply export_all_nonempty; [done|done| |lia].
      destruct content; [done|]. cbn [String.length]. lia.
  - change (default "" None) with "". rewrite decide_True by done.
    change ("" +:+ header) with header. intros Hlen.
    apply export_all_fresh; [done | by left | done].
Qed.

End CSVMore.


(* ===================================================================== *)
(** * Further properties of the engine                                    *)
(* ===================================================================== *)

Section EngineErrors.
Context {num : Type} `{Scalar num} `{Models num}.
Variable database : Database num.
Variable solventSymbol : string.

Local Abbreviation body := (underlying database solventSymbol).
Local Abbreviation runs := (run database solventSymbol).
Local Abbreviation evals := (eval database solventSymbol).
Local Abbreviation reachable := (reachable database solventSymbol).
Local Abbreviation entry_point := (entry_point database solventSymbol).

Lemma run_mbind fuel {A B} (p : Prog A) (f : A -> Prog B) st :
  runs fuel (p ≫= f) st =
  match runs fuel p st with
  | (Ok a, st') => runs fuel (f a) st'
  | (Err e, st') => (Err e, st')
  end.
Proof. apply run_bind. Qed.

Lemma getThermoPreferences_Some substance s :
  substances_map database !! substance = Some s ->
  getThermoPreferences database substance =
  Ok {| workSubstance := s;
        method_genEOS := methodGenEOS s;
        pref_method_T := method_T s;
        pref_method_P := method_P s;
        isHydrogen := bool_decide (name s = "H+");
        isH2Ovapor := bool_decide (methodGenEOS s = CTPM_HKF)
                      && bool_decide (method_P s = CPM_GAS);
        isH2OSolvent := bool_decide (substanceClass s = AQSOLVENT);
        solventState := if bool_decide (aggregateState s = GAS) then 1 else 0;
        isReacDC := bool_decide (thermoCalculationType s = REACDC) |}.
Proof.
  intros Hs. unfold getThermoPreferences. by rewrite (getSubstance_Some _ _ _ Hs).
Qed.

(** X10.  A reaction-derived substance, not named "H+", whose reaction
    symbol is empty: the substance entry point ends with the error of
    [errorReactionNotDefined], which carries the symbol of the substance, in
    every state of the evaluator and for all [T] and [P]; the state is left as
    it was. *)
Theorem reaction_symbol_empty_raises (st : State) (fuel : nat) (T P : num)
    (x : string) (X : Substance num) :
  reachable st ->
  substances_map database !! x = Some X ->
  name X <> "H+" ->
  thermoCalculationType X = REACDC ->
  reactionSymbol X = "" ->
  entry_point thermo_properties_substance (S fuel) T P x st
  = (Err (ReactionNotDefined (symbol X) 566), st).
Proof.
  intros Hst HX Hname Hcalc Hrs. apply entry_point_Throw; [done|]. simpl.
  rewrite (thermoPropertiesSubstance_reacDC _ _ _ _ _ _ HX Hname Hcalc).
  unfold reacDCthermoProperties. by rewrite Hrs.
Qed.

(** X11.  A reaction-derived substance, not named "H+", whose reaction is
    not in the store: the substance entry point ends with the error that
    [getReaction] raises for the reaction symbol, and the state is left as it
    was. *)
Theorem reaction_missing_raises (st : State) (fuel : nat) (T P : num)
    (x : string) (X : Substance num) :
  reachable st ->
  substances_map database !! x = Some X ->
  name X <> "H+" ->
  thermoCalculationType X = REACDC ->
  reactionSymbol X <> "" ->
  reactions_map database !! reactionSymbol X = None ->
  entry_point thermo_properties_substance (S fuel) T P x st
  = (errorNonExistent "reaction" (reactionSymbol X) 197, st).
Proof.
  intros Hst HX Hname Hcalc Hrs HR. apply entry_point_Throw; [done|]. simpl.
  rewrite (thermoPropertiesSubstance_reacDC _ _ _ _ _ _ HX Hname Hcalc).
  unfold reacDCthermoProperties. rewrite bool_decide_eq_false_2 by done. simpl.
  by rewrite (getReaction_None _ _ HR).
Qed.


Lemma propertiesSolvent_None T P solvent :
  substances_map database !! solvent = None ->
  propertiesSolvent database T P solvent
  = Throw (RaiseError
      {| error := "Cannot get an instance of the substance `" +:+ solvent
                    +:+ "` in the database.";
         reason := "There is no such substance in the database.";
         line := 189 |}).
Proof.
  intros Hs. unfold propertiesSolvent. by rewrite (getThermoPreferences_None _ _ Hs).
Qed.

(** The solvent entry point on a symbol that the store does not hold. *)
Lemma properties_solvent_absent st fuel T P solvent :
  known database st ->
  substances_map database !! solvent = None ->
  memoize properties_solvent (invoke_underlying database solventSymbol (S fuel) properties_solvent)
    (T, P, P, solvent) st
  = (errorNonExistent "substance" solvent 189, st).
Proof.
  intros Hk Hs. unfold memoize.
  destruct (cache_find properties_solvent (T, P, P, solvent) st) as [v|] eqn:Hf.
  - destruct (Hk _ _ _ Hf) as [s Hin]. simpl in Hin. congruence.
  - unfold invoke_underlying. cbn [underlying].
    by rewrite (propertiesSolvent_None T P solvent Hs), run_Throw.
Qed.

(** A solute of the kinds that take the solvent properties, when the store
    has no record under the solvent symbol and the result is not cached. *)
Lemma solute_without_solvent (st : State) (fuel : nat) (T P : num)
    (x : string) (X : Substance num) :
  known database st ->
  substances_map database !! x = Some X ->
  name X <> "H+" ->
  thermoCalculationType X <> REACDC ->
  substanceClass X <> AQSOLVENT ->
  methodGenEOS X = CTPM_HKFR \/
  (methodGenEOS X = CTPM_HKF /\ method_P X <> CPM_GAS) \/
  method_P X = CPM_AKI ->
  substances_map database !! solventSymbol = None ->
  cache_find thermo_properties_substance (T, P, P, x) st = None ->
  entry_point thermo_properties_substance (S (S fuel)) T P x st
  = (errorNonExistent "substance" solventSymbol 189, st).
Proof.
  intros Hst HX Hname Hcalc Hclass Hgen Hsolvent Hmiss.
  assert (forall n,
            runs (S n) (thermoPropertiesSubstance database solventSymbol T P x) st
            = (errorNonExistent "substance" solventSymbol 189, st)) as Hrun.
  { intros n. unfold thermoPropertiesSubstance.
    rewrite (getThermoPreferences_Some _ _ HX).
    assert (bool_decide (methodGenEOS X = CTPM_HKF) && bool_decide (method_P X = CPM_GAS)
            = false) as ->.
    { destruct Hgen as [Hg|[[Hg Hp]|Hp]].
      - rewrite Hg. reflexivity.
      - rewrite (bool_decide_eq_false_2 (method_P X = CPM_GAS)) by done.
        apply andb_false_r.
      - rewrite Hp. apply andb_false_r. }
    rewrite (bool_decide_eq_false_2 (name X = "H+")) by done.
    rewrite (bool_decide_eq_false_2 (thermoCalculationType X = REACDC)) by done.
    rewrite (bool_decide_eq_false_2 (substanceClass X = AQSOLVENT)) by done.
    cbn [lift mbind Prog_bind bind isHydrogen isReacDC isH2OSolvent isH2Ovapor negb andb].
    unfold method_EOS_T_P.
    cbn [method_genEOS workSubstance pref_method_T pref_method_P].
    rewrite !run_mbind.
    destruct (methodGenEOS X) eqn:Hg;
      try (rewrite run_mbind; unfold call;
           rewrite run_Invoke, (properties_solvent_absent _ _ _ _ _ Hst Hsolvent);
           reflexivity);
      (destruct Hgen as [Hg'|[[Hg' Hp]|Hp]]; [done|done|]);
      unfold mret, Prog_ret; rewrite run_Return, Hp, run_mbind,
        (getSubstance_None _ _ Hsolvent); unfold errorNonExistent; cbn [lift];
      rewrite run_Throw; reflexivity. }
  rewrite (entry_point_miss _ _ _ _ _ _ _ _ Hmiss). simpl. by rewrite Hrun.
Qed.

(** X13.  A record that is not of the solvent class gets default-constructed
    solvent properties: [propertiesSolvent] and [electroPropertiesSolvent]
    call no model and raise no error for it, for all [T] and [P] and in every
    state of the evaluator. *)
Theorem non_solvent_gets_defaults (st : State) (fuel : nat) (T P : num)
    (s : string) (record : Substance num) :
  reachable st ->
  substances_map database !! s = Some record ->
  substanceClass record <> AQSOLVENT ->
  (entry_point properties_solvent (S fuel) T P s st).1 = Ok PropertiesSolvent_new /\
  (entry_point electro_properties_solvent (S (S fuel)) T P s st).1
  = Ok ElectroPropertiesSolvent_new.
Proof.
  intros Hst Hs Hclass.
  assert (evals 0 (body properties_solvent (T, P, P, s)) = Ok PropertiesSolvent_new) as Hps.
  { simpl. unfold propertiesSolvent. rewrite (getThermoPreferences_Some _ _ Hs). simpl.
    rewrite bool_decide_eq_false_2 by done. apply eval_Return. }
  split.
  - apply (entry_point_eval _ _ _ 0%nat); [by apply reachable_consistent|done|done|lia].
  - apply (entry_point_eval _ _ _ 1%nat); [by apply reachable_consistent| |done|lia].
    simpl. unfold electroPropertiesSolvent.
    rewrite (getThermoPreferences_Some _ _ Hs). simpl.
    rewrite eval_Invoke, Hps. simpl. rewrite bool_decide_eq_false_2 by done.
    apply eval_Return.
Qed.

(** X14.  The volume-based pressure correction replaces the result of the
    temperature correction.  For a reaction in the store with the pressure
    code [CPM_VKE] or [CPM_VBE] and a temperature code other than [CTM_MRB],
    the reaction entry point returns the result of [Reaction_Vol_fT], whatever
    the temperature code is and whatever its model computed; with [CTM_DKR]
    the solvent must be in the store. *)
Theorem volume_correction_replaces_result (st : State) (fuel : nat) (T P : num)
    (r : string) (reac : Reaction num) :
  reachable st ->
  reactions_map database !! r = Some reac ->
  reaction_method_P reac = CPM_VKE \/ reaction_method_P reac = CPM_VBE ->
  reaction_method_T reac <> CTM_MRB ->
  (reaction_method_T reac = CTM_DKR -> is_Some (substances_map database !! solventSymbol)) ->
  (entry_point thermo_properties_reaction (S (S fuel)) T P r st).1
  = Ok (Reaction_Vol_fT reac T P).
Proof.
  intros Hst Hr HP HT Hsolvent.
  apply (entry_point_eval _ _ _ 1%nat); [by apply reachable_consistent| |done|lia].
  simpl. unfold thermoPropertiesReaction. rewrite (getReaction_Some _ _ _ Hr). simpl.
  assert (forall tpr,
            match reaction_method_P reac with
            | CPM_VKE | CPM_VBE => Reaction_Vol_fT reac T P
            | _ => tpr
            end = Reaction_Vol_fT reac T P) as Hpressure
    by (intros tpr; by destruct HP as [-> | ->]).
  destruct (reaction_method_T reac) eqn:HmT; try done;
    try (unfold mret, Prog_ret; rewrite eval_Return; by rewrite Hpressure).
  destruct (Hsolvent eq_refl) as [w Hw].
  rewrite eval_Invoke. simpl. unfold propertiesSolvent.
  rewrite (getThermoPreferences_Some _ _ Hw). simpl.
  unfold mret, Prog_ret. rewrite !eval_Return. by rewrite Hpressure.
Qed.

(** A reaction whose temperature model takes the solvent properties, when
    the store has no record under the solvent symbol and the result is not
    cached. *)
Lemma reaction_without_solvent (st : State) (fuel : nat) (T P : num)
    (r : string) (reac : Reaction num) :
  known database st ->
  reactions_map database !! r = Some reac ->
  reaction_method_T reac = CTM_DKR \/ reaction_method_T reac = CTM_MRB ->
  substances_map database !! solventSymbol = None ->
  cache_find thermo_properties_reaction (T, P, P, r) st = None ->
  entry_point thermo_properties_reaction (S (S fuel)) T P r st
  = (errorNonExistent "substance" solventSymbol 189, st).
Proof.
  intros Hst Hr HT Hsolvent Hmiss.
  assert (forall n,
            runs (S n) (thermoPropertiesReaction database solventSymbol T P r) st
            = (errorNonExistent "substance" solventSymbol 189, st)) as Hrun.
  { intros n. unfold thermoPropertiesReaction.
    rewrite (getReaction_Some _ _ _ Hr). cbn [lift mbind Prog_bind bind].
    destruct HT as [-> | ->]; rewrite run_mbind; unfold call;
      rewrite run_Invoke, (properties_solvent_absent _ _ _ _ _ Hst Hsolvent);
      reflexivity. }
  rewrite (entry_point_miss _ _ _ _ _ _ _ _ Hmiss). simpl. by rewrite Hrun.
Qed.

End EngineErrors.

(** ** Evaluators whose solvent symbol was changed *)

Section Histories.
Context {num : Type} `{Scalar num} `{Models num}.
Variable database : Database num.

Local Abbreviation known := (known database).
Local Abbreviation in_store := (in_store database).

(** The function behind an entry point begins by fetching its record: when
    the store does not hold it, the function throws, whatever the solvent
    symbol is. *)
Lemma underlying_in_store solventSymbol k args :
  in_store k args.2 \/ exists e, underlying database solventSymbol k args = Throw e.
Proof.
  destruct args as [[[T P_] P] symbol]. unfold in_store. cbn [snd].
  destruct k; cbn [underlying].
  - destruct (substances_map database !! symbol) as [s|] eqn:Hk; [by left; eexists|right].
    rewrite (thermoPropertiesSubstance_None _ _ _ _ _ Hk). by eexists.
  - destruct (substances_map database !! symbol) as [s|] eqn:Hk; [by left; eexists|right].
    unfold electroPropertiesSolvent.
    rewrite (getThermoPreferences_None _ _ Hk). by eexists.
  - destruct (substances_map database !! symbol) as [s|] eqn:Hk; [by left; eexists|right].
    unfold propertiesSolvent.
    rewrite (getThermoPreferences_None _ _ Hk). by eexists.
  - destruct (reactions_map database !! symbol) as [r|] eqn:Hk; [by left; eexists|right].
    rewrite (thermoPropertiesReaction_None _ _ _ _ _ Hk). by eexists.
Qed.

Lemma known_new : known State_new.
Proof. intros k args v. destruct k; discriminate. Qed.

Lemma known_store k args v st :
  known st -> in_store k args.2 -> known (cache_store k args v st).
Proof.
  intros Hk Hin k' args' v'.
  destruct (decide (k = k')) as [<-|Hne].
  - rewrite cache_find_store. case_decide; [|apply Hk]. intros _. by subst.
  - rewrite cache_find_store_ne by done. apply Hk.
Qed.

(** Whatever the solvent symbol, a run stores entries of records that the
    store holds. *)
Lemma run_known solventSymbol fuel :
  forall {A} (p : Prog A) st, known st -> known (run database solventSymbol fuel p st).2.
Proof.
  induction fuel as [fuel IHfuel] using lt_wf_ind.
  intros A p; induction p as [a|e|k args cont IHp]; intros st Hk.
  - by rewrite run_Return.
  - by rewrite run_Throw.
  - rewrite run_Invoke. unfold memoize.
    destruct (cache_find k args st) as [v|] eqn:Hfind; [by apply IHp|].
    destruct fuel as [|fuel']; unfold invoke_underlying; [done|].
    pose proof (IHfuel fuel' ltac:(lia) _ (underlying database solventSymbol k args) st Hk)
      as Hk1.
    destruct (run database solventSymbol fuel' (underlying database solventSymbol k args) st)
      as [[v|e] st1] eqn:Hrun; simpl in *; [|done].
    apply IHp, known_store; [done|].
    destruct (underlying_in_store solventSymbol k args) as [Hin|[e He]]; [done|].
    rewrite He, run_Throw in Hrun. discriminate.
Qed.

Lemma ThermoEngine_reachable_known engine :
  ThermoEngine_reachable database engine ->
  pimpl_database engine = database /\ known (pimpl_state engine).
Proof.
  induction 1 as [|k fuel T P symbol engine Hr [Hdb Hk]
                  |R_CONSTANT ln_to_lg fuel T P symbol engine Hr [Hdb Hk]
                  |solvent_symbol engine Hr [Hdb Hk]]; simpl.
  - split; [done | apply known_new].
  - split; [done|]. unfold entry_point. rewrite Hdb. by apply run_known.
  - split; [done|]. rewrite Hdb. by apply run_known.
  - done.
Qed.

(** X12.  Which substances cannot do without the solvent.  On any
    evaluator, whatever calls and changes of the solvent symbol it has seen:
    for a substance that is not named "H+", not reaction-derived, not of the
    solvent class and not flagged as vapour, with a generic method of the HKF
    family ([CTPM_HKF], [CTPM_HKFR]) or the pressure code [CPM_AKI], when the
    store has no record under the solvent symbol of the evaluator and the
    substance cache has no entry for the tuple, the call ends with the error
    that [getSubstance] raises for the solvent symbol, and the evaluator is
    left as it was.  (An entry for the tuple, made before the solvent symbol
    was changed, is returned instead: X22.) *)
Theorem solute_needs_the_solvent (engine : ThermoEngine) (fuel : nat) (T P : num)
    (x : string) (X : Substance num) :
  ThermoEngine_reachable database engine ->
  substances_map database !! x = Some X ->
  name X <> "H+" ->
  thermoCalculationType X <> REACDC ->
  substanceClass X <> AQSOLVENT ->
  methodGenEOS X = CTPM_HKFR \/
  (methodGenEOS X = CTPM_HKF /\ method_P X <> CPM_GAS) \/
  method_P X = CPM_AKI ->
  substances_map database !! pimpl_solventSymbol engine = None ->
  cache_find thermo_properties_substance (T, P, P, x) (pimpl_state engine) = None ->
  ThermoEngine_call thermo_properties_substance (S (S fuel)) T P x engine
  = (errorNonExistent "substance" (pimpl_solventSymbol engine) 189, engine).
Proof.
  intros [Hdb Hk]%ThermoEngine_reachable_known HX Hname Hcalc Hclass Hgen Hsolvent Hmiss.
  destruct engine as [db solvent st]. simpl in *. subst db.
  unfold ThermoEngine_call. cbn [pimpl_database pimpl_solventSymbol pimpl_state].
  by rewrite (solute_without_solvent database solvent st fuel T P x X).
Qed.

(** X24.  The two temperature models of a reaction that take the solvent
    properties cannot do without the solvent.  On any evaluator, whatever
    calls and changes of the solvent symbol it has seen: for a reaction in the
    store with the temperature code [CTM_DKR] or [CTM_MRB], when the store has
    no record under the solvent symbol of the evaluator and the reaction cache
    has no entry for the tuple, the call ends with the error that
    [getSubstance] raises for the solvent symbol, and the evaluator is left as
    it was. *)
Theorem reaction_needs_the_solvent (engine : ThermoEngine) (fuel : nat) (T P : num)
    (r : string) (reac : Reaction num) :
  ThermoEngine_reachable database engine ->
  reactions_map database !! r = Some reac ->
  reaction_method_T reac = CTM_DKR \/ reaction_method_T reac = CTM_MRB ->
  substances_map database !! pimpl_solventSymbol engine = None ->
  cache_find thermo_properties_reaction (T, P, P, r) (pimpl_state engine) = None ->
  ThermoEngine_call thermo_properties_reaction (S (S fuel)) T P r engine
  = (errorNonExistent "substance" (pimpl_solventSymbol engine) 189, engine).
Proof.
  intros [Hdb Hk]%ThermoEngine_reachable_known Hr HT Hsolvent Hmiss.
  destruct engine as [db solvent st]. simpl in *. subst db.
  unfold ThermoEngine_call. cbn [pimpl_database pimpl_solventSymbol pimpl_state].
  by rewrite (reaction_without_solvent database solvent st fuel T P r reac).
Qed.

End Histories.


Section SolventIndependence.
Context {num : Type} `{Scalar num} `{Models num}.
Variable database : Database num.

(** X23.  Which substances do without the solvent.  A directly computed
    substance, not named "H+", that is of the solvent class, or flagged as
    vapour, or has neither a generic method of the HKF family nor the
    pressure code [CPM_AKI], is evaluated without any entry point being
    invoked: the substance entry point returns one and the same result
    whatever the solvent symbol of the evaluator is, whether or not the store
    holds a solvent, in every state and with any fuel. *)
Theorem direct_substance_ignores_the_solvent (T P : num) (x : string)
    (X : Substance num) :
  substances_map database !! x = Some X ->
  name X <> "H+" ->
  thermoCalculationType X <> REACDC ->
  substanceClass X = AQSOLVENT \/
  (methodGenEOS X = CTPM_HKF /\ method_P X = CPM_GAS) \/
  (methodGenEOS X <> CTPM_HKF /\ methodGenEOS X <> CTPM_HKFR /\ method_P X <> CPM_AKI) ->
  exists v,
    forall (solventSymbol : string) (st : State) (fuel : nat),
      reachable database solventSymbol st ->
      thermoPropertiesSubstance database solventSymbol T P x = Return v /\
      (entry_point database solventSymbol thermo_properties_substance (S fuel) T P x st).1
      = Ok v.
Proof.
  intros HX Hname Hcalc Hkind.
  assert (exists v, forall solventSymbol,
            thermoPropertiesSubstance database solventSymbol T P x = Return v)
    as [v Hv].
  { unfold thermoPropertiesSubstance.
    rewrite (getThermoPreferences_Some _ _ _ HX).
    rewrite (bool_decide_eq_false_2 (name X = "H+")) by done.
    rewrite (bool_decide_eq_false_2 (thermoCalculationType X = REACDC)) by done.
    cbn [lift mbind Prog_bind bind isHydrogen isReacDC isH2OSolvent isH2Ovapor negb
         workSubstance].
    destruct (decide (substanceClass X = AQSOLVENT)) as [Hs|Hs].
    { rewrite (bool_decide_eq_true_2 _ Hs). cbn [negb andb orb].
      unfold mbind, Prog_bind, mret, Prog_ret. cbn [bind].
      eexists. intros solventSymbol. by rewrite convention_convert_Return. }
    rewrite (bool_decide_eq_false_2 _ Hs).
    destruct Hkind as [Hk|[[Hg Hp]|(Hg & Hg' & Hp)]]; [done| |].
    { rewrite Hg, Hp. cbn [negb andb orb].
      rewrite (bool_decide_eq_true_2 (CTPM_HKF = CTPM_HKF)) by done.
      rewrite (bool_decide_eq_true_2 (CPM_GAS = CPM_GAS)) by done. cbn [negb andb orb].
      unfold mbind, Prog_bind, mret, Prog_ret. cbn [bind].
      eexists. intros solventSymbol. by rewrite convention_convert_Return. }
    rewrite (bool_decide_eq_false_2 (methodGenEOS X = CTPM_HKF)) by done.
    cbn [negb andb orb]. unfold method_EOS_T_P.
    cbn [method_genEOS pref_method_T pref_method_P workSubstance].
    destruct (methodGenEOS X) eqn:HgE; try done;
      destruct (method_P X) eqn:HmP; try done;
      unfold mbind, Prog_bind, mret, Prog_ret; cbn [bind];
      eexists; intros solventSymbol; by rewrite convention_convert_Return. }
  exists v. intros solventSymbol st fuel Hst. split; [apply Hv|].
  apply (entry_point_Return database solventSymbol thermo_properties_substance
           fuel T P x v st Hst).
  apply Hv.
Qed.

(** X25.  And the other reactions do without it.  For a reaction in the
    store with a temperature code other than [CTM_DKR] and [CTM_MRB],
    [thermoPropertiesReaction] invokes no entry point: the reaction entry point
    returns one and the same result whatever the solvent symbol of the
    evaluator is, whether or not the store holds a solvent, in every state and
    with any fuel. *)
Theorem reaction_ignores_the_solvent (T P : num) (r : string) (reac : Reaction num) :
  reactions_map database !! r = Some reac ->
  reaction_method_T reac <> CTM_DKR ->
  reaction_method_T reac <> CTM_MRB ->
  exists v,
    forall (solventSymbol : string) (st : State) (fuel : nat),
      reachable database solventSymbol st ->
      thermoPropertiesReaction database solventSymbol T P r = Return v /\
      (entry_point database solventSymbol thermo_properties_reaction (S fuel) T P r st).1
      = Ok v.
Proof.
  intros Hr HDKR HMRB.
  assert (exists v, forall solventSymbol,
            thermoPropertiesReaction database solventSymbol T P r = Return v)
    as [v Hv].
  { unfold thermoPropertiesReaction.
    rewrite (getReaction_Some _ _ _ Hr). cbn [lift mbind Prog_bind bind].
    destruct (reaction_method_T reac) eqn:HmT; try done;
      eexists; intros solventSymbol; reflexivity. }
  exists v. intros solventSymbol st fuel Hst. split; [apply Hv|].
  apply (entry_point_Return database solventSymbol thermo_properties_reaction
           fuel T P r v st Hst).
  apply Hv.
Qed.

End SolventIndependence.


(* ===================================================================== *)
(** * Reaction properties from the reactants                              *)
(* ===================================================================== *)

Section Postconditions.
Context {num : Type} `{Scalar num} `{Models num}.
Variable database : Database num.
Variable solventSymbol : string.

Local Abbreviation runs := (run database solventSymbol).

Lemma returns_only_bind {A B} (Q1 : A -> Prop) (Q : B -> Prop)
    (p : Prog A) (f : A -> Prog B) :
  returns_only Q1 p -> (forall a, Q1 a -> returns_only Q (f a)) ->
  returns_only Q (bind p f).
Proof.
  intros Hp Hf. induction p as [a|e|k args cont IH]; simpl in *; [by apply Hf | done |].
  intros v. by apply IH.
Qed.

Lemma run_returns_only fuel {A} (Q : A -> Prop) (p : Prog A) st a :
  returns_only Q p -> (runs fuel p st).1 = Ok a -> Q a.
Proof.
  revert st. induction p as [a0|e|k args cont IH]; intros st Hp.
  - rewrite run_Return. simpl in *. by intros [= <-].
  - by rewrite run_Throw.
  - rewrite run_Invoke.
    destruct (memoize k _ args st) as [[v|e] st']; [|done].
    apply IH. apply Hp.
Qed.

End Postconditions.

Section FromReactantsFacts.
Context {num : Type} `{Scalar num} `{Models num}.
Variable database : Database num.
Variable solventSymbol : string.
Variables R_CONSTANT ln_to_lg : num.

Local Abbreviation body := (underlying database solventSymbol).
Local Abbreviation runs := (run database solventSymbol).
Local Abbreviation evals := (eval database solventSymbol).
Local Abbreviation reachable := (reachable database solventSymbol).
Local Abbreviation entry_point := (entry_point database solventSymbol).
Local Abbreviation from_reactants :=
  (thermoPropertiesReactionFromReactants database R_CONSTANT ln_to_lg).
Local Abbreviation step :=
  (fun T P (tpr : ThermoPropertiesReaction num) (reactant : string * num) =>
     tps ← call thermo_properties_substance T P P reactant.1;
     mret (tpr_add_scaled R_CONSTANT ln_to_lg T tpr tps reactant.2)).

(** X15.  [thermoPropertiesReactionFromReactants] on a symbol that the
    store holds no reaction for ends with the error that [getReaction]
    raises, before any substance is evaluated: the state of the evaluator is
    left as it was. *)
Theorem from_reactants_absent_reaction (st : State) (fuel : nat) (T P : num)
    (symbol : string) :
  reactions_map database !! symbol = None ->
  runs fuel (from_reactants T P symbol) st
  = (errorNonExistent "reaction" symbol 197, st).
Proof.
  intros Hr. unfold thermoPropertiesReactionFromReactants.
  rewrite (getReaction_None _ _ Hr). cbn [lift errorNonExistent mbind Prog_bind bind].
  apply run_Throw.
Qed.

Lemma returns_only_loop T P (l : list (string * num)) :
  forall acc,
  reaction_helmholtz_energy acc = zero ->
  reaction_internal_energy acc = zero ->
  reaction_heat_capacity_cv acc = zero ->
  returns_only
    (fun tpr =>
       reaction_helmholtz_energy tpr = zero /\
       reaction_internal_energy tpr = zero /\
       reaction_heat_capacity_cv tpr = zero /\
       match l with
       | [] => tpr = acc
       | _ :: _ =>
           ln_equilibrium_constant tpr
             = div (reaction_gibbs_energy tpr) (opp (mul R_CONSTANT T)) /\
           log_equilibrium_constant tpr = mul (ln_equilibrium_constant tpr) ln_to_lg
       end)
    (for_each l (step T P) acc).
Proof.
  induction l as [|reactant l IH]; intros acc HA HU HCv; [by simpl|].
  cbn [for_each].
  apply (returns_only_bind
           (fun tpr =>
              reaction_helmholtz_energy tpr = zero /\
              reaction_internal_energy tpr = zero /\
              reaction_heat_capacity_cv tpr = zero /\
              ln_equilibrium_constant tpr
                = div (reaction_gibbs_energy tpr) (opp (mul R_CONSTANT T)) /\
              log_equilibrium_constant tpr = mul (ln_equilibrium_constant tpr) ln_to_lg)).
  - intros tps. simpl. by rewrite HA, HU, HCv.
  - intros tpr (HA' & HU' & HCv' & Hln & Hlog).
    specialize (IH tpr HA' HU' HCv'). destruct l as [|reactant' l].
    + simpl in *. by rewrite HA', HU', HCv'.
    + exact IH.
Qed.

(** X16.  Whatever the store, the reaction and the state of the evaluator,
    a result of [thermoPropertiesReactionFromReactants] has the Helmholtz
    energy, the internal energy and the heat capacity at constant volume of a
    default-constructed object: the function never assigns them.  When the
    reaction has no reactants the whole result is the default-constructed one;
    otherwise its two equilibrium constants are those of its Gibbs energy,
    [G / -(R_CONSTANT * T)] and that times [ln_to_lg]. *)
Theorem from_reactants_untouched_fields (st : State) (fuel : nat) (T P : num)
    (symbol : string) (reaction : Reaction num) (tpr : ThermoPropertiesReaction num) :
  reactions_map database !! symbol = Some reaction ->
  (runs fuel (from_reactants T P symbol) st).1 = Ok tpr ->
  reaction_helmholtz_energy tpr = zero /\
  reaction_internal_energy tpr = zero /\
  reaction_heat_capacity_cv tpr = zero /\
  match reactants reaction with
  | [] => tpr = ThermoPropertiesReaction_new
  | _ :: _ =>
      ln_equilibrium_constant tpr
        = div (reaction_gibbs_energy tpr) (opp (mul R_CONSTANT T)) /\
      log_equilibrium_constant tpr = mul (ln_equilibrium_constant tpr) ln_to_lg
  end.
Proof.
  intros Hr Hrun. unfold thermoPropertiesReactionFromReactants in Hrun.
  rewrite (getReaction_Some _ _ _ Hr) in Hrun. cbn [lift mbind Prog_bind bind] in Hrun.
  pose proof (returns_only_loop T P (reactants reaction) tpr_before_loop
                eq_refl eq_refl eq_refl) as Hpost.
  exact (run_returns_only database solventSymbol fuel _ _ st tpr Hpost Hrun).
Qed.


Lemma eval_for_each_from_reactants fuel (T P : num) :
  forall (l : list (string * num)) (acc : ThermoPropertiesReaction num)
         (vs : list (ThermoPropertiesSubstance num)),
  Forall2 (fun reactant v =>
             evals fuel (body thermo_properties_substance (T, P, P, reactant.1)) = Ok v)
          l vs ->
  evals (S fuel) (for_each l (step T P) acc)
  = Ok (fold_left (fun tpr c => tpr_add_scaled R_CONSTANT ln_to_lg T tpr c.2 c.1)
          (zip l.*2 vs) acc).
Proof.
  induction l as [|[key c] l IH]; intros acc vs Hvs.
  - apply Forall2_nil_inv_l in Hvs as ->. simpl. apply eval_Return.
  - destruct vs as [|v vs]; [by apply Forall2_nil_inv_r in Hvs|].
    apply Forall2_cons_1 in Hvs as [Hv Hvs]. cbn [fst] in Hv.
    cbn [for_each]. rewrite eval_bind. cbn [fst snd].
    unfold call at 1. cbn [mbind Prog_bind bind].
    rewrite eval_Invoke, Hv. unfold mret, Prog_ret. rewrite eval_Return.
    by apply IH.
Qed.

Lemma eval_from_reactants fuel (T P : num) (symbol : string) (reaction : Reaction num)
    (vs : list (ThermoPropertiesSubstance num)) :
  reactions_map database !! symbol = Some reaction ->
  Forall2 (fun reactant v =>
             evals fuel (body thermo_properties_substance (T, P, P, reactant.1)) = Ok v)
          (reactants reaction) vs ->
  evals (S fuel) (from_reactants T P symbol)
  = Ok (fold_left (fun tpr c => tpr_add_scaled R_CONSTANT ln_to_lg T tpr c.2 c.1)
          (zip (reactants reaction).*2 vs) tpr_before_loop).
Proof.
  intros Hr Hvs. unfold thermoPropertiesReactionFromReactants.
  rewrite (getReaction_Some _ _ _ Hr). cbn [lift mbind Prog_bind bind].
  by apply eval_for_each_from_reactants.
Qed.

(** X17.  What [thermoPropertiesReactionFromReactants] returns, from the
    results of the substance entry point on the reactants: for a reaction in
    the store whose reactants all have results [vs], the function returns,
    given enough fuel and in every state of the evaluator, the object of
    before the loop with the contributions of the reactants added one after
    the other, in the order of the map. *)
Theorem from_reactants_value (st : State) (T P : num) (symbol : string)
    (reaction : Reaction num) (vs : list (ThermoPropertiesSubstance num)) :
  reachable st ->
  reactions_map database !! symbol = Some reaction ->
  Forall2 (fun reactant v => exists st_i fuel_i, reachable st_i /\
             (entry_point thermo_properties_substance fuel_i T P reactant.1 st_i).1 = Ok v)
          (reactants reaction) vs ->
  exists fuel0, forall fuel, (fuel0 <= fuel)%nat ->
    (runs fuel (from_reactants T P symbol) st).1 =
    Ok (fold_left (fun tpr c => tpr_add_scaled R_CONSTANT ln_to_lg T tpr c.2 c.1)
          (zip (reactants reaction).*2 vs) tpr_before_loop).
Proof.
  intros Hst Hr Hvs.
  destruct (entry_point_values_bound database solventSymbol _ _ _ _ Hvs) as [m Hm].
  exists (S m). intros fuel Hle.
  apply run_sound; [by apply reachable_consistent| |done].
  destruct fuel as [|fuel]; [lia|].
  apply eval_from_reactants; [done|]. apply Hm. lia.
Qed.

Lemma run_for_each_cached fuel (T P : num) :
  forall (l : list (string * num)) (acc : ThermoPropertiesReaction num) st r st',
  consistent database solventSymbol st ->
  runs fuel (for_each l (step T P) acc) st = (Ok r, st') ->
  consistent database solventSymbol st' /\
  Forall (fun reactant =>
            is_Some (cache_find thermo_properties_substance (T, P, P, reactant.1) st')) l.
Proof.
  induction l as [|[key c] l IH]; intros acc st r st' Hc.
  - simpl. rewrite run_Return. intros [= <- <-]. by split.
  - cbn [for_each]. rewrite run_bind. cbn [fst snd]. rewrite run_mbind.
    destruct (@run num _ _ database solventSymbol fuel (ThermoPropertiesSubstance num)
                (call thermo_properties_substance T P P key) st)
      as [[v|e] st1] eqn:Hcall; [|intros [=]].
    assert (entry_point thermo_properties_substance fuel T P key st = (Ok v, st1))
      as Hep by exact Hcall.
    pose proof (entry_point_cached database solventSymbol
                  thermo_properties_substance fuel T P key st v) as Hcached.
    pose proof (run_sound database solventSymbol fuel
                  (call thermo_properties_substance T P P key) st Hc) as (Hc1 & _).
    change (run database solventSymbol fuel
              (call thermo_properties_substance T P P key) st)
      with (entry_point thermo_properties_substance fuel T P key st) in Hc1.
    rewrite Hep in Hcached, Hc1. cbn [fst snd] in Hcached, Hc1.
    unfold mret, Prog_ret. rewrite run_Return. intros Hrest.
    destruct (IH _ _ _ _ Hc1 Hrest) as [Hc' Hall]. split; [done|].
    constructor; [|done]. cbn [fst].
    match type of Hrest with
    | run _ _ _ ?p _ = _ =>
        destruct (run_sound database solventSymbol fuel p st1 Hc1) as (_ & Hext & _ & _)
    end.
    rewrite Hrest in Hext. exists v. apply Hext. by apply Hcached.
Qed.

(** X18.  [thermoPropertiesReactionFromReactants] returns a result only when
    the store holds the reaction and, under the key of every reactant, a
    substance; and when it has returned, the properties of every reactant are
    in the cache of the substance entry point. *)
Theorem from_reactants_needs_the_reactants (st : State) (fuel : nat) (T P : num)
    (symbol : string) (tpr : ThermoPropertiesReaction num) :
  reachable st ->
  (runs fuel (from_reactants T P symbol) st).1 = Ok tpr ->
  exists reaction,
    getReaction database symbol = Ok reaction /\
    Forall (fun reactant =>
              (exists s, getSubstance database reactant.1 = Ok s) /\
              is_Some (cache_find thermo_properties_substance (T, P, P, reactant.1)
                         (runs fuel (from_reactants T P symbol) st).2))
           (reactants reaction).
Proof.
  intros Hst Hrun. unfold thermoPropertiesReactionFromReactants in *.
  destruct (getReaction database symbol) as [reaction|e] eqn:Hr;
    cbn [lift mbind Prog_bind bind] in *; [|by rewrite run_Throw in Hrun].
  exists reaction. split; [done|].
  destruct (runs fuel (for_each (reactants reaction) _ tpr_before_loop) st)
    as [r st'] eqn:Hloop.
  cbn [fst snd] in *. subst r.
  destruct (run_for_each_cached fuel T P _ _ _ _ _ (reachable_consistent _ _ _ Hst) Hloop)
    as [Hc' Hall].
  apply (Forall_impl _ _ _ Hall). intros [key c] [v Hv]. cbn [fst] in *.
  split; [|by exists v].
  destruct (Hc' _ _ _ Hv) as [n Hn]. simpl in Hn.
  destruct (substances_map database !! key) as [s|] eqn:Hkey.
  - exists s. by apply getSubstance_Some.
  - rewrite (thermoPropertiesSubstance_None _ _ _ _ _ Hkey) in Hn.
    unfold errorNonExistent in Hn. simpl in Hn. rewrite eval_Throw in Hn. discriminate.
Qed.

Lemma run_for_each_hits fuel (T P : num) :
  forall (l : list (string * num)) (acc : ThermoPropertiesReaction num) st,
  Forall (fun reactant =>
            is_Some (cache_find thermo_properties_substance (T, P, P, reactant.1) st)) l ->
  exists r, runs fuel (for_each l (step T P) acc) st = (Ok r, st).
Proof.
  induction l as [|[key c] l IH]; intros acc st Hall.
  - exists acc. simpl. apply run_Return.
  - apply Forall_cons in Hall as [[v Hv] Hall]. cbn [fst] in Hv.
    cbn [for_each]. rewrite run_bind. cbn [fst snd]. rewrite run_mbind.
    pose proof (entry_point_hit database solventSymbol
                  thermo_properties_substance fuel T P key st v Hv) as Hhit.
    change (@run num _ _ database solventSymbol fuel (ThermoPropertiesSubstance num)
              (call thermo_properties_substance T P P key) st = (Ok v, st)) in Hhit.
    rewrite Hhit. unfold mret, Prog_ret. rewrite run_Return. by apply IH.
Qed.

(** X26.  [thermoPropertiesReactionFromReactants] is not memoized, but its
    reactants are: once it has returned a result, a second call with the same
    arguments returns the same result and leaves the state of the evaluator as
    it is, with any fuel: every reactant is answered from the cache. *)
Theorem from_reactants_repeated (st : State) (fuel fuel' : nat) (T P : num)
    (symbol : string) (tpr : ThermoPropertiesReaction num) :
  reachable st ->
  (runs fuel (from_reactants T P symbol) st).1 = Ok tpr ->
  runs fuel' (from_reactants T P symbol) (runs fuel (from_reactants T P symbol) st).2
  = (Ok tpr, (runs fuel (from_reactants T P symbol) st).2).
Proof.
  intros Hst Hrun.
  pose proof (reachable_consistent _ _ _ Hst) as Hc.
  destruct (run_sound database solventSymbol fuel (from_reactants T P symbol) st Hc)
    as (Hc' & _ & Hfwd & _).
  destruct Hfwd as [n Hn]; [by rewrite Hrun|]. rewrite Hrun in Hn.
  destruct (run_sound database solventSymbol fuel' (from_reactants T P symbol)
              (runs fuel (from_reactants T P symbol) st).2 Hc') as (_ & _ & Hfwd' & _).
  assert (exists r, runs fuel' (from_reactants T P symbol)
                      (runs fuel (from_reactants T P symbol) st).2
                    = (Ok r, (runs fuel (from_reactants T P symbol) st).2)) as [r Hr].
  { unfold thermoPropertiesReactionFromReactants in *.
    destruct (getReaction database symbol) as [reaction|e] eqn:Hreac;
      cbn [lift mbind Prog_bind bind] in *; [|by rewrite run_Throw in Hrun].
    destruct (runs fuel (for_each (reactants reaction) _ tpr_before_loop) st)
      as [r0 st'] eqn:Hloop.
    cbn [fst snd] in *. subst r0.
    destruct (run_for_each_cached fuel T P _ _ _ _ _ Hc Hloop) as [_ Hall].
    by apply run_for_each_hits. }
  rewrite Hr in Hfwd' |- *. destruct Hfwd' as [n' Hn']; [done|].
  f_equal. cbn [fst] in Hn'. symmetry.
  by eapply (eval_det database solventSymbol _ n n').
Qed.

End FromReactantsFacts.


(* ===================================================================== *)
(** * Reaction-derived substances: what they depend on                    *)
(* ===================================================================== *)

Section Dependencies.
Context {num : Type} `{Scalar num} `{Models num}.
Variable database : Database num.
Variable solventSymbol : string.

Local Abbreviation body := (underlying database solventSymbol).
Local Abbreviation runs := (run database solventSymbol).
Local Abbreviation evals := (eval database solventSymbol).
Local Abbreviation reachable := (reachable database solventSymbol).
Local Abbreviation entry_point := (entry_point database solventSymbol).
Local Abbreviation reacDC_step :=
  (fun (T P : num) (sym : string) (tps : ThermoPropertiesSubstance num)
       (reactant : string * num) =>
     if negb (bool_decide (reactant.1 = sym)) then
       reacTps ← call thermo_properties_substance T P P reactant.1;
       mret (tps_sub_scaled tps reacTps reactant.2)
     else mret tps).

(** When the loop of [reacDCthermoProperties] returns, every reactant it did
    not skip has a value. *)
Lemma eval_for_each_reactants_Ok fuel (T P : num) (sym : string) :
  forall (l : list (string * num)) (acc r : ThermoPropertiesSubstance num),
  evals (S fuel) (for_each l (reacDC_step T P sym) acc) = Ok r ->
  Forall (fun reactant =>
            exists v, evals fuel (body thermo_properties_substance (T, P, P, reactant.1))
                      = Ok v)
         (filter (fun reactant => reactant.1 <> sym) l).
Proof.
  induction l as [|[key c] l IH]; intros acc r; [constructor|].
  cbn [for_each]. rewrite eval_bind, filter_cons. cbn [fst snd].
  destruct (decide (key <> sym)) as [Hne|Heq%dec_stable].
  - rewrite bool_decide_eq_false_2 by done. cbn [negb].
    rewrite eval_mbind. unfold call. rewrite eval_Invoke.
    destruct (evals fuel (body thermo_properties_substance (T, P, P, key)))
      as [v|e] eqn:Hv; [|done].
    unfold mret, Prog_ret. rewrite !eval_Return. intros Hrest.
    constructor; [by exists v | by eapply IH].
  - rewrite bool_decide_eq_true_2 by done. cbn [negb].
    unfold mret, Prog_ret. rewrite eval_Return. by apply IH.
Qed.

Lemma eval_reacDCthermoProperties_Ok fuel (T P : num) (X : Substance num)
    (v : ThermoPropertiesSubstance num) :
  evals fuel (reacDCthermoProperties database T P X) = Ok v ->
  exists R fuel',
    fuel = S fuel' /\
    reactionSymbol X <> "" /\
    reactions_map database !! reactionSymbol X = Some R /\
    (exists tpr, evals fuel' (body thermo_properties_reaction (T, P, P, reactionSymbol X))
                 = Ok tpr) /\
    Forall (fun reactant =>
              exists w, evals fuel' (body thermo_properties_substance (T, P, P, reactant.1))
                        = Ok w)
           (other_reactants X R).
Proof.
  unfold reacDCthermoProperties.
  destruct (decide (reactionSymbol X = "")) as [Hrs|Hrs].
  { rewrite bool_decide_eq_true_2 by done. cbn [negb]. by rewrite eval_Throw. }
  rewrite bool_decide_eq_false_2 by done. cbn [negb].
  destruct (reactions_map database !! reactionSymbol X) as [R|] eqn:HR.
  2: { rewrite (getReaction_None _ _ HR). unfold errorNonExistent.
       cbn [lift mbind Prog_bind bind]. by rewrite eval_Throw. }
  rewrite (getReaction_Some _ _ _ HR). cbn [lift mbind Prog_bind bind].
  rewrite eval_mbind. unfold call at 1. rewrite eval_Invoke.
  destruct fuel as [|fuel']; [done|].
  destruct (evals fuel' (body thermo_properties_reaction (T, P, P, reactionSymbol X)))
    as [tpr|e] eqn:Htpr; [|done].
  rewrite eval_Return, eval_mbind.
  match goal with
  | |- match ?e with _ => _ end = _ -> _ => destruct e as [r|e'] eqn:Hloop; [|done]
  end.
  intros _. exists R, fuel'. split_and!; [done|done|done|by exists tpr|].
  exact (eval_for_each_reactants_Ok fuel' T P (symbol X) (reactants R) _ r Hloop).
Qed.

(** X19.  A reaction-derived substance has a result only when its reaction
    and the other reactants have one: when the substance entry point returns
    a result for a reaction-derived substance [X], not named "H+", then the
    reaction symbol of [X] is not empty, the store holds the reaction, the
    reaction entry point has a value for it, and every key of its reactant map
    other than the symbol of [X] is the key of a substance in the store for
    which the substance entry point has a value. *)
Theorem reaction_derived_needs_the_reactants (st : State) (fuel : nat) (T P : num)
    (x : string) (X : Substance num) (v : ThermoPropertiesSubstance num) :
  reachable st ->
  substances_map database !! x = Some X ->
  name X <> "H+" ->
  thermoCalculationType X = REACDC ->
  (entry_point thermo_properties_substance fuel T P x st).1 = Ok v ->
  exists R,
    reactionSymbol X <> "" /\
    getReaction database (reactionSymbol X) = Ok R /\
    (exists tpr, value database solventSymbol thermo_properties_reaction
                   (T, P, P, reactionSymbol X) tpr) /\
    Forall (fun reactant =>
              (exists s, getSubstance database reactant.1 = Ok s) /\
              exists w, value database solventSymbol thermo_properties_substance
                          (T, P, P, reactant.1) w)
           (other_reactants X R).
Proof.
  intros Hst HX Hname Hcalc Hv.
  destruct (entry_point_value database solventSymbol _ _ _ _ _ _ _
              (reachable_consistent _ _ _ Hst) Hv ltac:(done)) as [n Hn].
  simpl in Hn. rewrite (thermoPropertiesSubstance_reacDC _ _ _ _ _ _ HX Hname Hcalc) in Hn.
  destruct (eval_reacDCthermoProperties_Ok _ _ _ _ _ Hn)
    as (R & n' & -> & Hrs & HR & [tpr Htpr] & Hall).
  exists R. split_and!; [done|by apply getReaction_Some|by exists tpr, n'|].
  apply (Forall_impl _ _ _ Hall). intros [key c] [w Hw]. cbn [fst] in *.
  split; [|by exists w, n'].
  destruct (substances_map database !! key) as [s|] eqn:Hkey.
  - exists s. by apply getSubstance_Some.
  - simpl in Hw. rewrite (thermoPropertiesSubstance_None _ _ _ _ _ Hkey) in Hw.
    unfold errorNonExistent in Hw. simpl in Hw. rewrite eval_Throw in Hw. discriminate.
Qed.

(** X20.  Definitions that go round in a circle never give a result.  Let
    [cyclic] be a set of keys such that each of them is, in the store, a
    reaction-derived substance, not named "H+", whose reaction lists under a
    key other than the substance's own symbol a member of the set.  Then for
    every member the substance entry point ends without a value, whatever the
    fuel, [T], [P] and the state of the evaluator: with an error of the store
    or of a reactant, or else with the exhaustion of the fuel, which stands
    for a recursion without end, each substance waiting for another of the
    set. *)
Theorem cyclic_definitions_have_no_result (cyclic : string -> Prop) (st : State)
    (fuel : nat) (T P : num) (x : string) :
  (forall y, cyclic y ->
     exists Y R z,
       substances_map database !! y = Some Y /\
       name Y <> "H+" /\
       thermoCalculationType Y = REACDC /\
       reactions_map database !! reactionSymbol Y = Some R /\
       z ∈ (other_reactants Y R).*1 /\
       cyclic z) ->
  cyclic x ->
  reachable st ->
  exists e, (entry_point thermo_properties_substance fuel T P x st).1 = Err e.
Proof.
  intros Hcyc Hx Hst.
  assert (forall n y, cyclic y ->
            forall v, evals n (body thermo_properties_substance (T, P, P, y)) <> Ok v)
    as Hno.
  { induction n as [n IH] using lt_wf_ind. intros y Hy v Hv.
    destruct (Hcyc y Hy) as (Y & R & z & HY & Hname & Hcalc & HR & Hz & Hcz).
    simpl in Hv. rewrite (thermoPropertiesSubstance_reacDC _ _ _ _ _ _ HY Hname Hcalc) in Hv.
    destruct (eval_reacDCthermoProperties_Ok _ _ _ _ _ Hv)
      as (R' & n' & -> & _ & HR' & _ & Hall).
    assert (R' = R) as -> by congruence.
    apply list_elem_of_fmap in Hz as ([z' c] & -> & Hin).
    destruct (proj1 (Forall_forall _ _) Hall _ Hin) as [w Hw].
    by apply (IH n' ltac:(lia) _ Hcz w). }
  destruct (entry_point thermo_properties_substance fuel T P x st).1 as [v|e] eqn:Hv;
    [|by exists e].
  destruct (entry_point_value database solventSymbol _ _ _ _ _ _ _
              (reachable_consistent _ _ _ Hst) Hv ltac:(done)) as [n Hn].
  by apply Hno in Hn.
Qed.

End Dependencies.


(* ===================================================================== *)
(** * Reaction properties from the reactants, and back                    *)
(* ===================================================================== *)

Section ExactSums.
Context {num : Type} `{ExactField num}.

Lemma fold_left_sub (ts : list num) (a : num) :
  fold_left sub ts a = sub a (foldr add zero ts).
Proof.
  revert a. induction ts as [|t ts IH]; intros a; simpl.
  - by rewrite exact_sub_zero_r.
  - by rewrite IH, exact_sub_sub.
Qed.

Lemma fold_left_add (ts : list num) (a : num) :
  fold_left add ts a = add a (foldr add zero ts).
Proof.
  revert a. induction ts as [|t ts IH]; intros a; simpl.
  - by rewrite exact_add_zero_r.
  - by rewrite IH, exact_add_assoc.
Qed.

Lemma foldr_add_middle (ts1 ts2 : list num) (u : num) :
  foldr add zero (ts1 ++ u :: ts2)%list = add u (foldr add zero (ts1 ++ ts2)%list).
Proof.
  induction ts1 as [|t ts1 IH]; simpl; [done|].
  rewrite IH, <- !exact_add_assoc. f_equal. apply exact_add_comm.
Qed.

(** The sum of the terms, with the term of the substance itself, is what the
    substance was computed from. *)
Lemma sum_with_own_term (ts1 ts2 : list num) (g0 c : num) :
  c <> zero ->
  fold_left add (ts1 ++ mul (div (fold_left sub (ts1 ++ ts2)%list g0) c) c :: ts2)%list zero
  = g0.
Proof.
  intros Hc.
  rewrite fold_left_add, foldr_add_middle, exact_add_zero_l.
  rewrite (exact_div_mul_cancel _ _ Hc), fold_left_sub.
  apply exact_sub_add_cancel.
Qed.

End ExactSums.

Lemma proj_fold_left {num S E} (pr : S -> num) (step : S -> E -> S) (term : E -> num)
    (op : num -> num -> num) :
  (forall s e, pr (step s e) = op (pr s) (term e)) ->
  forall l s, pr (fold_left step l s) = fold_left op (term <$> l) (pr s).
Proof.
  intros Hstep. induction l as [|e l IH]; intros s; simpl; [done|].
  by rewrite IH, Hstep.
Qed.

(** The first entry under a key. *)
Lemma StdMap_find_split {V} (k : string) (v : V) (m : list (string * V)) :
  StdMap.find k m = Some v ->
  exists l1 l2, m = (l1 ++ (k, v) :: l2)%list /\ k ∉ l1.*1.
Proof.
  induction m as [|[k' v'] m IH]; simpl; [done|].
  case_decide as Hk.
  - intros [= ->]. subst k'. exists [], m. split; [done|]. simpl. apply not_elem_of_nil.
  - intros Hfind. destruct (IH Hfind) as (l1 & l2 & -> & Hnotin).
    exists ((k', v') :: l1), l2. split; [done|]. simpl.
    rewrite not_elem_of_cons. split; [congruence | done].
Qed.

Lemma filter_key_ne_all {V} (k : string) (l : list (string * V)) :
  k ∉ l.*1 -> filter (fun entry => entry.1 <> k) l = l.
Proof.
  induction l as [|[k' v'] l IH]; simpl; [done|].
  rewrite not_elem_of_cons. intros [Hne Hnotin].
  rewrite filter_cons. simpl. rewrite decide_True by congruence. by rewrite IH.
Qed.

Section RoundTrip.
Context {num : Type} `{Scalar num} `{Models num}.
Variable database : Database num.
Variable solventSymbol : string.
Variables R_CONSTANT ln_to_lg : num.

Local Abbreviation body := (underlying database solventSymbol).
Local Abbreviation runs := (run database solventSymbol).
Local Abbreviation evals := (eval database solventSymbol).
Local Abbreviation reachable := (reachable database solventSymbol).
Local Abbreviation entry_point := (entry_point database solventSymbol).
Local Abbreviation from_reactants :=
  (thermoPropertiesReactionFromReactants database R_CONSTANT ln_to_lg).

(** One field of the reaction, accumulated from the reactants when one of
    them was computed from the reaction. *)
Lemma field_round_trip `{!ExactField num}
    (pr : ThermoPropertiesReaction num -> num)
    (ps : ThermoPropertiesSubstance num -> num) (T : num) :
  (forall tpr tps c,
     pr (tpr_add_scaled R_CONSTANT ln_to_lg T tpr tps c) = add (pr tpr) (mul (ps tps) c)) ->
  (forall t r c, ps (tps_sub_scaled t r c) = sub (ps t) (mul (ps r) c)) ->
  (forall t d, ps (tps_div t d) = div (ps t) d) ->
  (forall tpr, ps (tps_of_reaction tpr) = pr tpr) ->
  pr tpr_before_loop = zero ->
  forall (cs1 cs2 : list (num * ThermoPropertiesSubstance num)) (c : num)
         (tpr : ThermoPropertiesReaction num),
  c <> zero ->
  pr (fold_left (fun a e => tpr_add_scaled R_CONSTANT ln_to_lg T a e.2 e.1)
        (cs1 ++ (c, tps_div (numerator tpr (cs1 ++ cs2)) c) :: cs2)%list tpr_before_loop)
  = pr tpr.
Proof.
  intros Hadd Hsub Hdiv Hof Hzero cs1 cs2 c tpr Hc.
  rewrite (proj_fold_left pr _ (fun e => mul (ps e.2) e.1) add) by (intros; apply Hadd).
  rewrite fmap_app, fmap_cons. cbn [fst snd]. rewrite Hdiv, Hzero.
  unfold numerator.
  rewrite (proj_fold_left ps _ (fun e => mul (ps e.2) e.1) sub) by (intros; apply Hsub).
  rewrite Hof, fmap_app. by apply sum_with_own_term.
Qed.

(** X21.  In exact arithmetic the two ways round agree.  Let [X] be a
    reaction-derived substance, not named "H+" and filed under its symbol,
    whose reaction [R] is in the store and lists [X] once, with a coefficient
    other than zero.  If the reaction entry point returns [tpr] for [R] and
    the substance entry point has results for the other reactants, then
    [thermoPropertiesReactionFromReactants] on [R], which takes the
    properties of [X] from [reacDCthermoProperties], returns with enough fuel
    a result whose Gibbs energy, enthalpy, entropy, heat capacity and volume
    are those of [tpr]. *)
Theorem from_reactants_round_trip `{!ExactField num} (st st_r : State) (fuel_r : nat)
    (T P : num) (X : Substance num) (R : Reaction num) (c : num)
    (tpr : ThermoPropertiesReaction num) (vs : list (ThermoPropertiesSubstance num)) :
  reachable st -> reachable st_r ->
  substances_map database !! symbol X = Some X ->
  name X <> "H+" ->
  thermoCalculationType X = REACDC ->
  reactionSymbol X <> "" ->
  reactions_map database !! reactionSymbol X = Some R ->
  NoDup (reactants R).*1 ->
  StdMap.find (symbol X) (reactants R) = Some c ->
  c <> zero ->
  (entry_point thermo_properties_reaction fuel_r T P (reactionSymbol X) st_r).1 = Ok tpr ->
  Forall2 (fun reactant v => exists st_i fuel_i, reachable st_i /\
             (entry_point thermo_properties_substance fuel_i T P reactant.1 st_i).1 = Ok v)
          (other_reactants X R) vs ->
  exists fuel0, forall fuel, (fuel0 <= fuel)%nat ->
    exists tpr',
      (runs fuel (from_reactants T P (reactionSymbol X)) st).1 = Ok tpr' /\
      reaction_gibbs_energy tpr' = reaction_gibbs_energy tpr /\
      reaction_enthalpy tpr' = reaction_enthalpy tpr /\
      reaction_entropy tpr' = reaction_entropy tpr /\
      reaction_heat_capacity_cp tpr' = reaction_heat_capacity_cp tpr /\
      reaction_volume tpr' = reaction_volume tpr.
Proof.
  intros Hst Hst_r HX Hname Hcalc Hrs HR Hnd Hfind Hc Htpr Hvs.
  destruct (StdMap_find_split _ _ _ Hfind) as (l1 & l2 & Hl & Hnotin1).
  assert (symbol X ∉ l2.*1) as Hnotin2.
  { rewrite Hl, fmap_app, fmap_cons in Hnd. cbn [fst] in Hnd.
    apply NoDup_app in Hnd as (_ & _ & Hnd). by apply NoDup_cons in Hnd as [? _]. }
  assert (other_reactants X R = (l1 ++ l2)%list) as Hothers.
  { unfold other_reactants. rewrite Hl, filter_app, filter_cons. cbn [fst].
    rewrite decide_False by (intros Hne; by apply Hne).
    by rewrite !filter_key_ne_all. }
  assert (StdMap.index zero (symbol X) (reactants R) = c) as Hindex
    by (unfold StdMap.index; by rewrite Hfind).
  destruct (entry_point_value database solventSymbol _ _ _ _ _ _ _
              (reachable_consistent _ _ _ Hst_r) Htpr ltac:(done)) as [n Hn].
  destruct (entry_point_values_bound database solventSymbol _ _ _ _ Hvs) as [m Hm].
  set (N := (n `max` m)%nat).
  assert (evals (S N) (body thermo_properties_substance (T, P, P, symbol X))
          = Ok (tps_div (numerator tpr (zip (other_reactants X R).*2 vs)) c)) as Hvx.
  { simpl. rewrite (thermoPropertiesSubstance_reacDC _ _ _ _ _ _ HX Hname Hcalc).
    rewrite <- Hindex. apply eval_reacDCthermoProperties; [done|done| |].
    - apply (eval_mono _ _ _ _ _ Hn); [done|lia].
    - apply Hm. lia. }
  pose proof (Hm (S N) ltac:(lia)) as Hvs'. rewrite Hothers in Hvs', Hvx.
  apply Forall2_app_inv_l in Hvs' as (vs1 & vs2 & Hvs1 & Hvs2 & ->).
  assert (length l1.*2 = length vs1) as Hlen
    by (rewrite length_fmap; by eapply Forall2_length).
  rewrite fmap_app, zip_with_app in Hvx by done.
  exists (S (S N)). intros fuel Hle.
  eexists. split.
  - apply run_sound; [by apply reachable_consistent| |done].
    apply (eval_mono database solventSymbol (S (S N))); [|done|lia].
    apply (eval_from_reactants _ _ _ _ _ _ _ _ R
             (vs1 ++ tps_div (numerator tpr (zip l1.*2 vs1 ++ zip l2.*2 vs2)) c :: vs2)%list);
      [done|].
    rewrite Hl. apply Forall2_app; [done|]. by constructor.
  - rewrite Hl, fmap_app, fmap_cons, zip_with_app by done. cbn [snd zip_with].
    split_and!.
    + by apply (field_round_trip reaction_gibbs_energy gibbs_energy T).
    + by apply (field_round_trip reaction_enthalpy enthalpy T).
    + by apply (field_round_trip reaction_entropy entropy T).
    + by apply (field_round_trip reaction_heat_capacity_cp heat_capacity_cp T).
    + by apply (field_round_trip reaction_volume volume T).
Qed.

End RoundTrip.


(* ===================================================================== *)
(** * The solvent symbol and the caches                                   *)
(* ===================================================================== *)

Section SolventSymbol.
Context {num : Type} `{Scalar num} `{Models num}.

(** X22.  [setSolventSymbol] changes the solvent symbol and nothing else:
    the caches stay.  A result that one of the four functions of the engine
    has returned is returned again for the same [T], [P] and symbol after the
    solvent symbol was set to any other one, from the cache, whether or not
    it was computed with the solvent. *)
Theorem setSolventSymbol_keeps_the_caches (engine : ThermoEngine) (k : Kind)
    (fuel fuel' : nat) (T P : num) (symbol solvent_symbol : string) (v : Ret k) :
  (ThermoEngine_call k fuel T P symbol engine).1 = Ok v ->
  pimpl_solventSymbol
    (setSolventSymbol solvent_symbol (ThermoEngine_call k fuel T P symbol engine).2)
  = solvent_symbol /\
  ThermoEngine_call k fuel' T P symbol
    (setSolventSymbol solvent_symbol (ThermoEngine_call k fuel T P symbol engine).2)
  = (Ok v, setSolventSymbol solvent_symbol (ThermoEngine_call k fuel T P symbol engine).2).
Proof.
  intros Hv. split; [reflexivity|].
  unfold ThermoEngine_call in *. cbn [fst snd] in *.
  unfold setSolventSymbol.
  cbn [pimpl_database pimpl_solventSymbol pimpl_state].
  apply entry_point_cached in Hv.
  by rewrite (entry_point_hit _ solvent_symbol _ fuel' _ _ _ _ _ Hv).
Qed.

End SolventSymbol.


(* ===================================================================== *)
(** * Closed instances on the sample stores                              *)
(* ===================================================================== *)

(** X3 on the sample records. *)
Lemma add_order_irrelevant_witness :
  addSubstance (@Sample.A Q _) (addSubstance Sample.B Database_new)
    = addSubstance Sample.B (addSubstance Sample.A Database_new) /\
  addReaction (@Sample.R Q _) (addReaction Sample.R_MRB Database_new)
    = addReaction Sample.R_MRB (addReaction Sample.R Database_new) /\
  addSubstance (@Sample.A Q _) (addReaction Sample.R Database_new)
    = addReaction Sample.R (addSubstance Sample.A Database_new).
Proof.
  apply (add_order_irrelevant Database_new Sample.A Sample.B Sample.R Sample.R_MRB);
    discriminate.
Defined.

(** X2 on a store that holds the record named "Quartz": a second record of
    that name is not taken, and the lookup returns the first. *)
Lemma stored_records_persist_witness :
  getSubstance
    (addSubstance (Sample.substance "Quartz" "Qtz2" CTPM_CPT (CTM_other 0) CPM_CON 300)
       (addSubstance (@Sample.quartz Q _) Database_new)) "Quartz"
    = Ok Sample.quartz /\
  addSubstance (Sample.substance "Quartz" "Qtz2" CTPM_CPT (CTM_other 0) CPM_CON 300)
    (addSubstance (@Sample.quartz Q _) Database_new)
    = addSubstance Sample.quartz Database_new.
Proof.
  destruct (stored_records_persist (addSubstance (@Sample.quartz Q _) Database_new)
              (Sample.substance "Quartz" "Qtz2" CTPM_CPT (CTM_other 0) CPM_CON 300)
              Sample.R) as (Hget & _ & Hsame & _).
  split.
  - apply (Hget "Quartz" Sample.quartz). reflexivity.
  - apply Hsame. reflexivity.
Defined.

(** X5 on a store that holds one substance and no reaction, and on the
    sample store. *)
Lemma built_store_files_by_name_witness :
  (forall (n : string) (s : Substance Q),
     getSubstance Sample2.database_dry n = Ok s -> name s = n) /\
  (forall (n : string) (r : Reaction Q),
     getReaction Sample.database n = Ok r -> reaction_name r = n).
Proof.
  split.
  - apply (built_store_files_by_name Sample2.database_dry).
    apply built_addSubstance, built_new.
  - apply (built_store_files_by_name Sample.database).
    apply Sample_database_built.
Defined.

(** X7 on the sample store. *)
Lemma listing_sorted_by_name_witness :
  (StronglySorted (fun a b => String.ltb (name a) (name b) = true)
     (getSubstances (@Sample.database Q _)) /\
   Forall (fun s => getSubstance Sample.database (name s) = Ok s)
     (getSubstances (@Sample.database Q _))) /\
  (StronglySorted (fun a b => String.ltb (reaction_name a) (reaction_name b) = true)
     (getReactions (@Sample.database Q _)) /\
   Forall (fun r => getReaction Sample.database (reaction_name r) = Ok r)
     (getReactions (@Sample.database Q _))).
Proof.
  apply (listing_sorted_by_name Sample.database). apply Sample_database_built.
Defined.

(** X9 on two records, written to a file that does not exist yet. *)
Lemma export_all_below_4GiB_witness :
  files (export_all Sample2.digit "steam.csv" [Sample2.wt_all 1; Sample2.wt_all 2]
           (all_writable ∅)) !! "steam.csv"
  = Some (("" +:+ "T,P,Cp,Cv,RHO,H,S,G,A,U,V" +:+ endl)
          +:+ "1,1,1,1,1,1,1,1,1,1,1" +:+ endl
          +:+ "2,2,2,2,2,2,2,2,2,2,2" +:+ endl).
Proof.
  refine (export_all_below_4GiB Sample2.digit "steam.csv" _ [_] (all_writable ∅) _ _).
  - reflexivity.
  - vm_compute. reflexivity.
Defined.

(** X10 on the sample store: [Z_empty] names no reaction. *)
Lemma reaction_symbol_empty_raises_witness :
  entry_point (H0 := Sample.models) (@Sample2.database Q _) "H2O@"
    thermo_properties_substance 1 3%Q 2%Q "Z_empty" State_new
  = (Err (ReactionNotDefined "Z_empty" 566), State_new).
Proof.
  refine (reaction_symbol_empty_raises (H0 := Sample.models) Sample2.database "H2O@"
            State_new 0 3%Q 2%Q "Z_empty" Sample2.Z_empty _ _ _ _ _).
  - apply reachable_new.
  - reflexivity.
  - discriminate.
  - reflexivity.
  - reflexivity.
Defined.

(** X11 on the sample store: the reaction of [Z_missing] is not there. *)
Lemma reaction_missing_raises_witness :
  entry_point (H0 := Sample.models) (@Sample2.database Q _) "H2O@"
    thermo_properties_substance 1 3%Q 2%Q "Z_missing" State_new
  = (errorNonExistent "reaction" "R_none" 197, State_new).
Proof.
  refine (reaction_missing_raises (H0 := Sample.models) Sample2.database "H2O@"
            State_new 0 3%Q 2%Q "Z_missing" Sample2.Z_missing _ _ _ _ _ _).
  - apply reachable_new.
  - reflexivity.
  - discriminate.
  - reflexivity.
  - discriminate.
  - reflexivity.
Defined.

(** X12 on the sample store.  The evaluator has computed the HKF solute [B]
    at T = 3, and its solvent symbol was then set to "Xe@", which the store
    does not hold: [B] at T = 4 is not in the cache. *)
Lemma solute_needs_the_solvent_witness :
  let engine :=
    setSolventSymbol "Xe@"
      (ThermoEngine_call (H0 := Sample.models) thermo_properties_substance
         5 3%Q 2%Q "B" (ThermoEngine_new Sample2.database)).2 in
  ThermoEngine_call (H0 := Sample.models) thermo_properties_substance 2 4%Q 2%Q "B" engine
  = (errorNonExistent "substance" "Xe@" 189, engine).
Proof.
  refine (solute_needs_the_solvent (H0 := Sample.models) Sample2.database
            _ 0 4%Q 2%Q "B" Sample.B _ _ _ _ _ _ _ _).
  - apply engine_setSolventSymbol, engine_call, engine_new.
  - reflexivity.
  - discriminate.
  - discriminate.
  - discriminate.
  - right. left. split; [reflexivity | discriminate].
  - reflexivity.
  - vm_compute. reflexivity.
Defined.

(** X13 on the sample store: [A] is not a solvent. *)
Lemma non_solvent_gets_defaults_witness :
  (entry_point (H0 := Sample.models) (@Sample.database Q _) "H2O@"
     properties_solvent 1 3%Q 2%Q "A" State_new).1
    = Ok (PropertiesSolvent_new (Models := Sample.models)) /\
  (entry_point (H0 := Sample.models) (@Sample.database Q _) "H2O@"
     electro_properties_solvent 2 3%Q 2%Q "A" State_new).1
    = Ok (ElectroPropertiesSolvent_new (Models := Sample.models)).
Proof.
  refine (non_solvent_gets_defaults (H0 := Sample.models) Sample.database "H2O@"
            State_new 0 3%Q 2%Q "A" Sample.A _ _ _).
  - apply reachable_new.
  - reflexivity.
  - discriminate.
Defined.

(** X14 on the sample store: [R_DKR] has the Marshall-Franck temperature
    model and the pressure code [CPM_VKE]. *)
Lemma volume_correction_replaces_result_witness :
  (entry_point (H0 := Sample.models) (@Sample.database Q _) "H2O@"
     thermo_properties_reaction 2 3%Q 2%Q "R_DKR" State_new).1
  = Ok (Reaction_Vol_fT (Models := Sample.models) Sample.R_DKR 3%Q 2%Q).
Proof.
  refine (volume_correction_replaces_result (H0 := Sample.models) Sample.database "H2O@"
            State_new 0 3%Q 2%Q "R_DKR" Sample.R_DKR _ _ _ _ _).
  - apply reachable_new.
  - reflexivity.
  - by left.
  - discriminate.
  - intros _. by eexists.
Defined.

(** X15 on the sample store, which holds no reaction "Qtz". *)
Lemma from_reactants_absent_reaction_witness :
  run (H0 := Sample.models) (@Sample.database Q _) "H2O@" 5
    (thermoPropertiesReactionFromReactants Sample.database 1%Q 1%Q 3%Q 2%Q "Qtz") State_new
  = (errorNonExistent "reaction" "Qtz" 197, State_new).
Proof.
  refine (from_reactants_absent_reaction (H0 := Sample.models) Sample.database "H2O@"
            1%Q 1%Q State_new 5 3%Q 2%Q "Qtz" _).
  reflexivity.
Defined.

(** X16 on the sample store, with [R_CONSTANT] and [ln_to_lg] taken to be 1:
    the reaction [R] at T = 3, P = 2. *)
Lemma from_reactants_untouched_fields_witness :
  (run (H0 := Sample.models) (@Sample.database Q _) "H2O@" 5
     (thermoPropertiesReactionFromReactants Sample.database 1%Q 1%Q 3%Q 2%Q "R")
     State_new).1 = Ok Sample2.tpr_R /\
  reaction_helmholtz_energy Sample2.tpr_R = 0%Q /\
  reaction_internal_energy Sample2.tpr_R = 0%Q /\
  reaction_heat_capacity_cv Sample2.tpr_R = 0%Q /\
  ln_equilibrium_constant Sample2.tpr_R
    = Qdiv (reaction_gibbs_energy Sample2.tpr_R) (Qopp (Qmult 1 3)) /\
  log_equilibrium_constant Sample2.tpr_R
    = Qmult (ln_equilibrium_constant Sample2.tpr_R) 1.
Proof.
  assert ((run (H0 := Sample.models) (@Sample.database Q _) "H2O@" 5
             (thermoPropertiesReactionFromReactants Sample.database 1%Q 1%Q 3%Q 2%Q "R")
             State_new).1 = Ok Sample2.tpr_R) as Hrun by (vm_compute; reflexivity).
  split; [exact Hrun|].
  exact (from_reactants_untouched_fields (H0 := Sample.models) Sample.database "H2O@"
           1%Q 1%Q State_new 5 3%Q 2%Q "R" Sample.R Sample2.tpr_R eq_refl Hrun).
Defined.

(** X17 on the sample store: the reactants of [R] are [A], [B] and [X], in
    this order. *)
Lemma from_reactants_value_witness :
  exists fuel0, forall fuel, (fuel0 <= fuel)%nat ->
    (run (H0 := Sample.models) (@Sample.database Q _) "H2O@" fuel
       (thermoPropertiesReactionFromReactants Sample.database 1%Q 1%Q 3%Q 2%Q "R")
       State_new).1 =
    Ok (fold_left (fun tpr c => tpr_add_scaled 1%Q 1%Q 3%Q tpr c.2 c.1)
          (zip (reactants (@Sample.R Q _)).*2
             [Sample.tps_all 10008%Q; Sample.tps_all 1290%Q; Sample.tps_all 11373%Q])
          tpr_before_loop).
Proof.
  refine (from_reactants_value (H0 := Sample.models) Sample.database "H2O@" 1%Q 1%Q
            State_new 3%Q 2%Q "R" Sample.R _ _ _ _).
  - apply reachable_new.
  - reflexivity.
  - repeat constructor; exists State_new, 4%nat;
      (split; [apply reachable_new | vm_compute; reflexivity]).
Defined.

(** X18 on the sample store. *)
Lemma from_reactants_needs_the_reactants_witness :
  exists reaction,
    getReaction (@Sample.database Q _) "R" = Ok reaction /\
    Forall (fun reactant =>
              (exists s, getSubstance (@Sample.database Q _) reactant.1 = Ok s) /\
              is_Some (cache_find thermo_properties_substance (3%Q, 2%Q, 2%Q, reactant.1)
                         (run (H0 := Sample.models) (@Sample.database Q _) "H2O@" 5
                            (thermoPropertiesReactionFromReactants Sample.database
                               1%Q 1%Q 3%Q 2%Q "R") State_new).2))
           (reactants reaction).
Proof.
  refine (from_reactants_needs_the_reactants (H0 := Sample.models) Sample.database "H2O@"
            1%Q 1%Q State_new 5 3%Q 2%Q "R" Sample2.tpr_R _ _).
  - apply reachable_new.
  - vm_compute. reflexivity.
Defined.

(** X19 on the sample store: [X] is defined by the reaction [R]. *)
Lemma reaction_derived_needs_the_reactants_witness :
  exists R,
    reactionSymbol (@Sample.X Q _) <> "" /\
    getReaction (@Sample.database Q _) (reactionSymbol (@Sample.X Q _)) = Ok R /\
    (exists tpr, value (H0 := Sample.models) (@Sample.database Q _) "H2O@"
                   thermo_properties_reaction
                   (3%Q, 2%Q, 2%Q, reactionSymbol (@Sample.X Q _)) tpr) /\
    Forall (fun reactant =>
              (exists s, getSubstance (@Sample.database Q _) reactant.1 = Ok s) /\
              exists w, value (H0 := Sample.models) (@Sample.database Q _) "H2O@"
                          thermo_properties_substance (3%Q, 2%Q, 2%Q, reactant.1) w)
           (other_reactants Sample.X R).
Proof.
  refine (reaction_derived_needs_the_reactants (H0 := Sample.models) Sample.database
            "H2O@" State_new 4 3%Q 2%Q "X" Sample.X (Sample.tps_all 11373%Q) _ _ _ _ _).
  - apply reachable_new.
  - reflexivity.
  - discriminate.
  - reflexivity.
  - vm_compute. reflexivity.
Defined.

(** X20 on the sample store: [V] and [W] are defined by the reaction [R_VW],
    each in terms of the other. *)
Lemma cyclic_definitions_have_no_result_witness :
  exists e,
    (entry_point (H0 := Sample.models) (@Sample2.database Q _) "H2O@"
       thermo_properties_substance 9 3%Q 2%Q "V" State_new).1 = Err e.
Proof.
  refine (cyclic_definitions_have_no_result (H0 := Sample.models) Sample2.database "H2O@"
            (fun y => y = "V" \/ y = "W") State_new 9 3%Q 2%Q "V" _ _ _).
  - intros y [-> | ->].
    + exists Sample2.V, Sample2.R_VW, "W".
      split_and!; [reflexivity|discriminate|reflexivity|reflexivity| |by right].
      vm_compute. apply list_elem_of_here.
    + exists Sample2.W, Sample2.R_VW, "V".
      split_and!; [reflexivity|discriminate|reflexivity|reflexivity| |by left].
      vm_compute. apply list_elem_of_here.
  - by left.
  - apply reachable_new.
Defined.

Section QcWitness.
Import Qcanon.
#[local] Existing Instance Qc_Scalar.

(** X21 on the sample store, with rationals in lowest terms: [X] is defined
    by [R] with reactants {A: -1, B: -1, X: 1}; the reaction entry point gives
    75 in every field, and so does the sum over the reactants in the five
    fields it accumulates. *)
Lemma from_reactants_round_trip_witness :
  exists fuel0, forall fuel, (fuel0 <= fuel)%nat ->
    exists tpr',
      (run (H0 := Sample.models) (@Sample.database Qc _) "H2O@" fuel
         (thermoPropertiesReactionFromReactants Sample.database
            (Q2Qc 1) (Q2Qc 1) (Q2Qc 3) (Q2Qc 2) "R") State_new).1 = Ok tpr' /\
      reaction_gibbs_energy tpr'
        = Qcplus (Q2Qc 70) (Qcplus (Q2Qc 3) (Q2Qc 2)) /\
      reaction_enthalpy tpr'
        = Qcplus (Q2Qc 70) (Qcplus (Q2Qc 3) (Q2Qc 2)) /\
      reaction_entropy tpr'
        = Qcplus (Q2Qc 70) (Qcplus (Q2Qc 3) (Q2Qc 2)) /\
      reaction_heat_capacity_cp tpr'
        = Qcplus (Q2Qc 70) (Qcplus (Q2Qc 3) (Q2Qc 2)) /\
      reaction_volume tpr'
        = Qcplus (Q2Qc 70) (Qcplus (Q2Qc 3) (Q2Qc 2)).
Proof.
  refine (from_reactants_round_trip (H0 := Sample.models) Sample.database "H2O@"
            (Q2Qc 1) (Q2Qc 1) State_new State_new 2 (Q2Qc 3) (Q2Qc 2)
            Sample.X Sample.R (Q2Qc 1)
            (Sample.tpr_all (Qcplus (Q2Qc 70) (Qcplus (Q2Qc 3) (Q2Qc 2))))
            [ConMolVol (Models := Sample.models) Sample.A (Q2Qc 3) (Q2Qc 2)
               (EmpiricalCpIntegration (Models := Sample.models) Sample.A (Q2Qc 3) (Q2Qc 2));
             Sample.tps_all (Q2Qc 1290)]
            _ _ _ _ _ _ _ _ _ _ _ _).
  - apply reachable_new.
  - apply reachable_new.
  - reflexivity.
  - discriminate.
  - reflexivity.
  - discriminate.
  - reflexivity.
  - apply (bool_decide_unpack _). vm_compute. exact I.
  - reflexivity.
  - intros Heq. apply (f_equal this) in Heq. discriminate.
  - vm_compute. reflexivity.
  - repeat constructor; exists State_new, 4%nat;
      (split; [apply reachable_new | vm_compute; reflexivity]).
Defined.

End QcWitness.

(** X22 on the sample store with its two solvents.  The HKF solute [B] is
    computed with the solvent "H2O@" and gives 1290; after
    [setSolventSymbol("D2O@")] the same call still gives 1290, while a new
    evaluator with the solvent symbol "D2O@" computes 1237. *)
Lemma setSolventSymbol_keeps_the_caches_witness :
  (pimpl_solventSymbol
     (setSolventSymbol "D2O@"
        (ThermoEngine_call (H0 := Sample.models) thermo_properties_substance 5 3%Q 2%Q "B"
           (ThermoEngine_new Sample2.database)).2) = "D2O@" /\
   ThermoEngine_call (H0 := Sample.models) thermo_properties_substance 5 3%Q 2%Q "B"
     (setSolventSymbol "D2O@"
        (ThermoEngine_call (H0 := Sample.models) thermo_properties_substance 5 3%Q 2%Q "B"
           (ThermoEngine_new Sample2.database)).2)
   = (Ok (Sample.tps_all 1290%Q),
      setSolventSymbol "D2O@"
        (ThermoEngine_call (H0 := Sample.models) thermo_properties_substance 5 3%Q 2%Q "B"
           (ThermoEngine_new Sample2.database)).2)) /\
  (ThermoEngine_call (H0 := Sample.models) thermo_properties_substance 5 3%Q 2%Q "B"
     (setSolventSymbol "D2O@" (ThermoEngine_new Sample2.database))).1
  = Ok (Sample.tps_all 1237%Q).
Proof.
  split; [|vm_compute; reflexivity].
  refine (setSolventSymbol_keeps_the_caches (H0 := Sample.models)
            (ThermoEngine_new Sample2.database) thermo_properties_substance 5 5
            3%Q 2%Q "B" "D2O@" (Sample.tps_all 1290%Q) _).
  vm_compute. reflexivity.
Defined.

(** X23 on the sample store: [A] has the generic method [CTPM_CPT] and the
    pressure code [CPM_CON]. *)
Lemma direct_substance_ignores_the_solvent_witness :
  exists v,
    forall (solventSymbol : string) (st : State) (fuel : nat),
      reachable (H0 := Sample.models) (@Sample.database Q _) solventSymbol st ->
      thermoPropertiesSubstance (H0 := Sample.models) (@Sample.database Q _)
        solventSymbol 3%Q 2%Q "A" = Return v /\
      (entry_point (H0 := Sample.models) (@Sample.database Q _) solventSymbol
         thermo_properties_substance (S fuel) 3%Q 2%Q "A" st).1 = Ok v.
Proof.
  refine (direct_substance_ignores_the_solvent (H0 := Sample.models) Sample.database
            3%Q 2%Q "A" Sample.A _ _ _ _).
  - reflexivity.
  - discriminate.
  - discriminate.
  - right. right. split_and!; discriminate.
Defined.

(** X24 on the sample store, for an evaluator whose solvent symbol was set
    to "Xe@", which the store does not hold, before its first call. *)
Lemma reaction_needs_the_solvent_witness :
  let engine := setSolventSymbol "Xe@" (ThermoEngine_new (@Sample.database Q _)) in
  ThermoEngine_call (H0 := Sample.models) thermo_properties_reaction 2 3%Q 2%Q "R_DKR" engine
  = (errorNonExistent "substance" "Xe@" 189, engine).
Proof.
  refine (reaction_needs_the_solvent (H0 := Sample.models) Sample.database
            _ 0 3%Q 2%Q "R_DKR" Sample.R_DKR _ _ _ _ _).
  - apply engine_setSolventSymbol, engine_new.
  - reflexivity.
  - by left.
  - reflexivity.
  - reflexivity.
Defined.

(** X25 on the sample store: [R] has the temperature code [CTM_LGK]. *)
Lemma reaction_ignores_the_solvent_witness :
  exists v,
    forall (solventSymbol : string) (st : State) (fuel : nat),
      reachable (H0 := Sample.models) (@Sample.database Q _) solventSymbol st ->
      thermoPropertiesReaction (H0 := Sample.models) (@Sample.database Q _)
        solventSymbol 3%Q 2%Q "R" = Return v /\
      (entry_point (H0 := Sample.models) (@Sample.database Q _) solventSymbol
         thermo_properties_reaction (S fuel) 3%Q 2%Q "R" st).1 = Ok v.
Proof.
  refine (reaction_ignores_the_solvent (H0 := Sample.models) Sample.database
            3%Q 2%Q "R" Sample.R _ _ _).
  - reflexivity.
  - discriminate.
  - discriminate.
Defined.

(** X26 on the sample store: after a first call, a second one needs no fuel
    at all. *)
Lemma from_reactants_repeated_witness :
  run (H0 := Sample.models) (@Sample.database Q _) "H2O@" 0
    (thermoPropertiesReactionFromReactants Sample.database 1%Q 1%Q 3%Q 2%Q "R")
    (run (H0 := Sample.models) (@Sample.database Q _) "H2O@" 5
       (thermoPropertiesReactionFromReactants Sample.database 1%Q 1%Q 3%Q 2%Q "R")
       State_new).2
  = (Ok Sample2.tpr_R,
     (run (H0 := Sample.models) (@Sample.database Q _) "H2O@" 5
        (thermoPropertiesReactionFromReactants Sample.database 1%Q 1%Q 3%Q 2%Q "R")
        State_new).2).
Proof.
  refine (from_reactants_repeated (H0 := Sample.models) Sample.database "H2O@"
            1%Q 1%Q State_new 5 0 3%Q 2%Q "R" Sample2.tpr_R _ _).
  - apply reachable_new.
  - vm_compute. reflexivity.
Defined.

(** X27 on the sample store, which holds no record named "Quartz" and no
    reaction named "R_VW". *)
Lemma listing_after_add_witness :
  (getSubstances (addSubstance Sample.quartz (@Sample.database Q _))
     ≡ₚ Sample.quartz :: getSubstances Sample.database /\
   getReactions (addSubstance Sample.quartz (@Sample.database Q _))
     = getReactions Sample.database) /\
  (getReactions (addReaction Sample2.R_VW (@Sample.database Q _))
     ≡ₚ Sample2.R_VW :: getReactions Sample.database /\
   getSubstances (addReaction Sample2.R_VW (@Sample.database Q _))
     = getSubstances Sample.database).
Proof.
  apply (listing_after_add Sample.database Sample.quartz Sample2.R_VW); reflexivity.
Defined.
